(** * recharts-app: the chart-intent inference engine

    A shallow embedding of the chart generator component
    (flattenObject, the dataKeys classification, dataPromptHash and the
    assembly effect of ChartGenerator) and of the chart-type registry of
    echartsConfig.ts (keyword lists, detectEChartsType, and the pie,
    boxplot and candlestick option builders), with the properties the
    specification states about them; further on, the bar family of
    builders, the title of the chart, the older detector of chartConfig.ts,
    the generateChart action of the server and of the page, and the
    bundled examples.

    Conventions of the model.
    - A JavaScript string is a [string] of ASCII characters; case mapping
      and the classes \w and \s are the ASCII ones.
    - A JavaScript number is [NaN], an infinity, or a finite value; a finite
      double is a rational, and the embedded code only copies, compares and
      sorts numbers, so finite values are carried as [Q].
    - An object is the list of its own properties in enumeration order;
      an assignment creates or updates an own property, as JavaScript does
      on a plain object for every key but __proto__ (there the inherited
      setter runs); statements that depend on it exclude that key.
    - The effect body of the component is a state transformer over the
      mutable cells it touches (the hash ref, the stored configuration, the
      palette cache), with a ghost counter of option-builder invocations.
      The option builders are parameters; the colours the line builder
      draws for its trendlines are theirs and are not counted among the
      colours the palette draws. *)

From Stdlib Require Import List String Ascii Bool Arith ZArith QArith Qround.
From Stdlib Require Import Lia Permutation Sorted DecimalString.
Import ListNotations.

Local Open Scope string_scope.
Local Open Scope list_scope.
Local Open Scope nat_scope.

Set Implicit Arguments.
Set Warnings "-register-all".

(* ------------------------------------------------------------------ *)
(** ** Strings *)

Module JsString.

Definition code (c : ascii) : nat := nat_of_ascii c.

Definition between (lo hi : nat) (c : ascii) : bool :=
  (lo <=? code c) && (code c <=? hi).

Definition is_lower (c : ascii) : bool := between 97 122 c.
Definition is_upper (c : ascii) : bool := between 65 90 c.
Definition is_digit (c : ascii) : bool := between 48 57 c.

(** The class \w: [A-Za-z0-9_]. *)
Definition is_word (c : ascii) : bool :=
  is_lower c || is_upper c || is_digit c || (code c =? 95).

(** The class \s (and the characters [trim] removes), on ASCII. *)
Definition is_space (c : ascii) : bool :=
  between 9 13 c || (code c =? 32).

Definition lower_char (c : ascii) : ascii :=
  if is_upper c then ascii_of_nat (code c + 32) else c.

Fixpoint toLowerCase (s : string) : string :=
  match s with
  | EmptyString => EmptyString
  | String c s' => String (lower_char c) (toLowerCase s')
  end.

Fixpoint trimStart (s : string) : string :=
  match s with
  | String c s' => if is_space c then trimStart s' else s
  | EmptyString => EmptyString
  end.

Fixpoint rev_string (s acc : string) : string :=
  match s with
  | EmptyString => acc
  | String c s' => rev_string s' (String c acc)
  end.

Definition trimEnd (s : string) : string :=
  rev_string (trimStart (rev_string s "")) "".

Definition trim (s : string) : string := trimEnd (trimStart s).

Fixpoint startsWith (s p : string) : bool :=
  match p, s with
  | EmptyString, _ => true
  | String a p', String b s' => Ascii.eqb a b && startsWith s' p'
  | String _ _, EmptyString => false
  end.

(** [s.includes(sub)] *)
Fixpoint includes (s sub : string) : bool :=
  startsWith s sub ||
  match s with
  | EmptyString => false
  | String _ s' => includes s' sub
  end.

Definition is_empty (s : string) : bool :=
  match s with EmptyString => true | _ => false end.

(** The first [n] characters, [s.slice(0, n)]. *)
Fixpoint take (n : nat) (s : string) : string :=
  match n, s with
  | S n', String c s' => String c (take n' s')
  | _, _ => EmptyString
  end.

Fixpoint drop (n : nat) (s : string) : string :=
  match n, s with
  | S n', String _ s' => drop n' s'
  | _, _ => s
  end.

(** The last [n] characters, [s.slice(-n)] for n > 0. *)
Definition take_last (n : nat) (s : string) : string :=
  drop (String.length s - n) s.

(** [s.split(/\s+/)]: the pieces between maximal runs of white space. *)
Fixpoint split_ws_aux (s : string) (cur : string) (in_run : bool)
  : list string :=
  match s with
  | EmptyString => [rev_string cur ""]
  | String c s' =>
      if is_space c
      then if in_run then split_ws_aux s' cur true
           else rev_string cur "" :: split_ws_aux s' "" true
      else split_ws_aux s' (String c cur) false
  end.

Definition split_ws (s : string) : list string := split_ws_aux s "" false.

(** [s.split(/[...]/)] for a one-character separator class. *)
Fixpoint split_on_aux (sep : ascii -> bool) (s cur : string) : list string :=
  match s with
  | EmptyString => [rev_string cur ""]
  | String c s' =>
      if sep c then rev_string cur "" :: split_on_aux sep s' ""
      else split_on_aux sep s' (String c cur)
  end.

Definition split_on (sep : ascii -> bool) (s : string) : list string :=
  split_on_aux sep s "".

(** [s.replace(/[...]/g, r)] for a character class. *)
Fixpoint replace_class (cls : ascii -> bool) (r : string) (s : string)
  : string :=
  match s with
  | EmptyString => EmptyString
  | String c s' =>
      if cls c then r ++ replace_class cls r s'
      else String c (replace_class cls r s')
  end.

Definition chr_is (n : nat) (c : ascii) : bool := code c =? n.

(** [/[_-]/], [/_/], [/\./], [/[._-]/] and [/[^a-z0-9]/]. *)
Definition cls_us_dash (c : ascii) : bool := chr_is 95 c || chr_is 45 c.
Definition cls_us (c : ascii) : bool := chr_is 95 c.
Definition cls_dot (c : ascii) : bool := chr_is 46 c.
Definition cls_dot_us_dash (c : ascii) : bool := chr_is 46 c || cls_us_dash c.
Definition cls_not_alnum (c : ascii) : bool :=
  negb (is_lower c || is_digit c).

Fixpoint join (sep : string) (l : list string) : string :=
  match l with
  | [] => ""
  | [x] => x
  | x :: l' => x ++ sep ++ join sep l'
  end.

(** Decimal rendering of a length or an index. *)
Definition of_nat (n : nat) : string :=
  NilZero.string_of_uint (Nat.to_uint n).

End JsString.

(* ------------------------------------------------------------------ *)
(** ** Regular expressions

    The fragment of RegExp the sources use: literal characters and classes,
    sequence, ordered alternation, greedy repetition of a class, and the
    assertion \b.  Matching is backtracking with the engine's priorities
    (left alternative first, longest repetition first), so the first result
    found is the one RegExp reports. *)

Module Regex.
Import JsString.

Inductive re : Type :=
| Eps
| Chr (p : ascii -> bool)
| Seq (a b : re)
| Alt (a b : re)
| Star (p : ascii -> bool)
| Bnd.

Definition Plus (p : ascii -> bool) : re := Seq (Chr p) (Star p).
Definition Opt (r : re) : re := Alt r Eps.

Definition word_opt (c : option ascii) : bool :=
  match c with Some c => is_word c | None => false end.

Definition head (s : string) : option ascii :=
  match s with String c _ => Some c | EmptyString => None end.

(** \b holds between [prev] and the rest [s] when exactly one side is a
    word character. *)
Definition at_boundary (prev : option ascii) (s : string) : bool :=
  xorb (word_opt prev) (word_opt (head s)).

Section Match.
Variable A : Type.

Definition orelse (x y : option A) : option A :=
  match x with Some _ => x | None => y end.

Fixpoint star_loop (p : ascii -> bool)
    (k : option ascii -> string -> option A)
    (prev : option ascii) (s : string) : option A :=
  match s with
  | String c s' =>
      if p c then orelse (star_loop p k (Some c) s') (k prev s)
      else k prev s
  | EmptyString => k prev s
  end.

Fixpoint rmatch (r : re) (prev : option ascii) (s : string)
    (k : option ascii -> string -> option A) : option A :=
  match r with
  | Eps => k prev s
  | Chr p =>
      match s with
      | String c s' => if p c then k (Some c) s' else None
      | EmptyString => None
      end
  | Seq a b => rmatch a prev s (fun prev' s' => rmatch b prev' s' k)
  | Alt a b => orelse (rmatch a prev s k) (rmatch b prev s k)
  | Star p => star_loop p k prev s
  | Bnd => if at_boundary prev s then k prev s else None
  end.
End Match.

(** The rest of the input after the first match starting here. *)
Definition match_here (r : re) (prev : option ascii) (s : string)
  : option string :=
  rmatch r prev s (fun _ rest => Some rest).

(** [regex.test(s)]: some position of [s] starts a match. *)
Fixpoint search (r : re) (prev : option ascii) (s : string) : bool :=
  match match_here r prev s with
  | Some _ => true
  | None =>
      match s with
      | String c s' => search r (Some c) s'
      | EmptyString => false
      end
  end.

Definition test (r : re) (s : string) : bool := search r None s.

(** [s.match(regex)] with the g flag: the matched texts, left to right,
    each search resuming where the previous match ended.  [skip] counts the
    characters of the current match still to be passed over. *)
Fixpoint match_all_aux (r : re) (prev : option ascii) (s : string)
    (skip : nat) : list string :=
  match s with
  | EmptyString => []
  | String c s' =>
      match skip with
      | S k => match_all_aux r (Some c) s' k
      | O =>
          match match_here r prev s with
          | Some rest =>
              let len := String.length s - String.length rest in
              take len s :: match_all_aux r (Some c) s' (len - 1)
          | None => match_all_aux r (Some c) s' 0
          end
      end
  end.

Definition match_all (r : re) (s : string) : list string :=
  match_all_aux r None s 0.

(** A literal character; [ci] is the i flag. *)
Definition lit_char (ci : bool) (a : ascii) : re :=
  Chr (fun c => if ci then Ascii.eqb (lower_char c) (lower_char a)
                else Ascii.eqb c a).

Fixpoint lit (ci : bool) (w : string) : re :=
  match w with
  | EmptyString => Eps
  | String a w' => Seq (lit_char ci a) (lit ci w')
  end.

Fixpoint alts (rs : list re) : re :=
  match rs with
  | [] => Chr (fun _ => false)
  | [r] => r
  | r :: rs' => Alt r (alts rs')
  end.

(** The source of a keyword pattern: the keyword with every run of white
    space replaced by \s+, as [keyword.replace(/\s+/g, "\\s+")] leaves it. *)
Fixpoint keyword_body (ci : bool) (w : string) (in_run : bool) : re :=
  match w with
  | EmptyString => Eps
  | String a w' =>
      if is_space a
      then if in_run then keyword_body ci w' true
           else Seq (Plus is_space) (keyword_body ci w' true)
      else Seq (lit_char ci a) (keyword_body ci w' false)
  end.

(** [new RegExp(`\\b${keyword.replace(/\s+/g, "\\s+")}\\b`, "i")] *)
Definition whole_word (w : string) : re :=
  Seq Bnd (Seq (keyword_body true w false) Bnd).

End Regex.

(* ------------------------------------------------------------------ *)
(** ** Values *)

Module Js.
Import JsString.

Inductive number : Type :=
| NaN
| NegInf
| PosInf
| Fin (q : Q).

Definition num_of_Z (z : Z) : number := Fin (inject_Z z).

Definition isNaN (n : number) : bool :=
  match n with NaN => true | _ => false end.

Definition isFinite (n : number) : bool :=
  match n with Fin _ => true | _ => false end.

(** [a - b] *)
Definition sub (a b : number) : number :=
  match a, b with
  | NaN, _ | _, NaN => NaN
  | Fin x, Fin y => Fin (x - y)
  | PosInf, PosInf | NegInf, NegInf => NaN
  | PosInf, _ | _, NegInf => PosInf
  | NegInf, _ | _, PosInf => NegInf
  end.

(** [a < b] *)
Definition ltb (a b : number) : bool :=
  match a, b with
  | NaN, _ | _, NaN => false
  | Fin x, Fin y => negb (Qle_bool y x)
  | NegInf, NegInf => false
  | NegInf, _ => true
  | _, NegInf => false
  | PosInf, _ => false
  | _, PosInf => true
  end.

Definition zero : number := Fin 0.

(** [Math.min(a, b)] and [Math.max(a, b)] *)
Definition Math_min (a b : number) : number :=
  if isNaN a || isNaN b then NaN else if ltb b a then b else a.

Definition Math_max (a b : number) : number :=
  if isNaN a || isNaN b then NaN else if ltb a b then b else a.

(** A value of the data or of an option structure.  [JObj] lists the own
    properties in enumeration order. *)
Inductive JValue : Type :=
| JNull
| JUndefined
| JBool (b : bool)
| JNum (n : number)
| JStr (s : string)
| JArr (items : list JValue)
| JObj (props : list (string * JValue)).

Definition Obj : Type := list (string * JValue).

Definition truthy (v : JValue) : bool :=
  match v with
  | JNull | JUndefined => false
  | JBool b => b
  | JNum n => match n with
              | NaN => false
              | Fin q => negb (Qeq_bool q 0)
              | _ => true
              end
  | JStr s => negb (is_empty s)
  | JArr _ | JObj _ => true
  end.

(** ** Objects *)

Fixpoint digits_value (s : string) (acc : N) : option N :=
  match s with
  | EmptyString => Some acc
  | String c s' =>
      if is_digit c
      then digits_value s' (acc * 10 + N.of_nat (code c - 48))%N
      else None
  end.

(** A property key that is an array index (the canonical decimal form of
    an integer below 2^32 - 1): such keys are enumerated first, in numeric
    order; all others follow in creation order. *)
Definition index_of_key (k : string) : option N :=
  match k with
  | EmptyString => None
  | String c k' =>
      if chr_is 48 c && negb (is_empty k') then None
      else if 10 <? String.length k then None
      else match digits_value k 0%N with
           | Some n => if (n <? 4294967295)%N then Some n else None
           | None => None
           end
  end.

Fixpoint obj_has (k : string) (o : Obj) : bool :=
  match o with
  | [] => false
  | (k', _) :: o' => String.eqb k k' || obj_has k o'
  end.

(** [o[k]] on own properties; [undefined] when absent. *)
Fixpoint obj_get (k : string) (o : Obj) : JValue :=
  match o with
  | [] => JUndefined
  | (k', v) :: o' => if String.eqb k k' then v else obj_get k o'
  end.

Fixpoint obj_update (k : string) (v : JValue) (o : Obj) : Obj :=
  match o with
  | [] => []
  | (k', v') :: o' =>
      if String.eqb k k' then (k', v) :: o'
      else (k', v') :: obj_update k v o'
  end.

Fixpoint obj_insert_index (i : N) (k : string) (v : JValue) (o : Obj) : Obj :=
  match o with
  | [] => [(k, v)]
  | (k', v') :: o' =>
      match index_of_key k' with
      | Some j => if (j <? i)%N then (k', v') :: obj_insert_index i k v o'
                  else (k, v) :: o
      | None => (k, v) :: o
      end
  end.

(** [o[k] = v] *)
Definition obj_set (k : string) (v : JValue) (o : Obj) : Obj :=
  if obj_has k o then obj_update k v o
  else match index_of_key k with
       | Some i => obj_insert_index i k v o
       | None => o ++ [(k, v)]
       end.

(** [Object.keys(o)] *)
Definition keys (o : Obj) : list string := map fst o.

(** [item[key]] for an element of the data handed to a builder. *)
Definition prop (item : JValue) (k : string) : JValue :=
  match item with
  | JObj o => obj_get k o
  | _ => JUndefined
  end.

End Js.

(* ------------------------------------------------------------------ *)
(** ** flattenObject *)

Module Flatten.
Import JsString Js.

(** [prefix ? `${prefix}.${key}` : key] *)
Definition join_key (prefix key : string) : string :=
  if is_empty prefix then key else prefix ++ "." ++ key.

Fixpoint flattenObject (obj : JValue) (prefix : string) (result : Obj) : Obj :=
  match obj with
  | JObj props =>
      (fix each_key (ps : list (string * JValue)) (result : Obj) : Obj :=
         match ps with
         | [] => result
         | (key, value) :: ps' =>
             let newKey := join_key prefix key in
             each_key ps'
               match value with
               | JNull | JUndefined => obj_set newKey value result
               | JArr items =>
                   match items with
                   | [] => result
                   | firstItem :: _ =>
                       match firstItem with
                       | JNum _ | JStr _ | JBool _ =>
                           obj_set newKey value result
                       | JObj _ | JArr _ =>
                           (fix forEach (its : list JValue) (idx : nat)
                                (result : Obj) : Obj :=
                              match its with
                              | [] => result
                              | item :: its' =>
                                  forEach its' (S idx)
                                    match item with
                                    | JObj _ =>
                                        flattenObject item
                                          (newKey ++ "[" ++ of_nat idx ++ "]")
                                          result
                                    | _ => result
                                    end
                              end) items 0 result
                       | JNull | JUndefined => result
                       end
                   end
               | JObj _ => flattenObject value newKey result
               | JBool _ | JNum _ | JStr _ => obj_set newKey value result
               end
         end) props result
  | _ => result
  end.

(** [flattenObject(item)] with the default prefix and a fresh result. *)
Definition flatten (item : JValue) : Obj := flattenObject item "" [].

End Flatten.

(* ------------------------------------------------------------------ *)
(** ** Arrays *)

Module JsArray.
Import Js.

(** [l[i]]; [None] is [undefined], also for a negative index. *)
Definition get (A : Type) (l : list A) (i : Z) : option A :=
  if (i <? 0)%Z then None else nth_error l (Z.to_nat i).

(** [Math.floor(n * f)] for a length [n] and a decimal fraction [f]. *)
Definition floor_mul (n : nat) (f : Q) : Z :=
  Qfloor (inject_Z (Z.of_nat n) * f).

Section Sort.
Variable A : Type.
Variable compareFn : A -> A -> number.

(** [y] stays in front of [x] exactly when [compareFn(y, x) < 0]; a [NaN]
    result counts as zero, as in Array.prototype.sort. *)
Fixpoint insert (x : A) (l : list A) : list A :=
  match l with
  | [] => [x]
  | y :: l' =>
      if ltb (compareFn y x) zero then y :: insert x l' else x :: l
  end.

(** [l.sort(compareFn)]: the stable sort, which is the result the language
    fixes whenever [compareFn] is a consistent comparator. *)
Fixpoint sort (l : list A) : list A :=
  match l with
  | [] => []
  | x :: l' => insert x (sort l')
  end.
End Sort.

(** [l.map((item, idx) => f(item, idx))] *)
Fixpoint mapi_from (A B : Type) (f : A -> nat -> B) (i : nat) (l : list A)
  : list B :=
  match l with
  | [] => []
  | x :: l' => f x i :: mapi_from f (S i) l'
  end.

Definition mapi (A B : Type) (f : A -> nat -> B) (l : list A) : list B :=
  mapi_from f 0 l.

(** [Array.from(new Set(l))]: first occurrences, in order. *)
Fixpoint unique_aux (seen : list string) (l : list string) : list string :=
  match l with
  | [] => []
  | x :: l' =>
      if existsb (String.eqb x) seen then unique_aux seen l'
      else x :: unique_aux (x :: seen) l'
  end.

Definition unique (l : list string) : list string := unique_aux [] l.

(** [l.includes(x)] on strings. *)
Definition includes (l : list string) (x : string) : bool :=
  existsb (String.eqb x) l.

End JsArray.

(* ------------------------------------------------------------------ *)
(** ** The runtime

    What the embedded code obtains from the JavaScript runtime and this
    development does not define: the rendering and parsing of numbers, date
    parsing, serialization ([None] when JSON.stringify throws), and the
    [n]-th colour that generateRandomColor draws in a session. *)

Record Runtime : Type := {
  number_toString : Js.number -> string;
  parseFloat : string -> Js.number;
  Date_parse : string -> Js.number;
  JSON_stringify : list Js.JValue -> option string;
  generateRandomColor : nat -> string
}.

(* ------------------------------------------------------------------ *)
(** ** The chart-type registry (echartsConfig.ts) *)

Module Registry.
Import JsString Regex Js.

Record EChartsElementConfig : Type := {
  nameKey : string;
  valueKey : string;
  dataKeys : option (list string);
  colors : list string;
  isStacked : bool;
  isGrouped : bool;
  hasTrendline : bool;
  multipleTrendlines : bool;
  data : list JValue
}.

Record EChartsConfig : Type := {
  chartType : string;
  echartsType : string;
  keywords : list string;
  generateOption : EChartsElementConfig -> JValue
}.

Definition num (z : Z) : JValue := JNum (num_of_Z z).

(** [colors[i]] as a value of the option structure. *)
Definition color_get (colors : list string) (i : Z) : JValue :=
  match JsArray.get colors i with
  | Some c => JStr c
  | None => JUndefined
  end.

(** [config.colors[idx % config.colors.length]]; the index is [NaN] for an
    empty palette, and the lookup [undefined]. *)
Definition color_cycle (colors : list string) (idx : nat) : JValue :=
  match colors with
  | [] => JUndefined
  | _ => color_get colors (Z.of_nat (idx mod List.length colors))
  end.

(** [typeof val === "number" ? val : 0] *)
Definition number_or_zero (val : JValue) : number :=
  match val with
  | JNum n => n
  | _ => zero
  end.

(** [a || b] *)
Definition or_else (a b : JValue) : JValue := if truthy a then a else b.

Section Builders.
Variable rt : Runtime.

(** [String(v)] *)
Fixpoint String_of (v : JValue) : string :=
  match v with
  | JNull => "null"
  | JUndefined => "undefined"
  | JBool b => if b then "true" else "false"
  | JNum n => number_toString rt n
  | JStr s => s
  | JArr items =>
      join ","
        (map (fun x => match x with
                       | JNull | JUndefined => ""
                       | _ => String_of x
                       end) items)
  | JObj _ => "[object Object]"
  end.

(** [String(item[config.nameKey] || "")] *)
Definition label_of (config : EChartsElementConfig) (item : JValue) : string :=
  String_of (or_else (prop item (nameKey config)) (JStr "")).

(** The value of a pie slice: the number itself, a string through
    [parseFloat(val) || 0], anything else 0. *)
Definition pie_value (val : JValue) : number :=
  match val with
  | JNum n => n
  | JStr s =>
      let n := parseFloat rt s in
      if truthy (JNum n) then n else zero
  | _ => zero
  end.

Definition pie_datum (config : EChartsElementConfig) (item : JValue)
    (idx : nat) : JValue :=
  let val := prop item (valueKey config) in
  JObj [ ("value", JNum (pie_value val));
         ("name", JStr (label_of config item));
         ("itemStyle", JObj [("color", color_cycle (colors config) idx)]) ].

Definition pie_generateOption (config : EChartsElementConfig) : JValue :=
  JObj [
    ("tooltip", JObj [ ("trigger", JStr "item");
                       ("formatter", JStr "{a} <br/>{b}: {c} ({d}%)") ]);
    ("legend", JObj [ ("orient", JStr "vertical"); ("left", JStr "left") ]);
    ("series", JArr [
       JObj [ ("name", JStr (valueKey config));
              ("type", JStr "pie");
              ("radius", JStr "50%");
              ("data", JArr (JsArray.mapi (pie_datum config) (data config)));
              ("emphasis", JObj [
                 ("itemStyle", JObj [ ("shadowBlur", num 10);
                                      ("shadowOffsetX", num 0);
                                      ("shadowColor",
                                       JStr "rgba(0, 0, 0, 0.5)") ]) ]) ] ])
  ].

(** The tooltip, grid and axis blocks the boxplot and candlestick builders
    share literally. *)
Definition dark_tooltip (extra : list (string * JValue)) : JValue :=
  JObj (extra ++
        [ ("backgroundColor", JStr "rgba(50, 50, 50, 0.9)");
          ("borderColor", JStr "#777");
          ("borderWidth", num 1);
          ("textStyle", JObj [("color", JStr "#fff")]) ]).

Definition grid (top : string) : JValue :=
  JObj [ ("left", JStr "3%"); ("right", JStr "4%"); ("bottom", JStr "3%");
         ("top", JStr top); ("containLabel", JBool true) ].

Definition axis_line : (string * JValue) :=
  ("axisLine", JObj [("lineStyle", JObj [("color", JStr "#666")])]).

Definition split_line : (string * JValue) :=
  ("splitLine", JObj [("lineStyle", JObj [ ("type", JStr "dashed");
                                           ("color", JStr "#e0e0e0") ])]).

Definition axis_label (config : EChartsElementConfig) : (string * JValue) :=
  ("axisLabel",
   JObj [ ("rotate", if 10 <? List.length (data config) then num 45 else num 0);
          ("interval", num 0) ]).

Definition category_data (config : EChartsElementConfig) : (string * JValue) :=
  ("data", JArr (map (fun item => JStr (label_of config item)) (data config))).

(** *** boxplot *)

Definition boxplot_values (config : EChartsElementConfig) : list number :=
  JsArray.sort (fun a b => sub a b)
    (map (fun item => number_or_zero (prop item (valueKey config)))
         (data config)).

(** An element of [values] as it enters the option structure. *)
Definition elem (v : option number) : JValue :=
  match v with
  | Some n => JNum n
  | None => JUndefined
  end.

Definition boxplot_q1 (values : list number) : option number :=
  JsArray.get values (JsArray.floor_mul (List.length values) 0.25).
Definition boxplot_median (values : list number) : option number :=
  JsArray.get values (JsArray.floor_mul (List.length values) 0.5).
Definition boxplot_q3 (values : list number) : option number :=
  JsArray.get values (JsArray.floor_mul (List.length values) 0.75).
Definition boxplot_min (values : list number) : option number :=
  JsArray.get values 0.
Definition boxplot_max (values : list number) : option number :=
  JsArray.get values (Z.of_nat (List.length values) - 1).

Definition boxplot_generateOption (config : EChartsElementConfig) : JValue :=
  let values := boxplot_values config in
  let q1 := boxplot_q1 values in
  let median := boxplot_median values in
  let q3 := boxplot_q3 values in
  let min := boxplot_min values in
  let max := boxplot_max values in
  JObj [
    ("animation", JBool true);
    ("animationDuration", num 1000);
    ("tooltip", dark_tooltip [("trigger", JStr "item")]);
    ("grid", grid "10%");
    ("xAxis", JObj [ ("type", JStr "category"); category_data config;
                     axis_label config; axis_line ]);
    ("yAxis", JObj [ ("type", JStr "value"); axis_line; split_line ]);
    ("series", JArr [
       JObj [ ("name", JStr (valueKey config));
              ("type", JStr "boxplot");
              ("data", JArr [ JArr [elem min; elem q1; elem median;
                                    elem q3; elem max] ]);
              ("itemStyle", JObj [("color", color_get (colors config) 0)]) ] ])
  ].

(** *** candlestick *)

(** [config.dataKeys || [config.valueKey]] *)
Definition series_keys (config : EChartsElementConfig) : list string :=
  match dataKeys config with
  | Some ks => ks
  | None => [valueKey config]
  end.

(** [keys[0] || config.valueKey] *)
Definition first_key_or_value (config : EChartsElementConfig)
    (keys : list string) : option string :=
  match JsArray.get keys 0 with
  | Some k => if is_empty k then Some (valueKey config) else Some k
  | None => Some (valueKey config)
  end.

(** The four property names read as open, close, low and high; [None] is
    an [undefined] entry. *)
Definition ohlcKeys (config : EChartsElementConfig) : list (option string) :=
  let keys := series_keys config in
  if 4 <=? List.length keys
  then map Some (firstn 4 keys)
  else [ JsArray.get keys 0;
         first_key_or_value config keys;
         first_key_or_value config keys;
         first_key_or_value config keys ].

(** [item[ohlcKeys[i]]]; an [undefined] name reads the property
    "undefined". *)
Definition ohlc_prop (item : JValue) (ks : list (option string)) (i : Z)
  : JValue :=
  match JsArray.get ks i with
  | Some (Some k) => prop item k
  | _ => prop item "undefined"
  end.

Definition candlestick_datum (config : EChartsElementConfig) (item : JValue)
  : list number :=
  let ks := ohlcKeys config in
  let openVal := ohlc_prop item ks 0 in
  let closeVal := ohlc_prop item ks 1 in
  let lowVal := ohlc_prop item ks 2 in
  let highVal := ohlc_prop item ks 3 in
  let open := number_or_zero openVal in
  let close := number_or_zero closeVal in
  let low := match lowVal with JNum n => n | _ => Math_min open close end in
  let high := match highVal with JNum n => n | _ => Math_max open close end in
  [open; close; low; high].

Definition candlestick_generateOption (config : EChartsElementConfig)
  : JValue :=
  JObj [
    ("animation", JBool true);
    ("animationDuration", num 1000);
    ("tooltip", dark_tooltip [ ("trigger", JStr "axis");
                               ("axisPointer", JObj [("type", JStr "cross")]) ]);
    ("grid", grid "15%");
    ("xAxis", JObj [ ("type", JStr "category"); category_data config;
                     ("scale", JBool true); ("boundaryGap", JBool false);
                     axis_label config; axis_line ]);
    ("yAxis", JObj [ ("scale", JBool true);
                     ("splitArea", JObj [("show", JBool true)]);
                     axis_line; split_line ]);
    ("series", JArr [
       JObj [ ("name", JStr "Candlestick");
              ("type", JStr "candlestick");
              ("data", JArr (map (fun item =>
                                    JArr (map JNum (candlestick_datum config item)))
                                 (data config)));
              ("itemStyle", JObj [
                 ("color", color_get (colors config) 0);
                 ("color0", or_else (color_get (colors config) 1)
                                    (color_get (colors config) 0));
                 ("borderColor", color_get (colors config) 0);
                 ("borderColor0", or_else (color_get (colors config) 1)
                                          (color_get (colors config) 0)) ]) ] ])
  ].

(** *** The catalogue

    [generateOption_of] stands for the option builders of the chart types
    whose option structure none of the properties below inspects.  It is
    indexed by the registry key and yields the properties of the object
    literal the builder returns. *)
Variable generateOption_of : string -> EChartsElementConfig -> Obj.

Definition entry (key type echarts : string) (kws : list string)
  : string * EChartsConfig :=
  (key, {| chartType := type; echartsType := echarts; keywords := kws;
           generateOption := fun config => JObj (generateOption_of key config) |}).

Definition ECHARTS_TYPE_CONFIGS : list (string * EChartsConfig) := [
  entry "bar" "bar" "bar" ["bar"; "bars"; "column"; "columns"];
  entry "stackedbar" "stackedbar" "bar"
    ["stacked bar"; "stacked column"; "stacked bars"];
  entry "groupedbar" "groupedbar" "bar"
    ["grouped bar"; "grouped column"; "grouped bars"];
  entry "line" "line" "line" ["line"; "lines"; "graph"; "graphs"; "trend"];
  entry "area" "line" "line" ["area"; "areas"; "filled"];
  entry "stackedarea" "stackedarea" "line" ["stacked area"; "stacked areas"];
  ("pie", {| chartType := "pie"; echartsType := "pie";
             keywords := ["pie"; "pies"; "circle"; "percentage"; "proportion"];
             generateOption := pie_generateOption |});
  entry "donut" "donut" "pie" ["donut"; "doughnut"];
  entry "scatter" "scatter" "scatter" ["scatter"; "scatter plot"; "scatterplot"];
  entry "bubble" "bubble" "scatter" ["bubble"; "bubbles"];
  entry "radar" "radar" "radar" ["radar"; "spider"; "web"; "polar"];
  entry "heatmap" "heatmap" "heatmap" ["heatmap"; "heat map"];
  entry "treemap" "treemap" "treemap" ["treemap"; "tree map"; "hierarchy"];
  entry "funnel" "funnel" "funnel" ["funnel"; "funnels"; "conversion"];
  entry "sankey" "sankey" "sankey" ["sankey"; "flow"; "alluvial"];
  entry "sunburst" "sunburst" "sunburst"
    ["sunburst"; "sun burst"; "hierarchical pie"];
  entry "radialbar" "radialbar" "gauge" ["radial"; "radial bar"; "gauge"];
  entry "polararea" "polararea" "polar" ["polar area"; "polar area chart"];
  entry "histogram" "histogram" "bar" ["histogram"; "histograms"];
  ("boxplot", {| chartType := "boxplot"; echartsType := "boxplot";
                 keywords := ["box plot"; "boxplot"; "box and whisker"];
                 generateOption := boxplot_generateOption |});
  entry "lollipop" "lollipop" "scatter" ["lollipop"; "lollipops"];
  entry "density" "density" "line" ["density plot"; "density"];
  ("candlestick", {| chartType := "candlestick"; echartsType := "candlestick";
                     keywords := ["candlestick"; "candle"; "ohlc"; "financial";
                                  "stock"; "trading"];
                     generateOption := candlestick_generateOption |});
  entry "parallel" "parallel" "parallel"
    ["parallel"; "parallel coordinates"; "multivariate"; "correlation"];
  entry "graph" "graph" "graph"
    ["graph"; "network"; "node"; "link"; "relationship"; "connection";
     "graph diagram"];
  entry "themeriver" "themeriver" "themeRiver"
    ["theme river"; "stream"; "flow"; "timeline"; "event flow"];
  entry "effectscatter" "effectscatter" "effectScatter"
    ["effect scatter"; "ripple"; "animated scatter"; "pulsing scatter"];
  entry "lines" "lines" "lines"
    ["lines"; "route"; "path"; "trajectory"; "movement"; "flow lines"];
  entry "tree" "tree" "tree"
    ["tree"; "hierarchical tree"; "organization"; "org chart"; "tree diagram"];
  entry "calendar" "calendar" "calendar"
    ["calendar"; "calendar heatmap"; "heat calendar"; "activity calendar";
     "daily"]
].

(** *** detectEChartsType and getEChartsConfig *)

(** [/\b(dual|multiple)\s*(trendline|trend\s*line)\b/] *)
Definition re_multiple_trendline : re :=
  Seq Bnd
    (Seq (Alt (lit false "dual") (lit false "multiple"))
       (Seq (Star is_space)
          (Seq (Alt (lit false "trendline")
                  (Seq (lit false "trend")
                     (Seq (Star is_space) (lit false "line"))))
             Bnd))).

(** The test for several trendlines, the same expression in
    detectEChartsType and in the component. *)
Definition asks_multiple_trendlines (promptLower : string) : bool :=
  includes promptLower "dual trendline" ||
  includes promptLower "multiple trendline" ||
  Regex.test re_multiple_trendline promptLower.

(** [Math.max(...keywords.map((k) => k.length))] *)
Definition max_keyword_length (kws : list string) : number :=
  fold_left (fun m k => Math_max m (num_of_Z (Z.of_nat (String.length k))))
            kws NegInf.

(** The comparator of the sort: [bMaxKeyword - aMaxKeyword]. *)
Definition by_specificity (a b : string * EChartsConfig) : number :=
  sub (max_keyword_length (keywords (snd b)))
      (max_keyword_length (keywords (snd a))).

Definition sortedConfigs : list (string * EChartsConfig) :=
  JsArray.sort by_specificity ECHARTS_TYPE_CONFIGS.

Definition keyword_matches (promptLower keyword : string) : bool :=
  Regex.test (whole_word keyword) promptLower.

(** The two nested loops: the key of the first entry with a keyword found
    in the prompt. *)
Fixpoint first_match (configs : list (string * EChartsConfig))
    (promptLower : string) : option string :=
  match configs with
  | [] => None
  | (key, config) :: rest =>
      if existsb (keyword_matches promptLower) (keywords config)
      then Some key
      else first_match rest promptLower
  end.

Definition detectEChartsType (prompt : string) : string :=
  let promptLower := trim (toLowerCase prompt) in
  if asks_multiple_trendlines promptLower then "line"
  else match first_match sortedConfigs promptLower with
       | Some key => key
       | None => "bar"
       end.

(** [ECHARTS_TYPE_CONFIGS[chartType] || null] *)
Definition getEChartsConfig (chartType : string) : option EChartsConfig :=
  match find (fun e => String.eqb (fst e) chartType) ECHARTS_TYPE_CONFIGS with
  | Some e => Some (snd e)
  | None => None
  end.

End Builders.
End Registry.

(* ------------------------------------------------------------------ *)
(** ** The chart generator component *)

Module DataKeys.
Record t : Type := {
  allKeys : list string;
  numericKeys : list string;
  stringKeys : list string;
  dateKeys : list string;
  nameKey : option string;
  valueKey : string;
  flattenedData : list Js.Obj
}.
End DataKeys.

Module DataMapping.
Record t : Type := {
  nameKey : string;
  valueKey : string;
  dataKeys : option string
}.
End DataMapping.

Module GeneratedChartConfig.
Record t : Type := {
  chartType : string;
  echartsOption : Js.JValue;
  dataMapping : DataMapping.t;
  colors : list string;
  promptHash : string
}.
End GeneratedChartConfig.

Module Generator.
Import JsString Regex Js Flatten.

(** The two field-name patterns of the classification and the narrower
    label pattern used on the keys a prompt mentions; all carry the i
    flag. *)
Definition name_words : list string :=
  [ "name"; "label"; "category"; "title"; "id"; "key"; "agent"; "month";
    "day"; "date"; "time"; "year"; "period"; "quarter"; "week"; "season";
    "location"; "region"; "country"; "city"; "state"; "product"; "item";
    "type"; "class"; "group"; "team"; "department"; "category"; "tag" ].

Definition value_words : list string :=
  [ "value"; "amount"; "count"; "total"; "sum"; "quantity"; "number";
    "price"; "cost"; "revenue"; "sales"; "score"; "rating"; "interaction";
    "kpi"; "satisfaction"; "metric"; "measure"; "data"; "result"; "outcome";
    "performance"; "efficiency"; "rate"; "percentage"; "percent"; "ratio";
    "index"; "level"; "size"; "volume"; "weight"; "length"; "height";
    "width"; "depth"; "area"; "distance"; "speed"; "time"; "duration";
    "frequency" ].

Definition mentioned_name_words : list string :=
  [ "name"; "label"; "category"; "title"; "id"; "key"; "agent"; "period";
    "quarter"; "week"; "season"; "location"; "region"; "country"; "city";
    "state"; "product"; "item"; "type"; "class"; "group"; "team";
    "department"; "tag" ].

(** [/w1|w2|.../i.test(k)] *)
Definition any_word (ws : list string) (k : string) : bool :=
  Regex.test (alts (map (lit true) ws)) k.

(** [a || b] on values that are a string or [undefined]. *)
Definition or_key (a b : option string) : option string :=
  match a with
  | Some s => if is_empty s then b else a
  | None => b
  end.

Definition is_truthy_key (a : option string) : bool :=
  match a with
  | Some s => negb (is_empty s)
  | None => false
  end.

Definition empty_dataKeys : DataKeys.t :=
  {| DataKeys.allKeys := []; DataKeys.numericKeys := [];
     DataKeys.stringKeys := []; DataKeys.dateKeys := [];
     DataKeys.nameKey := Some ""; DataKeys.valueKey := "";
     DataKeys.flattenedData := [] |}.

Section Component.
Variable rt : Runtime.
Variable generateOption_of : string -> Registry.EChartsElementConfig -> Obj.

(** [typeof value === "number" && !isNaN(value)] *)
Definition is_numeric_value (value : JValue) : bool :=
  match value with
  | JNum n => negb (isNaN n)
  | _ => false
  end.

Definition is_string_value (value : JValue) : bool :=
  match value with
  | JStr _ => true
  | _ => false
  end.

(** A string value that [Date.parse] accepts. *)
Definition is_date_value (value : JValue) : bool :=
  match value with
  | JStr s => negb (isNaN (Date_parse rt s))
  | _ => false
  end.

(** The classification memo of the component.  The loop over [allKeys]
    tests a value for a number first and for a string otherwise; the two
    are disjoint, so each key list is a filter of [allKeys]. *)
Definition dataKeys (data : list JValue) : DataKeys.t :=
  match data with
  | [] => empty_dataKeys
  | firstItem :: _ =>
      let flattened := flatten firstItem in
      let allKeys := keys flattened in
      let numericKeys :=
        filter (fun key => is_numeric_value (obj_get key flattened)) allKeys in
      let stringKeys :=
        filter (fun key => is_string_value (obj_get key flattened)) allKeys in
      let dateKeys :=
        filter (fun key => is_date_value (obj_get key flattened)) allKeys in
      let nameKey :=
        or_key (or_key (or_key (find (any_word name_words) stringKeys)
                               (JsArray.get dateKeys 0))
                       (JsArray.get stringKeys 0))
               (JsArray.get allKeys 0) in
      let valueKey :=
        match or_key (or_key (find (any_word value_words) numericKeys)
                             (JsArray.get numericKeys 0))
                     (Some "") with
        | Some k => k
        | None => ""
        end in
      {| DataKeys.allKeys := allKeys;
         DataKeys.numericKeys := numericKeys;
         DataKeys.stringKeys := stringKeys;
         DataKeys.dateKeys := dateKeys;
         DataKeys.nameKey := nameKey;
         DataKeys.valueKey := valueKey;
         DataKeys.flattenedData := map flatten data |}
  end.

(** The fingerprint memo of the component. *)
Definition dataPromptHash (data : list JValue) (prompt : string) : string :=
  match data with
  | [] => ""
  | _ =>
      if is_empty prompt then ""
      else
        match JSON_stringify rt data with
        | Some dataStr =>
            let promptHash := trim prompt in
            let dataStart := take 100 dataStr in
            let dataEnd := take_last 100 dataStr in
            promptHash ++ "_" ++ of_nat (List.length data) ++ "_" ++
            of_nat (String.length dataStr) ++ "_" ++ dataStart ++ "_" ++ dataEnd
        | None =>
            trim prompt ++ "_" ++ of_nat (List.length data) ++ "_error"
        end
  end.

(** *** The mutable cells of the component *)

Record State : Type := {
  previousHashRef : string;
  chartConfig : option GeneratedChartConfig.t;
  error : option string;
  cachedColors : list string;
  colorsDrawn : nat;
  builderCalls : nat
}.

Definition initial : State :=
  {| previousHashRef := ""; chartConfig := None; error := None;
     cachedColors := []; colorsDrawn := 0; builderCalls := 0 |}.

(** [getRandomColorPalette(count)]: the palette and the cache after the
    call, with the number of colours drawn so far. *)
Definition getRandomColorPalette (count : nat) (cache : list string * nat)
  : list string * (list string * nat) :=
  let (cached, drawn) := cache in
  if List.length cached <? count
  then let n := Nat.max count 20 in
       let fresh := map (generateRandomColor rt) (seq drawn n) in
       (firstn count fresh, (fresh, drawn + n))
  else (firstn count cached, cache).

(** *** Reading the prompt *)

(** [/\b(trendline|trend\s*line|regression)\b/] *)
Definition re_trendline : re :=
  Seq Bnd
    (Seq (alts [ lit false "trendline";
                 Seq (lit false "trend") (Seq (Star is_space) (lit false "line"));
                 lit false "regression" ])
         Bnd).

Definition asks_trendline (promptLower : string) : bool :=
  includes promptLower "trendline" ||
  includes promptLower "trend line" ||
  includes promptLower "regression" ||
  includes promptLower "linear trend" ||
  Regex.test re_trendline promptLower.

(** The pair [(hasTrendline, multipleTrendlines)]. *)
Definition trendline_flags (promptLower : string) : bool * bool :=
  if Registry.asks_multiple_trendlines promptLower then (true, true)
  else if asks_trendline promptLower then (true, false)
  else (false, false).

(** [/(\w+)\s+(?:vs|versus|and|&)\s+(\w+)/i] at one position, with its two
    groups. *)
Definition vs_here (prev : option ascii) (s : string)
  : option (string * string) :=
  rmatch (Plus is_word) prev s (fun p1 s1 =>
    rmatch (Seq (Plus is_space)
              (Seq (alts [ lit true "vs"; lit true "versus";
                           lit true "and"; lit true "&" ])
                   (Plus is_space)))
           p1 s1 (fun p2 s2 =>
      rmatch (Plus is_word) p2 s2 (fun _ s3 =>
        Some (take (String.length s - String.length s1) s,
              take (String.length s2 - String.length s3) s2)))).

(** [prompt.match(vsPattern)]: the groups of the leftmost match. *)
Fixpoint vs_search (prev : option ascii) (s : string)
  : option (string * string) :=
  match vs_here prev s with
  | Some g => Some g
  | None =>
      match s with
      | String c s' => vs_search (Some c) s'
      | EmptyString => None
      end
  end.

Definition vsMatch (prompt : string) : option (string * string) :=
  vs_search None prompt.

(** The predicate of [allKeys.find] for one side of the pair. *)
Definition resembles (word k : string) : bool :=
  let kLower := toLowerCase k in
  let wLower := toLowerCase word in
  String.eqb kLower wLower ||
  includes kLower wLower ||
  includes wLower kLower ||
  String.eqb (replace_class cls_us_dash "" kLower)
             (replace_class cls_us_dash "" wLower).

(** [if (found && !mentionedKeys.includes(found)) mentionedKeys.push(found)] *)
Definition push_found (found : option string) (mentionedKeys : list string)
  : list string :=
  match found with
  | Some k =>
      if negb (is_empty k) && negb (JsArray.includes mentionedKeys k)
      then mentionedKeys ++ [k] else mentionedKeys
  | None => mentionedKeys
  end.

Definition isMentioned (promptLower key : string) : bool :=
  let keyLower := toLowerCase key in
  let keyFormatted := toLowerCase (replace_class cls_us_dash " " key) in
  let keyNoUnderscore := replace_class cls_us_dash "" keyLower in
  let keyParts := split_on cls_dot_us_dash keyLower in
  includes promptLower keyLower ||
  includes promptLower keyFormatted ||
  includes promptLower (toLowerCase (replace_class cls_us " " key)) ||
  includes promptLower (toLowerCase (replace_class cls_dot " " key)) ||
  existsb (fun part => (3 <=? String.length part)
                       && includes promptLower part) keyParts ||
  existsb (fun word =>
             let wordClean :=
               replace_class cls_not_alnum "" (toLowerCase word) in
             (3 <=? String.length wordClean) &&
             (includes keyNoUnderscore wordClean ||
              includes wordClean keyNoUnderscore ||
              existsb (fun part => includes part wordClean
                                   || includes wordClean part) keyParts))
          (split_ws promptLower).

(** The keys the prompt mentions: the two sides of an "A vs B" pair first,
    then every key of the first record that the prompt names. *)
Definition mentionedKeys (dk : DataKeys.t) (prompt promptLower : string)
  : list string :=
  let fromPair :=
    match vsMatch prompt with
    | Some (g1, g2) =>
        let key1 := trim g1 in
        let key2 := trim g2 in
        let foundKey1 := find (resembles key1) (DataKeys.allKeys dk) in
        let foundKey2 := find (resembles key2) (DataKeys.allKeys dk) in
        push_found foundKey2 (push_found foundKey1 [])
    | None => []
    end in
  fold_left
    (fun acc key =>
       if isMentioned promptLower key && negb (JsArray.includes acc key)
       then acc ++ [key] else acc)
    (DataKeys.allKeys dk) fromPair.

(** [(nameKeyToUse, valueKeyToUse, dataKeysToUse)] after the keys the
    prompt mentions have been taken into account. *)
Definition keys_from_mentions (dk : DataKeys.t) (nameKey : string)
    (mentioned : list string) : string * string * option string :=
  match mentioned with
  | [] => (nameKey, DataKeys.valueKey dk, None)
  | _ =>
      let mentionedNameKey :=
        find (fun key => JsArray.includes (DataKeys.stringKeys dk) key
                         || JsArray.includes (DataKeys.dateKeys dk) key
                         || any_word mentioned_name_words key) mentioned in
      let nameKeyToUse :=
        match mentionedNameKey with
        | Some k => if is_empty k then nameKey else k
        | None => nameKey
        end in
      let mentionedValueKeys :=
        filter (fun key => JsArray.includes (DataKeys.numericKeys dk) key
                           || any_word value_words key) mentioned in
      match mentionedValueKeys with
      | [] => (nameKeyToUse, DataKeys.valueKey dk, None)
      | [k] => (nameKeyToUse, k, None)
      | k :: _ => (nameKeyToUse, k, Some (join "," mentionedValueKeys))
      end
  end.

(** The comparison step: it replaces the value key and the series keys
    when the prompt compares and the first record has two numeric keys. *)
Definition keys_from_comparison (dk : DataKeys.t) (promptLower : string)
    (multipleTrendlines : bool) (sofar : string * string * option string)
  : string * string * option string :=
  let '(nameKeyToUse, valueKeyToUse, dataKeysToUse) := sofar in
  let numericKeys := DataKeys.numericKeys dk in
  if (includes promptLower " vs " || includes promptLower " versus " ||
      includes promptLower " and " || multipleTrendlines)
     && (2 <=? List.length numericKeys)
  then
    let promptWords := split_ws promptLower in
    let matchingKeys :=
      filter (fun key =>
                let keyLower := toLowerCase key in
                existsb (fun word => (3 <=? String.length word)
                                     && (includes keyLower word
                                         || includes word keyLower))
                        promptWords) numericKeys in
    if 2 <=? List.length matchingKeys
    then (nameKeyToUse, nth 0 matchingKeys "", Some (join "," matchingKeys))
    else (nameKeyToUse, nth 0 numericKeys "",
          Some (join "," (firstn 2 numericKeys)))
  else sofar.

(** *** extractColors *)

Definition colorMap : list (string * string) :=
  [ ("red", "#ff0000"); ("blue", "#0066ff"); ("green", "#00cc00");
    ("yellow", "#ffcc00"); ("orange", "#ff6600"); ("purple", "#9900cc");
    ("pink", "#ff00cc"); ("teal", "#00cccc"); ("cyan", "#00ffff");
    ("magenta", "#ff00ff"); ("lime", "#00ff00"); ("brown", "#8b4513");
    ("black", "#000000"); ("white", "#ffffff"); ("gray", "#808080");
    ("grey", "#808080"); ("navy", "#000080"); ("maroon", "#800000");
    ("olive", "#808000"); ("aqua", "#00ffff"); ("silver", "#c0c0c0");
    ("gold", "#ffd700"); ("indigo", "#4b0082"); ("violet", "#8a2be2");
    ("coral", "#ff7f50"); ("salmon", "#fa8072"); ("turquoise", "#40e0d0");
    ("khaki", "#f0e68c"); ("lavender", "#e6e6fa"); ("plum", "#dda0dd");
    ("beige", "#f5f5dc"); ("tan", "#d2b48c") ].

(** [new RegExp(`\\b${colorName}\\b`, "i")] *)
Definition re_color_name (colorName : string) : re :=
  Seq Bnd (Seq (lit true colorName) Bnd).

(** [[0-9a-f]] under the i flag. *)
Definition is_hex (c : ascii) : bool :=
  is_digit c || between 97 102 c || between 65 70 c.

(** [/#[0-9a-f]{3,6}/gi] *)
Definition re_hex : re :=
  Seq (Chr (chr_is 35))
    (Seq (Chr is_hex) (Seq (Chr is_hex) (Seq (Chr is_hex)
       (Opt (Seq (Chr is_hex) (Opt (Seq (Chr is_hex) (Opt (Chr is_hex))))))))).

(** [/rgba?\([^)]+\)/gi] *)
Definition re_rgb : re :=
  Seq (lit true "rgb")
    (Seq (Opt (lit_char true "a"))
       (Seq (Chr (chr_is 40))
          (Seq (Plus (fun c => negb (chr_is 41 c))) (Chr (chr_is 41))))).

(** A three-digit literal [#rgb] becomes [#rrggbb]; the others stay. *)
Definition normalize_hex (hex : string) : string :=
  match hex with
  | String h (String r (String g (String b EmptyString))) =>
      String h (String r (String r (String g (String g (String b
        (String b EmptyString))))))
  | _ => hex
  end.

Definition named_colors (promptText : string) : list string :=
  map snd
    (filter (fun entry => Regex.test (re_color_name (fst entry)) promptText)
            colorMap).

Definition hex_colors (promptText : string) : list string :=
  map normalize_hex (match_all re_hex promptText).

Definition rgb_colors (promptText : string) : list string :=
  match_all re_rgb promptText.

Definition foundColors (promptText : string) : list string :=
  named_colors promptText ++ hex_colors promptText ++ rgb_colors promptText.

(** [None] is the [undefined] the function returns when nothing is found. *)
Definition extractColors (promptText : string) : option (list string) :=
  match JsArray.unique (foundColors promptText) with
  | [] => None
  | uniqueColors => Some uniqueColors
  end.

(** *** The assembly effect *)

(** The guard of the effect; when it holds, the label key it found. *)
Definition usable (data : list JValue) (prompt : string) (dk : DataKeys.t)
  : option string :=
  match data, DataKeys.nameKey dk with
  | _ :: _, Some nk =>
      if negb (is_empty prompt) && (0 <? String.length (trim prompt))
         && negb (is_empty nk) && negb (is_empty (DataKeys.valueKey dk))
      then Some nk else None
  | _, _ => None
  end.

(** The chart type the effect settles on before it consults the registry. *)
Definition chosen_chartType (prompt : string) : string :=
  let promptLower := trim (toLowerCase prompt) in
  let hasTrendline := fst (trendline_flags promptLower) in
  let chartType := Registry.detectEChartsType rt generateOption_of prompt in
  if hasTrendline && negb (String.eqb chartType "line")
     && negb (String.eqb chartType "scatter")
  then "line" else chartType.

(** The body of the effect past the fingerprint test. *)
Definition generate (data : list JValue) (prompt : string) (dk : DataKeys.t)
    (nameKey hash : string) (st : State) : State :=
  let promptLower := trim (toLowerCase prompt) in
  let '(hasTrendline, multipleTrendlines) := trendline_flags promptLower in
  let chartType := chosen_chartType prompt in
  let mentioned := mentionedKeys dk prompt promptLower in
  let '(nameKeyToUse, valueKeyToUse, dataKeysToUse) :=
    keys_from_comparison dk promptLower multipleTrendlines
      (keys_from_mentions dk nameKey mentioned) in
  let extractedColors := extractColors promptLower in
  let echartsConfig := Registry.getEChartsConfig rt generateOption_of chartType in
  let chartType :=
    match echartsConfig with Some _ => chartType | None => "bar" end in
  let isStacked :=
    String.eqb chartType "stackedbar" || String.eqb chartType "stackedarea" in
  let isGrouped := String.eqb chartType "groupedbar" in
  let dataToUse :=
    match DataKeys.flattenedData dk with
    | [] => data
    | flattenedData => map JObj flattenedData
    end in
  let cache0 := (cachedColors st, colorsDrawn st) in
  let '(colors1, cache1) :=
    match extractedColors with
    | Some cs => (cs, cache0)
    | None => getRandomColorPalette 20 cache0
    end in
  let elementConfig :=
    {| Registry.nameKey := nameKeyToUse;
       Registry.valueKey := valueKeyToUse;
       Registry.dataKeys :=
         match dataKeysToUse with
         | Some ks => if is_empty ks then None
                      else Some (map trim (split_on (chr_is 44) ks))
         | None => None
         end;
       Registry.colors := colors1;
       Registry.isStacked := isStacked;
       Registry.isGrouped := isGrouped;
       Registry.hasTrendline := hasTrendline;
       Registry.multipleTrendlines := multipleTrendlines;
       Registry.data := dataToUse |} in
  match echartsConfig with
  | None =>
      {| previousHashRef := hash; chartConfig := chartConfig st;
         error := Some ("Failed to generate chart configuration for type: "
                        ++ chartType)%string;
         cachedColors := fst cache1; colorsDrawn := snd cache1;
         builderCalls := builderCalls st |}
  | Some config =>
      let echartsOption := Registry.generateOption config elementConfig in
      if negb (truthy echartsOption)
      then {| previousHashRef := hash; chartConfig := chartConfig st;
              error := Some ("Failed to generate chart configuration for type: "
                             ++ chartType)%string;
              cachedColors := fst cache1; colorsDrawn := snd cache1;
              builderCalls := S (builderCalls st) |}
      else
        let '(colors2, cache2) :=
          match extractedColors with
          | Some cs => (cs, cache1)
          | None => getRandomColorPalette 20 cache1
          end in
        {| previousHashRef := hash;
           chartConfig :=
             Some {| GeneratedChartConfig.chartType := chartType;
                     GeneratedChartConfig.echartsOption := echartsOption;
                     GeneratedChartConfig.dataMapping :=
                       {| DataMapping.nameKey := nameKeyToUse;
                          DataMapping.valueKey := valueKeyToUse;
                          DataMapping.dataKeys :=
                            match dataKeysToUse with
                            | Some ks => if is_empty ks then None else Some ks
                            | None => None
                            end |};
                     GeneratedChartConfig.colors := colors2;
                     GeneratedChartConfig.promptHash := hash |};
           error := None;
           cachedColors := fst cache2; colorsDrawn := snd cache2;
           builderCalls := S (builderCalls st) |}
  end.

(** One run of the effect for the props [data] and [prompt]: what the
    specification calls assembling a configuration. *)
Definition assemble (data : list JValue) (prompt : string) (st : State)
  : State :=
  let dk := dataKeys data in
  let hash := dataPromptHash data prompt in
  match usable data prompt dk with
  | Some nameKey =>
      if String.eqb (previousHashRef st) hash then st
      else generate data prompt dk nameKey hash st
  | None =>
      {| previousHashRef := ""; chartConfig := None; error := error st;
         cachedColors := cachedColors st; colorsDrawn := colorsDrawn st;
         builderCalls := builderCalls st |}
  end.

End Component.
End Generator.

(* ------------------------------------------------------------------ *)
(** ** Worked inputs *)

Module Samples.
Import JsString Js.

Definition quote : ascii := ascii_of_nat 34.

Definition quoted (s : string) : string :=
  String quote (s ++ String quote EmptyString).

Definition digits_of_Z (z : Z) : string :=
  if (z <? 0)%Z then ("-" ++ of_nat (Z.to_nat (- z)))%string
  else of_nat (Z.to_nat z).

(** A serializer for the worked inputs: integers, strings without escapes,
    arrays and objects. *)
Fixpoint stringify (v : JValue) : string :=
  match v with
  | JNull | JUndefined => "null"
  | JBool b => if b then "true" else "false"
  | JNum (Fin q) => digits_of_Z (Qfloor q)
  | JNum _ => "null"
  | JStr s => quoted s
  | JArr items => ("[" ++ join "," (map stringify items) ++ "]")%string
  | JObj props =>
      ("{" ++ join ","
                (map (fun kv => quoted (fst kv) ++ ":" ++ stringify (snd kv))
                     props) ++ "}")%string
  end.

Definition runtime : Runtime :=
  {| number_toString :=
       fun n => match n with
                | Fin q => digits_of_Z (Qfloor q)
                | NaN => "NaN"
                | PosInf => "Infinity"
                | NegInf => "-Infinity"
                end;
     parseFloat := fun _ => NaN;
     Date_parse := fun _ => NaN;
     JSON_stringify := fun data => Some (stringify (JArr data));
     generateRandomColor :=
       fun n => ("hsl(" ++ of_nat n ++ ", 60%, 40%)")%string |}.

Definition builders (key : string) (config : Registry.EChartsElementConfig)
  : Obj :=
  [("series", JArr [JObj [("type", JStr key)]])].

(** The data of the end-to-end scenario. *)
Definition jan_feb : list JValue :=
  [ JObj [("name", JStr "Jan"); ("value", Registry.num 400)];
    JObj [("name", JStr "Feb"); ("value", Registry.num 300)] ].

(** Ten records carrying the values 1 to 10 under the key "v". *)
Definition one_to_ten : list JValue :=
  map (fun z => JObj [("v", Registry.num z)])
      [1; 2; 3; 4; 5; 6; 7; 8; 9; 10]%Z.

Definition config_for (valueKey : string) (dataKeys : option (list string))
    (data : list JValue) : Registry.EChartsElementConfig :=
  {| Registry.nameKey := "name"; Registry.valueKey := valueKey;
     Registry.dataKeys := dataKeys; Registry.colors := ["#ff0000"];
     Registry.isStacked := false; Registry.isGrouped := false;
     Registry.hasTrendline := false; Registry.multipleTrendlines := false;
     Registry.data := data |}.

End Samples.

(* ------------------------------------------------------------------ *)
(** ** Vocabulary of the stated properties *)

Unset Implicit Arguments.

Module Statements.
Import JsString Regex Js Flatten Generator.

(** *** Classification *)

(** The reading of the numeric classification as "finite numbers only". *)
Definition numeric_iff_finite : Prop :=
  forall (rt : Runtime) (first : JValue) (rest : list JValue) (key : string),
    In key (keys (flatten first)) ->
    (In key (DataKeys.numericKeys (dataKeys rt (first :: rest))) <->
     exists n, obj_get key (flatten first) = JNum n /\ isFinite n = true).

(** *** Flattening *)

Definition is_primitive (v : JValue) : bool :=
  match v with
  | JNull | JUndefined | JBool _ | JNum _ | JStr _ => true
  | JArr _ | JObj _ => false
  end.

(** A record whose values are objects, given by its keys and the property
    lists of those objects. *)
Definition nested_record (record : list (string * Obj)) : JValue :=
  JObj (map (fun ki => (fst ki, JObj (snd ki))) record).

Definition flat_of_primitives (record : list (string * Obj)) : Prop :=
  Forall (fun ki => Forall (fun jp => is_primitive (snd jp) = true) (snd ki))
         record.

(** The leaves of such a record under their dot-joined keys, in order. *)
Definition dotted (k : string) (inner : Obj) : Obj :=
  map (fun jp => (k ++ "." ++ fst jp, snd jp)%string) inner.

Definition dotted_leaves (record : list (string * Obj)) : Obj :=
  flat_map (fun ki => dotted (fst ki) (snd ki)) record.

(** The object that results from assigning the pairs in order. *)
Definition assign_all (pairs : Obj) (result : Obj) : Obj :=
  fold_left (fun acc kv => obj_set (fst kv) (snd kv) acc) pairs result.

Definition dotted_key (key : string) : Prop :=
  exists k j, key = (k ++ "." ++ j)%string.

(** The reading of the claim: a record of flat objects flattens to exactly
    its leaves under the dot-joined keys (taken here with those keys
    pairwise distinct, so that "exactly" has one meaning). *)
Definition flatten_is_dot_join : Prop :=
  forall record : list (string * Obj),
    flat_of_primitives record ->
    NoDup (keys (dotted_leaves record)) ->
    flatten (nested_record record) = dotted_leaves record.

(** *** Sorting and the boxplot and candlestick builders *)

(** The order of the numbers that can be ordered: [NaN] is related to
    nothing. *)
Definition num_le (a b : number) : Prop :=
  isNaN a = false /\ isNaN b = false /\ ltb b a = false.

Definition not_NaN (v : number) : Prop := isNaN v = false.

(** The values a boxplot is computed from, in data order. *)
Definition boxplot_raw (config : Registry.EChartsElementConfig)
  : list number :=
  map (fun item =>
         Registry.number_or_zero (prop item (Registry.valueKey config)))
      (Registry.data config).

(** The reading of the claim: each of the first four resolved fields is
    read at its own position of the datum [open, close, low, high]. *)
Definition candlestick_positional : Prop :=
  forall (config : Registry.EChartsElementConfig) (item : JValue) (i : nat)
         (k : string) (n : number),
    i < 4 ->
    nth_error (Registry.series_keys config) i = Some k ->
    prop item k = JNum n ->
    nth_error (Registry.candlestick_datum config item) i = Some n.

(** *** Detection *)

Section Detection.
Variable rt : Runtime.
Variable g : string -> Registry.EChartsElementConfig -> Obj.

(** No keyword of the entries [l] is found in the prompt. *)
Definition no_keyword_in (l : list (string * Registry.EChartsConfig))
    (promptLower : string) : Prop :=
  forall e kw, In e l -> In kw (Registry.keywords (snd e)) ->
               Registry.keyword_matches promptLower kw = false.

(** What detection is to return for a prompt: "line" when several
    trendlines are asked for; otherwise the key of the first entry, in the
    order of [sortedConfigs], one of whose keywords is found in the prompt;
    otherwise "bar". *)
Inductive Detected (prompt : string) : string -> Prop :=
| Detected_multiple :
    Registry.asks_multiple_trendlines (trim (toLowerCase prompt)) = true ->
    Detected prompt "line"
| Detected_keyword before key config after keyword :
    Registry.asks_multiple_trendlines (trim (toLowerCase prompt)) = false ->
    Registry.sortedConfigs rt g = before ++ (key, config) :: after ->
    In keyword (Registry.keywords config) ->
    Registry.keyword_matches (trim (toLowerCase prompt)) keyword = true ->
    no_keyword_in before (trim (toLowerCase prompt)) ->
    Detected prompt key
| Detected_default :
    Registry.asks_multiple_trendlines (trim (toLowerCase prompt)) = false ->
    no_keyword_in (Registry.ECHARTS_TYPE_CONFIGS rt g)
                  (trim (toLowerCase prompt)) ->
    Detected prompt "bar".

(** The reading of the claim in which the keyword search alone decides. *)
Definition keyword_search_alone : Prop :=
  forall prompt : string,
    no_keyword_in (Registry.ECHARTS_TYPE_CONFIGS rt g)
                  (trim (toLowerCase prompt)) ->
    Registry.detectEChartsType rt g prompt = "bar".

(** The length of the longest keyword of each entry, in search order. *)
Definition specificities : list number :=
  map (fun e => Registry.max_keyword_length (Registry.keywords (snd e)))
      (Registry.sortedConfigs rt g).

End Detection.

End Statements.

(* ------------------------------------------------------------------ *)
(** ** Vocabulary of the further properties *)

From Stdlib Require Import NArith.

Module Shapes.
Import JsString Js Flatten Generator.

(** The weight of the leading digit of a digit string, and the value of a
    digit. *)
Definition pow10 (s : string) : N := (10 ^ N.of_nat (String.length s))%N.

Definition digit_of (c : ascii) : N := N.of_nat (code c - 48).

(** The values a flattened record holds: primitives, and arrays that
    begin with a number, a string or a boolean. *)
Definition is_flat_value (v : JValue) : bool :=
  match v with
  | JObj _ => false
  | JArr items =>
      match items with
      | JNum _ :: _ | JStr _ :: _ | JBool _ :: _ => true
      | _ => false
      end
  | JNull | JUndefined | JBool _ | JNum _ | JStr _ => true
  end.

Definition flat_values (o : Obj) : Prop :=
  Forall (fun kv => is_flat_value (snd kv) = true) o.

(** The enumeration order of own property keys: array indices first, in
    ascending order, then the other keys, each once. *)
Definition key_before (k1 k2 : string) : Prop :=
  match index_of_key k1, index_of_key k2 with
  | Some i, Some j => (i < j)%N
  | Some _, None => True
  | None, None => k1 <> k2
  | None, Some _ => False
  end.

Definition keys_ordered (ks : list string) : Prop :=
  StronglySorted key_before ks.

End Shapes.

(* ------------------------------------------------------------------ *)
(** ** Sessions of the component *)

Module Sessions.
Import JsString Js Generator.

Section Runs.
Variable rt : Runtime.
Variable g : string -> Registry.EChartsElementConfig -> Obj.

(** The effect run once for each pair of props, in order. *)
Definition run (inputs : list (list JValue * string)) (st : State) : State :=
  fold_left (fun s dp => assemble rt g (fst dp) (snd dp) s) inputs st.

(** What holds of the cells between runs: no failure message; either
    nothing is remembered and nothing stored, or the stored configuration
    carries the remembered fingerprint and a chart type of the registry;
    and the palette cache is empty or holds twenty colours. *)
Definition coherent (st : State) : Prop :=
  error st = None /\
  ((previousHashRef st = EmptyString /\ chartConfig st = None) \/
   (exists cfg,
       chartConfig st = Some cfg /\
       GeneratedChartConfig.promptHash cfg = previousHashRef st /\
       previousHashRef st <> EmptyString /\
       Registry.getEChartsConfig rt g (GeneratedChartConfig.chartType cfg)
       <> None)) /\
  (cachedColors st = [] \/ List.length (cachedColors st) = 20).

End Runs.
End Sessions.

(* ------------------------------------------------------------------ *)
(** ** The bar family of option builders (echartsConfig.ts) *)

Module BarCharts.
Import JsString Js Registry.

Section Builders.
Variable rt : Runtime.

(** One series per key.  [stack] is what follows the item style: the
    spread [...(config.isStacked && { stack: "stack1" })] of the bar
    builder, the fixed [stack: "stack1"] of the stacked one, nothing in
    the grouped one. *)
Definition bar_series (config : EChartsElementConfig)
    (stack : list (string * JValue)) (key : string) (idx : nat) : JValue :=
  JObj ([ ("name", JStr key);
          ("type", JStr "bar");
          ("data", JArr (map (fun item => JNum (number_or_zero (prop item key)))
                             (data config)));
          ("itemStyle", JObj [("color", color_cycle (colors config) idx)]) ]
        ++ stack).

(** The option around the series, which the three builders share
    literally. *)
Definition bar_option (config : EChartsElementConfig) (keys : list string)
    (series : list JValue) : JValue :=
  JObj [
    ("animation", JBool true);
    ("animationDuration", num 1000);
    ("animationEasing", JStr "cubicOut");
    ("tooltip", dark_tooltip [ ("trigger", JStr "axis");
                               ("axisPointer",
                                JObj [("type", JStr "shadow")]) ]);
    ("legend", JObj [ ("data", JArr (map JStr keys));
                      ("top", JStr "top");
                      ("textStyle", JObj [("fontSize", num 12)]) ]);
    ("grid", grid "15%");
    ("xAxis", JObj [ ("type", JStr "category"); category_data rt config;
                     axis_label config; axis_line ]);
    ("yAxis", JObj [ ("type", JStr "value"); axis_line; split_line ]);
    ("series", JArr series)
  ].

Definition bar_generateOption (config : EChartsElementConfig) : JValue :=
  let keys := series_keys config in
  let series :=
    JsArray.mapi
      (bar_series config
         (if isStacked config then [("stack", JStr "stack1")] else []))
      keys in
  bar_option config keys series.

Definition stackedbar_generateOption (config : EChartsElementConfig)
  : JValue :=
  let keys := series_keys config in
  let series :=
    JsArray.mapi (bar_series config [("stack", JStr "stack1")]) keys in
  bar_option config keys series.

Definition groupedbar_generateOption (config : EChartsElementConfig)
  : JValue :=
  let keys := series_keys config in
  let series := JsArray.mapi (bar_series config []) keys in
  bar_option config keys series.

(** *** histogram *)

Definition histogram_generateOption (config : EChartsElementConfig)
  : JValue :=
  JObj [
    ("tooltip", JObj [("trigger", JStr "axis")]);
    ("xAxis", JObj [ ("type", JStr "category"); category_data rt config ]);
    ("yAxis", JObj [("type", JStr "value")]);
    ("series", JArr [
       JObj [ ("name", JStr (valueKey config));
              ("type", JStr "bar");
              ("data", JArr (map (fun item =>
                                    JNum (number_or_zero
                                            (prop item (valueKey config))))
                                 (data config)));
              ("itemStyle",
               JObj [("color", color_get (colors config) 0)]) ] ])
  ].

End Builders.
End BarCharts.

(* ------------------------------------------------------------------ *)
(** ** The server action (the generateChart action of the runtime) *)

Module Server.
Import JsString Regex Js.

Record ChartAnalysisResult : Type := {
  chartType : string;
  title : option string;
  xAxisKey : option string;
  yAxisKey : option string;
  reasoning : option string
}.

(** The own enumerable properties [Object.keys] lists; [None] when it
    throws, on null and undefined. *)
Definition own_props (v : JValue) : option Obj :=
  match v with
  | JObj o => Some o
  | JArr items => Some (JsArray.mapi (fun x i => (of_nat i, x)) items)
  | JStr s =>
      Some (JsArray.mapi (fun c i => (of_nat i, JStr (String c EmptyString)))
                         (list_ascii_of_string s))
  | JBool _ | JNum _ => Some []
  | JNull | JUndefined => None
  end.

Definition server_name_words : list string :=
  [ "name"; "label"; "category"; "title"; "id"; "key"; "month"; "day";
    "date"; "time"; "year"; "period" ].

Definition server_value_words : list string :=
  [ "value"; "amount"; "count"; "total"; "sum"; "quantity"; "number";
    "price"; "cost"; "revenue"; "sales"; "score" ].

Definition is_number (v : JValue) : bool :=
  match v with JNum _ => true | _ => false end.

Definition is_string (v : JValue) : bool :=
  match v with JStr _ => true | _ => false end.

Definition bar_only : ChartAnalysisResult :=
  {| chartType := "bar"; title := None; xAxisKey := None; yAxisKey := None;
     reasoning := None |}.

(** analyzeDataStructure; [None] when it throws. *)
Definition analyzeDataStructure (data : list JValue)
  : option ChartAnalysisResult :=
  match data with
  | [] => Some bar_only
  | firstItem :: _ =>
      match own_props firstItem with
      | None => None
      | Some o =>
          let keys := Js.keys o in
          let numericKeys :=
            filter (fun key => is_number (obj_get key o)) keys in
          let stringKeys :=
            filter (fun key => is_string (obj_get key o)) keys in
          let nameKey :=
            Generator.or_key
              (Generator.or_key
                 (find (Generator.any_word server_name_words) stringKeys)
                 (JsArray.get stringKeys 0))
              (JsArray.get keys 0) in
          let valueKey :=
            Generator.or_key
              (Generator.or_key
                 (find (Generator.any_word server_value_words) numericKeys)
                 (JsArray.get numericKeys 0))
              (Some EmptyString) in
          let chartType :=
            if (2 <=? List.length numericKeys)
               && (1 <=? List.length stringKeys)
            then "line" else "bar" in
          Some {| chartType := chartType; title := None;
                  xAxisKey := nameKey; yAxisKey := valueKey;
                  reasoning := None |}
      end
  end.

(** [Array.isArray(data) ? data : [data]] *)
Definition dataArray (data : JValue) : list JValue :=
  match data with
  | JArr items => items
  | _ => [data]
  end.

(** What the model chain produced: a failure (the request, the type test
    of the content or JSON.parse threw), which falls back on the structure
    of the data, or the value JSON.parse returned, which may be any JSON
    value. *)
Inductive ChainOutcome : Type :=
| ChainFailed
| ChainAnswered (answer : JValue).

Definition opt_str (a : option string) : JValue :=
  match a with Some s => JStr s | None => JUndefined end.

(** The record of the structural analysis as the object the handler
    reads; a property it does not set reads as undefined either way. *)
Definition analysis_object (r : ChartAnalysisResult) : JValue :=
  JObj [ ("chartType", JStr (chartType r));
         ("title", opt_str (title r));
         ("xAxisKey", opt_str (xAxisKey r));
         ("yAxisKey", opt_str (yAxisKey r));
         ("reasoning", opt_str (reasoning r)) ].

(** analyzeDataWithLangChain: for empty data the chain is not consulted;
    the result is [None] when the fallback throws. *)
Definition analyzeDataWithLangChain (outcome : ChainOutcome)
    (data : JValue) : option JValue :=
  match dataArray data with
  | [] => Some (analysis_object bar_only)
  | items =>
      match outcome with
      | ChainAnswered answer => Some answer
      | ChainFailed => option_map analysis_object (analyzeDataStructure items)
      end
  end.

Definition text (a : option string) : string :=
  match a with Some s => s | None => EmptyString end.

(** [a || b] *)
Definition js_or (a b : JValue) : JValue := if truthy a then a else b.

(** [analysis.key] where [analysis] is neither null nor undefined: the
    property of an object, undefined on anything else (none of the names
    the handler reads is a property of a number, a string, a boolean or
    an array). *)
Definition field (analysis : JValue) (key : string) : JValue :=
  match analysis with
  | JObj o => obj_get key o
  | _ => JUndefined
  end.

(** What the handler returns, beside the data it passes through; [None]
    is a property the result does not have. *)
Record ChartResult : Type := {
  result_chartType : JValue;
  result_title : option JValue;
  result_xAxisKey : JValue;
  result_yAxisKey : JValue;
  result_reasoning : option JValue
}.

(** The merge of the handler: a parameter that was given wins over the
    analysis.  The last property reads [analysis.reasoning] whatever was
    given, so the merge throws, [None], on an analysis that is null. *)
Definition merge (chartType title xAxisKey yAxisKey : option string)
    (analysis : JValue) : option ChartResult :=
  match analysis with
  | JNull | JUndefined => None
  | _ =>
      Some
        {| result_chartType :=
             js_or (js_or (opt_str chartType) (field analysis "chartType"))
                   (JStr "bar");
           result_title :=
             if truthy (js_or (opt_str title) (field analysis "title"))
             then Some (js_or (opt_str title) (field analysis "title"))
             else None;
           result_xAxisKey :=
             js_or (js_or (opt_str xAxisKey) (field analysis "xAxisKey"))
                   (JStr EmptyString);
           result_yAxisKey :=
             js_or (js_or (opt_str yAxisKey) (field analysis "yAxisKey"))
                   (JStr EmptyString);
           result_reasoning :=
             if truthy (field analysis "reasoning")
             then Some (field analysis "reasoning") else None |}
  end.

Definition handler (outcome : ChainOutcome) (data : JValue)
    (chartType title xAxisKey yAxisKey : option string)
  : option ChartResult :=
  match analyzeDataWithLangChain outcome data with
  | Some analysis => merge chartType title xAxisKey yAxisKey analysis
  | None => None
  end.

End Server.

(* ------------------------------------------------------------------ *)
(** ** The application shell (App.tsx and its examples) *)

Module App.
Import JsString Js.

(** The prompt the generateChart action of the page composes. *)
Definition action_prompt (chartType : string)
    (title xAxisKey yAxisKey : option string) : string :=
  (chartType ++ " chart"
   ++ (if Generator.is_truthy_key title
       then " titled " ++ Samples.quoted (Server.text title)
       else "")
   ++ (if Generator.is_truthy_key xAxisKey
       then " with x-axis: " ++ Server.text xAxisKey else "")
   ++ (if Generator.is_truthy_key yAxisKey
       then " and y-axis: " ++ Server.text yAxisKey else ""))%string.

(** The data the action leaves in the page: an array as it is, an object
    as a one-element array, anything else changes nothing. *)
Definition action_data (data : JValue) (chartData : list JValue)
  : list JValue :=
  match data with
  | JArr items => items
  | JObj _ => [data]
  | _ => chartData
  end.

Record ChartExample : Type := {
  name : string;
  data : list JValue;
  prompt : string;
  chartType : string
}.

Definition row (n : string) (v : Z) (k : string) (w : Z) : JValue :=
  JObj [("name", JStr n); ("value", Registry.num v); (k, Registry.num w)].

Definition chartExamples : list ChartExample := [
  {| name := "Sales Over Time";
     data := [ row "Jan" 400 "sales" 4000; row "Feb" 300 "sales" 3000;
               row "Mar" 500 "sales" 5000; row "Apr" 450 "sales" 4500;
               row "May" 600 "sales" 6000; row "Jun" 550 "sales" 5500 ];
     prompt := "Create a bar chart showing sales data over time";
     chartType := "bar" |};
  {| name := "Product Categories";
     data := [ row "Electronics" 45 "count" 120; row "Clothing" 30 "count" 80;
               row "Food" 25 "count" 65; row "Books" 20 "count" 50;
               row "Toys" 15 "count" 40 ];
     prompt := "Create a pie chart showing product distribution by category";
     chartType := "pie" |};
  {| name := "Revenue Trends";
     data := [ row "Q1 2023" 12000 "growth" 5; row "Q2 2023" 15000 "growth" 8;
               row "Q3 2023" 18000 "growth" 12;
               row "Q4 2023" 20000 "growth" 15;
               row "Q1 2024" 22000 "growth" 10;
               row "Q2 2024" 25000 "growth" 14 ];
     prompt := "Create a line chart showing revenue trends over quarters";
     chartType := "line" |};
  {| name := "Website Traffic";
     data := [ row "Monday" 1200 "pageViews" 3500;
               row "Tuesday" 1500 "pageViews" 4200;
               row "Wednesday" 1800 "pageViews" 5100;
               row "Thursday" 1600 "pageViews" 4800;
               row "Friday" 2000 "pageViews" 6000;
               row "Saturday" 1400 "pageViews" 4000;
               row "Sunday" 1100 "pageViews" 3200 ];
     prompt := "Create an area chart showing website traffic over the week";
     chartType := "area" |};
  {| name := "Regional Performance";
     data := [ row "North" 50000 "target" 45000;
               row "South" 45000 "target" 50000;
               row "East" 60000 "target" 55000;
               row "West" 55000 "target" 60000;
               row "Central" 40000 "target" 40000 ];
     prompt := "Create a bar chart comparing regional sales performance";
     chartType := "bar" |};
  {| name := "User Demographics";
     data := [ row "18-24" 25 "percentage" 25; row "25-34" 35 "percentage" 35;
               row "35-44" 20 "percentage" 20; row "45-54" 12 "percentage" 12;
               row "55+" 8 "percentage" 8 ];
     prompt := "Create a pie chart showing user age distribution";
     chartType := "pie" |}
].

(** What the page shows for an example once the effect has run on it in
    a freshly mounted component: chart type, label key and value key of
    the stored configuration. *)
Definition outcome (rt : Runtime)
    (g : string -> Registry.EChartsElementConfig -> Obj) (e : ChartExample)
  : option (string * string * string) :=
  match Generator.chartConfig
          (Generator.assemble rt g (data e) (prompt e) Generator.initial) with
  | Some cfg =>
      Some (GeneratedChartConfig.chartType cfg,
            DataMapping.nameKey (GeneratedChartConfig.dataMapping cfg),
            DataMapping.valueKey (GeneratedChartConfig.dataMapping cfg))
  | None => None
  end.

(** The registry keys that are no keyword of their own entry: a prompt
    that only names one of them is detected by its last word. *)
Definition compound_keys : list string :=
  ["stackedbar"; "groupedbar"; "stackedarea"; "radialbar"; "polararea";
   "themeriver"; "effectscatter"].

End App.

(* ------------------------------------------------------------------ *)
(** ** The earlier detection (chartConfig.ts) *)

Module ChartConfig.
Import JsString Regex Js.

(** The keys of CHART_TYPE_CONFIGS with their keyword lists, the part of
    the catalogue that detectChartType reads. *)
Definition CHART_TYPE_KEYWORDS : list (string * list string) := [
  ("bar", ["bar"; "bars"; "column"; "columns"]);
  ("stackedbar", ["stacked bar"; "stacked column"; "stacked bars"]);
  ("groupedbar", ["grouped bar"; "grouped column"; "grouped bars"]);
  ("line", ["line"; "lines"; "graph"; "graphs"; "trend"]);
  ("area", ["area"; "areas"; "filled"]);
  ("stackedarea", ["stacked area"; "stacked areas"]);
  ("pie", ["pie"; "pies"; "circle"; "percentage"; "proportion"]);
  ("donut", ["donut"; "doughnut"]);
  ("scatter", ["scatter"; "scatter plot"; "scatterplot"]);
  ("bubble", ["bubble"; "bubbles"]);
  ("radar", ["radar"; "spider"; "web"; "polar"]);
  ("composed", ["composed"; "combined"; "mixed"; "multiple"; "overlay"]);
  ("treemap", ["treemap"; "tree map"; "hierarchy"]);
  ("funnel", ["funnel"; "funnels"; "conversion"]);
  ("sankey", ["sankey"; "flow"; "alluvial"]);
  ("sunburst", ["sunburst"; "sun burst"; "hierarchical pie"]);
  ("radialbar", ["radial"; "radial bar"]);
  ("histogram", ["histogram"; "histograms"]);
  ("boxplot", ["box plot"; "boxplot"; "box and whisker"]);
  ("heatmap", ["heatmap"; "heat map"]);
  ("lollipop", ["lollipop"; "lollipops"]);
  ("density", ["density plot"; "density"]);
  ("polararea", ["polar area"; "polar area chart"])
].

Definition by_specificity (a b : string * list string) : number :=
  sub (Registry.max_keyword_length (snd b))
      (Registry.max_keyword_length (snd a)).

Definition sortedConfigs : list (string * list string) :=
  JsArray.sort by_specificity CHART_TYPE_KEYWORDS.

Fixpoint first_match (configs : list (string * list string))
    (promptLower : string) : option string :=
  match configs with
  | [] => None
  | (key, keywords) :: rest =>
      if existsb (Registry.keyword_matches promptLower) keywords
      then Some key
      else first_match rest promptLower
  end.

Definition detectChartType (prompt : string) : string :=
  let promptLower := trim (toLowerCase prompt) in
  if Registry.asks_multiple_trendlines promptLower then "line"
  else match first_match sortedConfigs promptLower with
       | Some key => key
       | None => "bar"
       end.

(** Whether [CHART_TYPE_CONFIGS[chartType]] exists, which is when
    getChartConfig does not return null. *)
Definition has_config (chartType : string) : bool :=
  existsb (fun e => String.eqb (fst e) chartType) CHART_TYPE_KEYWORDS.

End ChartConfig.

(* ------------------------------------------------------------------ *)
(** ** Further worked inputs *)

Module MoreSamples.
Import JsString Js.

(** Forty records {"v": 10} ... {"v": 49}, and the same with the value of
    one record in the middle changed. *)
Definition forty : list JValue :=
  map (fun n => JObj [("v", Registry.num (Z.of_nat n))]) (seq 10 40).

Definition forty_changed : list JValue :=
  map (fun n => JObj [("v", Registry.num (if n =? 30 then 99
                                           else Z.of_nat n))])
      (seq 10 40).

(** Two records with the numeric keys "value" and "sales". *)
Definition sales_rows : list JValue :=
  [ App.row "Jan" 400 "sales" 4000; App.row "Feb" 300 "sales" 3000 ].

(** A stored configuration of a pie chart. *)
Definition pie_config : GeneratedChartConfig.t :=
  {| GeneratedChartConfig.chartType := "pie";
     GeneratedChartConfig.echartsOption := JObj [];
     GeneratedChartConfig.dataMapping :=
       {| DataMapping.nameKey := "name"; DataMapping.valueKey := "value";
          DataMapping.dataKeys := None |};
     GeneratedChartConfig.colors := [];
     GeneratedChartConfig.promptHash := "pie chart_2" |}.

End MoreSamples.

(* ------------------------------------------------------------------ *)
(** ** The title of the chart (getChartTitle of the component) *)

Module Titles.
Import JsString Regex Js.

(** The class of the double and the single quote, and its complement. *)
Definition is_quote (c : ascii) : bool := (code c =? 34) || (code c =? 39).
Definition not_quote (c : ascii) : bool := negb (is_quote c).

(** [(?:titled?|title:)] under the i flag. *)
Definition re_title_word : re :=
  Alt (Seq (lit true "title") (Opt (lit_char true "d"))) (lit true "title:").

(** White space and an optional quote: the part of the pattern between
    the word and the group. *)
Definition re_title_gap : re := Seq (Star is_space) (Opt (Chr is_quote)).

(** The group, a run of characters other than quotes, and the optional
    quote after it, from where the group starts; the result is the
    group. *)
Definition title_text (prev : option ascii) (s : string) : option string :=
  rmatch (Plus not_quote) prev s (fun p3 s3 =>
    rmatch (Opt (Chr is_quote)) p3 s3 (fun _ _ =>
      Some (take (String.length s - String.length s3) s))).

(** The title pattern of getChartTitle at one position, with its
    group. *)
Definition title_here (prev : option ascii) (s : string) : option string :=
  rmatch re_title_word prev s (fun p1 s1 =>
    rmatch re_title_gap p1 s1 title_text).

(** [prompt.match(...)]: the group of the leftmost match. *)
Fixpoint title_search (prev : option ascii) (s : string) : option string :=
  match title_here prev s with
  | Some t => Some t
  | None =>
      match s with
      | String c s' => title_search (Some c) s'
      | EmptyString => None
      end
  end.

Definition upper_char (c : ascii) : ascii :=
  if is_lower c then ascii_of_nat (code c - 32) else c.

(** [s.charAt(0).toUpperCase() + s.slice(1)] *)
Definition capitalized (s : string) : string :=
  match s with
  | String c s' => String (upper_char c) s'
  | EmptyString => EmptyString
  end.

Definition getChartTitle (chartConfig : option GeneratedChartConfig.t)
    (prompt : string) : string :=
  match chartConfig with
  | None => "Chart Preview"
  | Some cfg =>
      match title_search None prompt with
      | Some t => t
      | None =>
          if is_empty (GeneratedChartConfig.chartType cfg)
          then "Generated Chart"
          else (capitalized (GeneratedChartConfig.chartType cfg)
                ++ " Chart")%string
      end
  end.

(** No letter t of the text is followed by a letter i, in either case:
    the word title starts nowhere in it. *)
Fixpoint ti_free (s : string) : bool :=
  match s with
  | String c s' =>
      negb (Ascii.eqb (lower_char c) "t"
            && match s' with
               | String c' _ => Ascii.eqb (lower_char c') "i"
               | EmptyString => false
               end)
      && ti_free s'
  | EmptyString => true
  end.

(** No character of the text is a quote. *)
Fixpoint quote_free (s : string) : bool :=
  match s with
  | String c s' => not_quote c && quote_free s'
  | EmptyString => true
  end.

(** Where a run of characters outside the class may stop: at the end of
    the text or before a character of the class. *)
Definition stops (stop : string) : Prop :=
  match stop with
  | String q _ => is_quote q = true
  | EmptyString => True
  end.

End Titles.

(* ------------------------------------------------------------------ *)
(** ** Vocabulary for the patterns of extractColors *)

Module ColorShapes.
Import JsString Regex.

Fixpoint last_char (s : string) : option ascii :=
  match s with
  | EmptyString => None
  | String c EmptyString => Some c
  | String _ s' => last_char s'
  end.

(** The character before a position: the last one of the text passed
    over, or the one before that text when it is empty. *)
Definition char_before (prev : option ascii) (passed : string)
  : option ascii :=
  match last_char passed with
  | Some c => Some c
  | None => prev
  end.

(** The text holds the name, in any letter case, as a whole word:
    neither the character before the occurrence nor the one after it is a
    word character. *)
Definition occurs_as_word (name text : string) : Prop :=
  exists before found after,
    text = (before ++ found ++ after)%string /\
    toLowerCase found = name /\
    word_opt (last_char before) = false /\
    word_opt (head after) = false.

(** A lower-case name that begins and ends with a word character. *)
Definition wordy (name : string) : bool :=
  word_opt (head name) && word_opt (last_char name)
  && String.eqb (toLowerCase name) name.

(** Every character of the text is in the class. *)
Fixpoint all_chars (p : ascii -> bool) (s : string) : bool :=
  match s with
  | String c s' => p c && all_chars p s'
  | EmptyString => true
  end.

End ColorShapes.

(* ------------------------------------------------------------------ *)
(** ** Vocabulary for the builders and the server action *)

Module ChartShapes.
Import JsString Js Registry.

(** What one series of the bar family looks like: a bar series named after
    a key, with one number per record, read under that key, and the given
    [stack] property. *)
Definition bar_series_ok (config : EChartsElementConfig) (stack : JValue)
    (s : JValue) : Prop :=
  prop s "type" = JStr "bar" /\
  prop s "stack" = stack /\
  exists key,
    prop s "name" = JStr key /\
    prop s "data" =
      JArr (map (fun item => JNum (number_or_zero (prop item key)))
                (data config)).

(** The numeric and the string keys the server-side analysis sees. *)
Definition server_numericKeys (o : Obj) : list string :=
  filter (fun key => Server.is_number (obj_get key o)) (keys o).

Definition server_stringKeys (o : Obj) : list string :=
  filter (fun key => Server.is_string (obj_get key o)) (keys o).

(** A triple (label key, value key, series keys) that names only keys of
    the flattened first record: when the series keys are listed, they are
    the comma-joined sequence of at least two such keys, the value key
    first. *)
Definition mapping_ok (dk : DataKeys.t)
    (m : string * string * option string) : Prop :=
  let '(nameKey, valueKey, dataKeys) := m in
  In nameKey (DataKeys.allKeys dk) /\
  In valueKey (DataKeys.allKeys dk) /\
  forall ks, dataKeys = Some ks ->
    exists l, ks = join "," l /\ 2 <= List.length l /\
              incl l (DataKeys.allKeys dk) /\ hd_error l = Some valueKey.

(** The element configuration the option of a stored configuration is
    built from: the keys of its mapping (the series keys split at the
    commas), its colours, the flags read from the chart type and from the
    prompt, and the flattened records. *)
Definition built_from (prompt : string) (data : list JValue)
    (cfg : GeneratedChartConfig.t) : EChartsElementConfig :=
  let m := GeneratedChartConfig.dataMapping cfg in
  let chartType := GeneratedChartConfig.chartType cfg in
  let flags := Generator.trendline_flags (trim (toLowerCase prompt)) in
  {| nameKey := DataMapping.nameKey m;
     valueKey := DataMapping.valueKey m;
     dataKeys :=
       option_map (fun ks => map trim (split_on (chr_is 44) ks))
                  (DataMapping.dataKeys m);
     colors := GeneratedChartConfig.colors cfg;
     isStacked :=
       String.eqb chartType "stackedbar" || String.eqb chartType "stackedarea";
     isGrouped := String.eqb chartType "groupedbar";
     hasTrendline := fst flags;
     multipleTrendlines := snd flags;
     data := map (fun item => JObj (Flatten.flatten item)) data |}.

(** Whether a word of the prompt, of three characters or more, contains
    the key or is contained in it. *)
Definition named_by_a_word (promptLower key : string) : bool :=
  existsb (fun word => (3 <=? String.length word)
                       && (includes (toLowerCase key) word
                           || includes word (toLowerCase key)))
          (split_ws promptLower).

(** The series keys of a comparison: the numeric keys a word of the
    prompt names when there are two or more of them, the first two
    numeric keys otherwise. *)
Definition compared_keys (dk : DataKeys.t) (promptLower : string)
  : list string :=
  let matching :=
    filter (named_by_a_word promptLower) (DataKeys.numericKeys dk) in
  if 2 <=? List.length matching then matching
  else firstn 2 (DataKeys.numericKeys dk).

(** Some character of the text is no white space. *)
Fixpoint has_text (s : string) : bool :=
  match s with
  | String c s' => negb (is_space c) || has_text s'
  | EmptyString => false
  end.

End ChartShapes.

(* ------------------------------------------------------------------ *)
(** ** The matcher on sample texts *)

Module RegexFacts.
Import JsString Regex Generator.

Example whole_word_inside_a_word :
  Regex.test (whole_word "bar") "rebar" = false.
Proof. reflexivity. Qed.

Example whole_word_ignores_case :
  Regex.test (whole_word "bar") "a BAR!" = true.
Proof. reflexivity. Qed.

Example whole_word_run_of_spaces :
  Regex.test (whole_word "stacked bar") "a stacked    bar" = true.
Proof. reflexivity. Qed.

Example whole_word_needs_a_space :
  Regex.test (whole_word "stacked bar") "stackedbar" = false.
Proof. reflexivity. Qed.

Example hex_literals :
  match_all re_hex "#12 #abc #abcdefff" = ["#abc"; "#abcdef"].
Proof. reflexivity. Qed.

Example rgb_literals :
  match_all re_rgb "rgb(1, 2,3) rgba(0,0,0,.5) rgb( x"
  = ["rgb(1, 2,3)"; "rgba(0,0,0,.5)"].
Proof. reflexivity. Qed.

Example vs_pair :
  vsMatch "show Sales  VS  profit and cost" = Some ("Sales", "profit").
Proof. reflexivity. Qed.

Example split_on_spaces : split_ws "a  b c" = ["a"; "b"; "c"].
Proof. reflexivity. Qed.

End RegexFacts.

(* ------------------------------------------------------------------ *)
(** ** Properties of the classification *)

Module ClassifierFacts.
Import JsString Js Flatten Generator Statements.

(** What membership in the numeric keys of a non-empty data set amounts
    to. *)
Lemma numericKeys_In (rt : Runtime) (first : JValue) (rest : list JValue)
    (key : string) :
  In key (DataKeys.numericKeys (dataKeys rt (first :: rest))) <->
  In key (keys (flatten first)) /\
  is_numeric_value (obj_get key (flatten first)) = true.
Proof.
  unfold dataKeys; cbn [DataKeys.numericKeys].
  rewrite filter_In. reflexivity.
Qed.

Lemma is_numeric_value_spec (v : JValue) :
  is_numeric_value v = true <-> exists n, v = JNum n /\ isNaN n = false.
Proof.
  split.
  - destruct v; cbn; try discriminate.
    intro H. exists n. split; [reflexivity|].
    now destruct (isNaN n).
  - intros (n & -> & Hn). cbn. now rewrite Hn.
Qed.

(** C7, counterexample: the record {"x": Infinity}, which JSON text such
    as {"x": 1e999} parses to, has the key "x" among its numeric keys
    although the value is not finite. *)
Lemma infinity_is_classified_numeric : ~ numeric_iff_finite.
Proof.
  intro H.
  assert (Hk : In "x" (keys (flatten (JObj [("x", JNum PosInf)]))))
    by (vm_compute; auto).
  destruct (H Samples.runtime (JObj [("x", JNum PosInf)]) [] "x" Hk)
    as [Hnum _].
  destruct Hnum as (n & Hn & Hfin); [vm_compute; auto|].
  vm_compute in Hn. injection Hn as <-. discriminate.
Qed.

(** C7, as the code has it: a key of the flattened first record is
    classified as numeric if and only if its value is a number other than
    NaN; the infinities are classified as numeric. *)
Theorem numeric_iff_number_not_NaN :
  forall (rt : Runtime) (first : JValue) (rest : list JValue) (key : string),
    In key (keys (flatten first)) ->
    (In key (DataKeys.numericKeys (dataKeys rt (first :: rest))) <->
     exists n, obj_get key (flatten first) = JNum n /\ isNaN n = false).
Proof.
  intros rt first rest key Hkey.
  rewrite numericKeys_In, is_numeric_value_spec.
  tauto.
Qed.

Lemma numeric_iff_number_not_NaN_witness :
  In "x" (keys (flatten (JObj [("x", JNum PosInf)]))) /\
  (In "x" (DataKeys.numericKeys
             (dataKeys Samples.runtime [JObj [("x", JNum PosInf)]])) <->
   exists n, obj_get "x" (flatten (JObj [("x", JNum PosInf)])) = JNum n
             /\ isNaN n = false).
Proof.
  split; [vm_compute; auto|].
  apply (numeric_iff_number_not_NaN Samples.runtime
           (JObj [("x", JNum PosInf)]) [] "x").
  vm_compute; auto.
Defined.

End ClassifierFacts.

(* ------------------------------------------------------------------ *)
(** ** Properties of flattenObject *)

Module FlattenFacts.
Import JsString Js Flatten Statements.

Lemma obj_has_false (k : string) (o : Obj) :
  ~ In k (keys o) -> obj_has k o = false.
Proof.
  induction o as [|[k' v] o IH]; cbn; intro H; [reflexivity|].
  destruct (String.eqb_spec k k') as [->|_]; [tauto|].
  cbn. apply IH. tauto.
Qed.

Lemma digits_value_dot (s1 s2 : string) (acc : N) :
  digits_value (s1 ++ "." ++ s2) acc = None.
Proof.
  revert acc. induction s1 as [|c s1 IH]; intro acc; cbn.
  - reflexivity.
  - destruct (is_digit c); [apply IH | reflexivity].
Qed.

Lemma index_of_key_digits (s : string) :
  digits_value s 0%N = None -> index_of_key s = None.
Proof.
  intro H. unfold index_of_key. destruct s as [|c s]; [reflexivity|].
  destruct (chr_is 48 c && negb (is_empty s)); [reflexivity|].
  destruct (10 <? String.length (String c s)); [reflexivity|].
  now rewrite H.
Qed.

(** A dot-joined key is never an array index. *)
Lemma index_of_dotted (k j : string) : index_of_key (k ++ "." ++ j) = None.
Proof. apply index_of_key_digits, digits_value_dot. Qed.

Lemma assign_all_app (l1 l2 result : Obj) :
  assign_all (l1 ++ l2) result = assign_all l2 (assign_all l1 result).
Proof. apply fold_left_app. Qed.

(** Assigning fresh, pairwise distinct dot-joined keys appends them. *)
Lemma assign_all_fresh (pairs result : Obj) :
  Forall dotted_key (keys pairs) ->
  NoDup (keys result ++ keys pairs) ->
  assign_all pairs result = result ++ pairs.
Proof.
  revert result.
  induction pairs as [|[k v] pairs IH]; intros result Hdot Hnd.
  - cbn. now rewrite app_nil_r.
  - cbn in Hdot. inversion Hdot as [|? ? (k1 & j1 & Hk) Hdot']; subst.
    assert (Hfresh : ~ In (k1 ++ "." ++ j1)%string (keys result)).
    { intro Hin. cbn in Hnd. apply NoDup_remove_2 in Hnd.
      apply Hnd. apply in_or_app. now left. }
    assert (Hset : obj_set (k1 ++ "." ++ j1) v result
                   = result ++ [((k1 ++ "." ++ j1)%string, v)]).
    { unfold obj_set.
      now rewrite (obj_has_false _ _ Hfresh), index_of_dotted. }
    unfold assign_all. cbn [fold_left fst snd]. rewrite Hset.
    change (fold_left _ pairs ?r) with (assign_all pairs r).
    rewrite IH; [now rewrite <- app_assoc | assumption |].
    unfold keys in *. rewrite map_app. cbn [map fst].
    rewrite <- app_assoc. exact Hnd.
Qed.

(** An object of primitives flattens to its own leaves under the joined
    keys. *)
Lemma flattenObject_flat (inner : Obj) (prefix : string) (result : Obj) :
  Forall (fun jp => is_primitive (snd jp) = true) inner ->
  flattenObject (JObj inner) prefix result =
  assign_all (map (fun jp => (join_key prefix (fst jp), snd jp)) inner) result.
Proof.
  revert result.
  induction inner as [|[j p] inner IH]; intros result Hprim.
  - reflexivity.
  - inversion Hprim as [|? ? Hp Hprim']; subst. cbn [snd] in Hp.
    cbn [map fst snd assign_all fold_left].
    change (fold_left _ ?l ?r) with (assign_all l r).
    rewrite <- (IH _ Hprim').
    destruct p; try discriminate Hp; reflexivity.
Qed.

Lemma join_key_nonempty (k j : string) :
  k <> EmptyString -> join_key k j = (k ++ "." ++ j)%string.
Proof. destruct k; [congruence | reflexivity]. Qed.

(** A record of flat objects flattens to the assignment of its dot-joined
    leaves, provided no top-level key is the empty string. *)
Lemma flattenObject_nested (record : list (string * Obj)) (result : Obj) :
  Forall (fun ki => fst ki <> EmptyString) record ->
  flat_of_primitives record ->
  flattenObject (nested_record record) "" result =
  assign_all (dotted_leaves record) result.
Proof.
  revert result.
  induction record as [|[k inner] record IH]; intros result Hne Hflat.
  - reflexivity.
  - inversion Hne as [|? ? Hk Hne']; subst.
    inversion Hflat as [|? ? Hin Hflat']; subst.
    cbn [fst snd] in Hk, Hin.
    cbn [dotted_leaves flat_map fst snd].
    rewrite assign_all_app.
    change (flat_map _ record) with (dotted_leaves record).
    rewrite <- (IH _ Hne' Hflat').
    unfold dotted.
    rewrite (map_ext _ (fun jp => (join_key k (fst jp), snd jp))).
    2:{ intro jp. now rewrite join_key_nonempty. }
    rewrite <- (flattenObject_flat _ _ _ Hin).
    reflexivity.
Qed.

(** C8, counterexample: under the empty-string key the prefix test
    [prefix ? ... : key] takes the nested keys unprefixed, so
    flatten({"": {"b": 1}}) is {"b": 1} and not {".b": 1}. *)
Lemma empty_key_is_not_dot_joined : ~ flatten_is_dot_join.
Proof.
  intro H.
  specialize (H [(EmptyString, [("b", JNum (num_of_Z 1))])]).
  assert (Hflat : flat_of_primitives
                    [(EmptyString, [("b", JNum (num_of_Z 1))])]).
  { repeat constructor. }
  assert (Hnd : NoDup (keys (dotted_leaves
                    [(EmptyString, [("b", JNum (num_of_Z 1))])]))).
  { cbn. repeat constructor. intros []. }
  specialize (H Hflat Hnd). vm_compute in H. discriminate H.
Qed.

(** C8, as the code has it: for every record whose keys are non-empty and
    all of whose values are flat objects of primitives, flatten yields the
    object obtained by assigning each leaf under its dot-joined key, in
    order; when those keys are pairwise distinct that is exactly the list
    of dot-joined keys with their leaves and nothing else.  In particular
    flatten({a:{b:1,c:2}}) is {"a.b":1, "a.c":2}. *)
Theorem flatten_nested_objects :
  forall record : list (string * Obj),
    Forall (fun ki => fst ki <> EmptyString) record ->
    flat_of_primitives record ->
    flatten (nested_record record) = assign_all (dotted_leaves record) [] /\
    (NoDup (keys (dotted_leaves record)) ->
     flatten (nested_record record) = dotted_leaves record) /\
    flatten (JObj [("a", JObj [("b", JNum (num_of_Z 1));
                               ("c", JNum (num_of_Z 2))])])
    = [("a.b", JNum (num_of_Z 1)); ("a.c", JNum (num_of_Z 2))].
Proof.
  intros record Hne Hflat.
  pose proof (flattenObject_nested record [] Hne Hflat) as Hfl.
  fold (flatten (nested_record record)) in Hfl.
  split; [exact Hfl|]. split; [|reflexivity].
  intro Hnd. rewrite Hfl.
  rewrite assign_all_fresh; [reflexivity | | exact Hnd].
  unfold keys, dotted_leaves.
  clear. induction record as [|[k inner] record IH]; cbn; [constructor|].
  rewrite map_app. apply Forall_app. split; [|exact IH].
  unfold dotted. rewrite map_map. cbn [fst].
  apply Forall_forall. intros key Hin. apply in_map_iff in Hin.
  destruct Hin as (jp & <- & _). now exists k, (fst jp).
Qed.

Lemma flatten_nested_objects_witness :
  flatten (nested_record [("a", [("b", JNum (num_of_Z 1));
                                 ("c", JNum (num_of_Z 2))])])
  = [("a.b", JNum (num_of_Z 1)); ("a.c", JNum (num_of_Z 2))].
Proof.
  refine (proj1 (proj2 (flatten_nested_objects
            [("a", [("b", JNum (num_of_Z 1)); ("c", JNum (num_of_Z 2))])]
            _ _)) _).
  - repeat constructor; discriminate.
  - repeat constructor.
  - cbn. repeat constructor; cbn; intuition discriminate.
Defined.

End FlattenFacts.

(* ------------------------------------------------------------------ *)
(** ** Properties of the assembly effect *)

Module GeneratorFacts.
Import JsString Regex Js Flatten Generator.

Lemma usable_None (data : list JValue) (prompt : string) (dk : DataKeys.t) :
  data = [] \/ trim prompt = EmptyString \/
  is_truthy_key (DataKeys.nameKey dk) = false \/
  DataKeys.valueKey dk = EmptyString ->
  usable data prompt dk = None.
Proof.
  unfold usable, is_truthy_key.
  intros [-> | [Ht | [Hn | Hv]]].
  - reflexivity.
  - destruct data; [reflexivity|]. destruct (DataKeys.nameKey dk); [|reflexivity].
    rewrite Ht. cbn. now rewrite andb_false_r.
  - destruct data; [reflexivity|].
    destruct (DataKeys.nameKey dk) as [nk|]; [|reflexivity].
    destruct (is_empty nk); [|discriminate].
    cbn. now rewrite andb_false_r.
  - destruct data; [reflexivity|]. destruct (DataKeys.nameKey dk); [|reflexivity].
    rewrite Hv. cbn. now rewrite andb_false_r.
Qed.

(** C3: the assembler stores null, and resets the remembered fingerprint,
    whenever the data is empty, the prompt is empty or white space only, or
    the classification has no usable label key or value key; classifying
    an empty data set yields empty key lists and empty label and value
    keys; and assembling the empty data set with the prompt "bar chart"
    stores null.  The effect is a total function: no case raises. *)
Theorem assemble_clears_unusable_input :
  forall (rt : Runtime) (g : string -> Registry.EChartsElementConfig -> Obj),
    (forall (data : list JValue) (prompt : string) (st : State),
        data = [] \/ trim prompt = EmptyString \/
        is_truthy_key (DataKeys.nameKey (dataKeys rt data)) = false \/
        DataKeys.valueKey (dataKeys rt data) = EmptyString ->
        chartConfig (assemble rt g data prompt st) = None /\
        previousHashRef (assemble rt g data prompt st) = EmptyString) /\
    dataKeys rt [] =
      {| DataKeys.allKeys := []; DataKeys.numericKeys := [];
         DataKeys.stringKeys := []; DataKeys.dateKeys := [];
         DataKeys.nameKey := Some EmptyString;
         DataKeys.valueKey := EmptyString;
         DataKeys.flattenedData := [] |} /\
    (forall st : State,
        chartConfig (assemble rt g [] "bar chart" st) = None).
Proof.
  intros rt g. split; [|split].
  - intros data prompt st H. unfold assemble.
    now rewrite (usable_None data prompt (dataKeys rt data) H).
  - reflexivity.
  - intro st. reflexivity.
Qed.

Lemma assemble_clears_unusable_input_witness :
  chartConfig (assemble Samples.runtime Samples.builders
                 [JObj [("name", JStr "Jan")]] "bar chart" initial) = None.
Proof.
  apply (proj1 (assemble_clears_unusable_input Samples.runtime
                  Samples.builders)
           [JObj [("name", JStr "Jan")]] "bar chart" initial).
  right; right; right. reflexivity.
Defined.

End GeneratorFacts.

(* ------------------------------------------------------------------ *)
(** ** Properties of sorting and of the numeric order *)

Module SortFacts.
Import Js JsArray Statements.

Lemma insert_perm (A : Type) (cmp : A -> A -> number) (x : A) (l : list A) :
  Permutation (insert cmp x l) (x :: l).
Proof.
  induction l as [|y l IH]; cbn; [reflexivity|].
  destruct (ltb (cmp y x) zero); [|reflexivity].
  rewrite IH. apply perm_swap.
Qed.

Lemma sort_perm (A : Type) (cmp : A -> A -> number) (l : list A) :
  Permutation (sort cmp l) l.
Proof.
  induction l as [|x l IH]; cbn; [reflexivity|].
  rewrite insert_perm. now constructor.
Qed.

Lemma sort_length (A : Type) (cmp : A -> A -> number) (l : list A) :
  List.length (sort cmp l) = List.length l.
Proof. apply Permutation_length, sort_perm. Qed.

Lemma Qle_bool_minus (x y : Q) : Qle_bool 0 (y - x) = Qle_bool x y.
Proof.
  destruct (Qle_bool x y) eqn:E.
  - apply Qle_bool_iff. apply Qle_bool_iff in E.
    now apply -> Qle_minus_iff.
  - destruct (Qle_bool 0 (y - x)) eqn:E'; [|reflexivity].
    apply Qle_bool_iff in E'. apply Qle_minus_iff in E'.
    apply Qle_bool_iff in E'. congruence.
Qed.

(** On numbers other than [NaN], the sign of [y - x] decides [y < x]. *)
Lemma sub_negative (x y : number) :
  isNaN x = false -> isNaN y = false ->
  ltb (sub y x) zero = ltb y x.
Proof.
  destruct x, y; cbn; try discriminate; try reflexivity.
  intros _ _. now rewrite Qle_bool_minus.
Qed.

Lemma num_le_trans (a b c : number) : num_le a b -> num_le b c -> num_le a c.
Proof.
  unfold num_le. intros (Ha & Hb & Hab) (_ & Hc & Hbc).
  repeat split; try assumption.
  destruct a, b, c; cbn in *; try discriminate; try reflexivity.
  apply negb_false_iff in Hab, Hbc. apply negb_false_iff.
  apply Qle_bool_iff in Hab, Hbc. apply Qle_bool_iff.
  eapply Qle_trans; eassumption.
Qed.

Lemma num_le_total (a b : number) :
  isNaN a = false -> isNaN b = false -> ltb a b = false -> num_le b a.
Proof. unfold num_le; auto. Qed.

Lemma ltb_num_le (a b : number) :
  isNaN a = false -> isNaN b = false -> ltb a b = true -> num_le a b.
Proof.
  unfold num_le. intros Ha Hb H. repeat split; try assumption.
  destruct a, b; cbn in *; try discriminate; try reflexivity.
  apply negb_true_iff in H. apply negb_false_iff.
  apply Qle_bool_iff.
  destruct (Qlt_le_dec q q0) as [Hlt|Hle].
  - now apply Qlt_le_weak.
  - apply Qle_bool_iff in Hle. congruence.
Qed.

Lemma insert_sorted (x : number) (l : list number) :
  not_NaN x -> Forall not_NaN l ->
  StronglySorted num_le l ->
  StronglySorted num_le (insert (fun a b => sub a b) x l).
Proof.
  intros Hx Hl Hs. induction Hs as [|y l Hs IH Hy]; cbn.
  - repeat constructor.
  - inversion Hl as [|? ? Hyn Hl']; subst.
    rewrite (sub_negative x y Hx Hyn).
    destruct (ltb y x) eqn:E.
    + constructor; [now apply IH|].
      apply (Permutation_Forall (Permutation_sym (insert_perm _ _ x l))).
      constructor; [now apply ltb_num_le | assumption].
    + assert (Hxy : num_le x y) by now apply num_le_total.
      constructor; [now constructor|].
      constructor; [assumption|].
      eapply Forall_impl; [|exact Hy].
      intros z Hz. eapply num_le_trans; eassumption.
Qed.

(** Sorting with the comparator [(a, b) => a - b] a list without [NaN]
    yields a non-decreasing list. *)
Lemma sort_sorted (l : list number) :
  Forall not_NaN l -> StronglySorted num_le (sort (fun a b => sub a b) l).
Proof.
  induction l as [|x l IH]; intro H; cbn; [constructor|].
  inversion H as [|? ? Hx Hl]; subst.
  apply insert_sorted; [assumption | | now apply IH].
  apply (Permutation_Forall (Permutation_sym (sort_perm _ _ l))). assumption.
Qed.

Lemma get_nat (A : Type) (l : list A) (i : nat) :
  get l (Z.of_nat i) = nth_error l i.
Proof.
  unfold get. destruct (Z.ltb_spec (Z.of_nat i) 0); [lia|].
  now rewrite Nat2Z.id.
Qed.

Lemma get_last (A : Type) (l : list A) :
  get l (Z.of_nat (List.length l) - 1) = nth_error l (List.length l - 1).
Proof.
  destruct l as [|x l]; [reflexivity|].
  replace (Z.of_nat (List.length (x :: l)) - 1)%Z
    with (Z.of_nat (List.length (x :: l) - 1)) by (cbn [List.length]; lia).
  apply get_nat.
Qed.

(** The three rank computations, on lengths. *)
Lemma floor_quarter (n : nat) : floor_mul n 0.25 = Z.of_nat (n / 4).
Proof.
  unfold floor_mul, Qfloor, Qmult, inject_Z. cbn [Qnum Qden].
  rewrite Nat2Z.inj_div.
  change (Z.pos (1 * 100)) with (4 * 25)%Z. change (Z.of_nat 4) with 4%Z.
  apply Z.div_mul_cancel_r; lia.
Qed.

Lemma floor_half (n : nat) : floor_mul n 0.5 = Z.of_nat (n / 2).
Proof.
  unfold floor_mul, Qfloor, Qmult, inject_Z. cbn [Qnum Qden].
  rewrite Nat2Z.inj_div.
  change (Z.pos (1 * 10)) with (2 * 5)%Z. change (Z.of_nat 2) with 2%Z.
  apply Z.div_mul_cancel_r; lia.
Qed.

Lemma floor_three_quarters (n : nat) :
  floor_mul n 0.75 = Z.of_nat (3 * n / 4).
Proof.
  unfold floor_mul, Qfloor, Qmult, inject_Z. cbn [Qnum Qden].
  rewrite Nat2Z.inj_div, Nat2Z.inj_mul.
  change (Z.pos (1 * 100)) with (4 * 25)%Z. change (Z.of_nat 4) with 4%Z.
  change (Z.of_nat 3) with 3%Z. change 75%Z with (3 * 25)%Z.
  rewrite Z.mul_assoc, (Z.mul_comm (Z.of_nat n) 3).
  apply Z.div_mul_cancel_r; lia.
Qed.

End SortFacts.

(* ------------------------------------------------------------------ *)
(** ** Properties of the option builders *)

Module BuilderFacts.
Import JsString Js Registry Statements SortFacts.

(** C5: the boxplot builder sorts the values of all records (a permutation
    of them, non-decreasing when none is NaN) and emits one boxplot series
    whose single datum is [sorted[0], sorted[floor(n*0.25)],
    sorted[floor(n*0.5)], sorted[floor(n*0.75)], sorted[n-1]], the ranks
    being n/4, n/2 and 3n/4 in integer division; for the values 1 to 10
    the datum is [1, 3, 6, 8, 10]. *)
Theorem boxplot_five_number_summary :
  forall (rt : Runtime) (config : EChartsElementConfig),
    let sorted := boxplot_values config in
    let n := List.length sorted in
    Permutation sorted (boxplot_raw config) /\
    n = List.length (data config) /\
    (Forall not_NaN (boxplot_raw config) -> StronglySorted num_le sorted) /\
    prop (boxplot_generateOption rt config) "series" =
      JArr [ JObj [ ("name", JStr (valueKey config));
                    ("type", JStr "boxplot");
                    ("data", JArr [ JArr [ elem (nth_error sorted 0);
                                           elem (nth_error sorted (n / 4));
                                           elem (nth_error sorted (n / 2));
                                           elem (nth_error sorted (3 * n / 4));
                                           elem (nth_error sorted (n - 1)) ] ]);
                    ("itemStyle",
                     JObj [("color", color_get (colors config) 0)]) ] ] /\
    (boxplot_raw config = map num_of_Z [1; 2; 3; 4; 5; 6; 7; 8; 9; 10]%Z ->
     [ elem (nth_error sorted 0); elem (nth_error sorted (n / 4));
       elem (nth_error sorted (n / 2)); elem (nth_error sorted (3 * n / 4));
       elem (nth_error sorted (n - 1)) ]
     = [num 1; num 3; num 6; num 8; num 10]).
Proof.
  intros rt config sorted n.
  assert (Hperm : Permutation sorted (boxplot_raw config))
    by apply sort_perm.
  split; [exact Hperm|].
  split.
  { unfold n. rewrite (Permutation_length Hperm).
    unfold boxplot_raw. apply length_map. }
  split; [intro H; now apply sort_sorted|].
  split.
  { unfold boxplot_generateOption.
    fold sorted.
    unfold boxplot_q1, boxplot_median, boxplot_q3, boxplot_min, boxplot_max.
    fold n.
    rewrite floor_quarter, floor_half, floor_three_quarters.
    rewrite !get_nat. unfold n. rewrite get_last.
    change 0%Z with (Z.of_nat 0). rewrite get_nat.
    reflexivity. }
  intro Hraw. unfold n, sorted, boxplot_values.
  fold (boxplot_raw config). rewrite Hraw. reflexivity.
Qed.

Lemma boxplot_five_number_summary_witness :
  StronglySorted num_le
    (boxplot_values (Samples.config_for "v" None Samples.one_to_ten)) /\
  prop (boxplot_generateOption Samples.runtime
          (Samples.config_for "v" None Samples.one_to_ten)) "series"
  = JArr [ JObj [ ("name", JStr "v");
                  ("type", JStr "boxplot");
                  ("data", JArr [ JArr [num 1; num 3; num 6; num 8; num 10] ]);
                  ("itemStyle", JObj [("color", JStr "#ff0000")]) ] ].
Proof.
  pose proof (boxplot_five_number_summary Samples.runtime
                (Samples.config_for "v" None Samples.one_to_ten)) as H.
  cbv zeta in H.
  destruct H as (_ & _ & Hsorted & Hseries & Hten).
  split.
  - apply Hsorted. repeat constructor.
  - rewrite Hseries. rewrite (Hten eq_refl). reflexivity.
Defined.

(** C6, counterexample: with the two fields "open" and "close" resolved, the
    record {open: 10, close: 20} yields the datum [10, 10, 10, 10]; the
    second field is not read as the close. *)
Lemma second_field_is_not_close : ~ candlestick_positional.
Proof.
  intro H.
  specialize (H (Samples.config_for "open" (Some ["open"; "close"]) [])
                (JObj [("open", num 10); ("close", num 20)])
                1 "close" (num_of_Z 20)).
  assert (H1 : 1 < 4) by lia.
  specialize (H H1 eq_refl eq_refl).
  vm_compute in H. discriminate H.
Qed.

Lemma Math_min_same (v : number) : Math_min v v = v.
Proof.
  unfold Math_min. destruct v; cbn; try reflexivity.
  now destruct (negb (Qle_bool q q)).
Qed.

Lemma Math_max_same (v : number) : Math_max v v = v.
Proof.
  unfold Math_max. destruct v; cbn; try reflexivity.
  now destruct (negb (Qle_bool q q)).
Qed.

(** C6, as the code has it: when four or more fields are resolved the
    first four are read positionally as open, close, low and high, a low or
    high that is not a number being replaced by the minimum or maximum of
    the record's open and close; when fewer than four are resolved, all
    four positions read the first resolved field, so the datum is that
    field's number (0 when it is not a number) four times, and its low and
    high are the minimum and maximum of its open and close. *)
Theorem candlestick_fields :
  forall (config : EChartsElementConfig) (item : JValue),
    (forall (k0 k1 k2 k3 : string) (rest : list string),
        series_keys config = k0 :: k1 :: k2 :: k3 :: rest ->
        let open := number_or_zero (prop item k0) in
        let close := number_or_zero (prop item k1) in
        candlestick_datum config item =
          [ open; close;
            match prop item k2 with JNum n => n | _ => Math_min open close end;
            match prop item k3 with JNum n => n | _ => Math_max open close end ])
    /\
    (forall k0 : string,
        List.length (series_keys config) < 4 ->
        nth_error (series_keys config) 0 = Some k0 ->
        k0 <> EmptyString ->
        let v := number_or_zero (prop item k0) in
        candlestick_datum config item = [v; v; v; v] /\
        Math_min v v = v /\ Math_max v v = v).
Proof.
  intros config item. split.
  - intros k0 k1 k2 k3 rest Hkeys open close.
    unfold candlestick_datum, ohlcKeys. rewrite Hkeys. reflexivity.
  - intros k0 Hlen Hk0 Hne v.
    split; [|split; [apply Math_min_same | apply Math_max_same]].
    unfold candlestick_datum, ohlcKeys, first_key_or_value.
    destruct (Nat.leb_spec 4 (List.length (series_keys config))); [lia|].
    change 0%Z with (Z.of_nat 0). rewrite !get_nat, Hk0.
    destruct k0 as [|c k0]; [congruence|].
    unfold v. cbv -[prop Math_min Math_max].
    destruct (prop item (String c k0)); reflexivity.
Qed.

Lemma candlestick_fields_witness :
  candlestick_datum (Samples.config_for "open" (Some ["open"; "close"]) [])
                    (JObj [("open", num 10); ("close", num 20)])
  = [num_of_Z 10; num_of_Z 10; num_of_Z 10; num_of_Z 10].
Proof.
  refine (proj1 (proj2 (candlestick_fields
            (Samples.config_for "open" (Some ["open"; "close"]) [])
            (JObj [("open", num 10); ("close", num 20)]))
          "open" _ eq_refl _)).
  - cbn. lia.
  - discriminate.
Defined.

End BuilderFacts.

(* ------------------------------------------------------------------ *)
(** ** Properties of chart-type detection *)

Module DetectFacts.
Import JsString Js Registry Statements SortFacts.

Section Detection.
Variable rt : Runtime.
Variable g : string -> EChartsElementConfig -> Obj.

Lemma first_match_Some (l : list (string * EChartsConfig))
    (p key : string) :
  first_match l p = Some key ->
  exists before config after keyword,
    l = before ++ (key, config) :: after /\
    In keyword (keywords config) /\
    keyword_matches p keyword = true /\
    no_keyword_in before p.
Proof.
  induction l as [|[k c] l IH]; cbn; [discriminate|].
  destruct (existsb (keyword_matches p) (keywords c)) eqn:E.
  - intros [= ->]. apply existsb_exists in E. destruct E as (kw & Hin & Hm).
    exists [], c, l, kw. repeat split; try assumption.
    intros e kw' [].
  - intro H. destruct (IH H) as (before & config & after & kw & -> & Hin & Hm & Hno).
    exists ((k, c) :: before), config, after, kw.
    repeat split; try assumption.
    intros e kw' [<- | He] Hkw.
    + cbn in Hkw.
      destruct (keyword_matches p kw') eqn:E'; [|reflexivity].
      assert (existsb (keyword_matches p) (keywords c) = true)
        by (apply existsb_exists; eauto).
      congruence.
    + now apply (Hno e).
Qed.

Lemma first_match_None (l : list (string * EChartsConfig)) (p : string) :
  first_match l p = None -> no_keyword_in l p.
Proof.
  induction l as [|[k c] l IH]; cbn; intros H e kw He Hkw; [destruct He|].
  destruct (existsb (keyword_matches p) (keywords c)) eqn:E; [discriminate|].
  destruct He as [<- | He].
  - cbn in Hkw. destruct (keyword_matches p kw) eqn:E'; [|reflexivity].
    assert (existsb (keyword_matches p) (keywords c) = true)
      by (apply existsb_exists; eauto).
    congruence.
  - now apply (IH H e).
Qed.

Lemma sortedConfigs_perm :
  Permutation (sortedConfigs rt g) (ECHARTS_TYPE_CONFIGS rt g).
Proof. apply sort_perm. Qed.

Lemma specificities_value :
  specificities rt g =
  map num_of_Z [20; 17; 17; 16; 16; 16; 15; 14; 14; 13; 13; 12; 12; 11; 11;
                10; 10; 10; 10; 10; 9; 9; 8; 8; 8; 7; 7; 6; 6; 6]%Z.
Proof. vm_compute. reflexivity. Qed.

Lemma detectEChartsType_Detected (prompt : string) :
  Detected rt g prompt (detectEChartsType rt g prompt).
Proof.
  unfold detectEChartsType.
  destruct (asks_multiple_trendlines (trim (toLowerCase prompt))) eqn:Em.
  - now apply Detected_multiple.
  - destruct (first_match (sortedConfigs rt g) (trim (toLowerCase prompt)))
      as [key|] eqn:Ef.
    + apply first_match_Some in Ef.
      destruct Ef as (before & config & after & kw & Hs & Hin & Hm & Hno).
      now apply (Detected_keyword rt g prompt before key config after kw).
    + apply Detected_default; [assumption|].
      apply first_match_None in Ef.
      intros e kw He. apply Ef.
      apply (Permutation_in e (Permutation_sym sortedConfigs_perm) He).
Qed.

End Detection.

(** C4, counterexample: in the prompt "dual trendline" no keyword of the
    registry is found as a whole word, yet the detected type is "line",
    not the default "bar". *)
Lemma dual_trendline_is_line :
  ~ keyword_search_alone Samples.runtime Samples.builders.
Proof.
  intro H. specialize (H "dual trendline").
  assert (Hno : no_keyword_in
                  (ECHARTS_TYPE_CONFIGS Samples.runtime Samples.builders)
                  (trim (toLowerCase "dual trendline"))).
  { assert (Hall : forallb
              (fun e => forallb
                 (fun kw => negb (keyword_matches
                                    (trim (toLowerCase "dual trendline")) kw))
                 (keywords (snd e)))
              (ECHARTS_TYPE_CONFIGS Samples.runtime Samples.builders) = true)
      by (vm_compute; reflexivity).
    intros e kw He Hkw.
    rewrite forallb_forall in Hall. specialize (Hall e He).
    rewrite forallb_forall in Hall. specialize (Hall kw Hkw).
    now apply negb_true_iff in Hall. }
  specialize (H Hno). vm_compute in H. discriminate H.
Qed.

(** C4, as the code has it: a prompt that asks for dual or multiple
    trendlines is detected as "line" before any keyword is looked at.
    Otherwise the registry entries are searched in the order of their
    longest keyword, longest first (a stable sort of the registry, so ties
    keep registry order), each entry's keywords in listed order, with
    whole-word, case-insensitive matching in which a space of the keyword
    stands for any run of white space; the first entry with a keyword found
    gives the type, and "bar" is the default when no keyword is found.  In
    particular "show me a stacked bar chart" is detected as "stackedbar". *)
Theorem detectEChartsType_search :
  forall (rt : Runtime) (g : string -> EChartsElementConfig -> Obj),
    (forall prompt : string,
        Detected rt g prompt (detectEChartsType rt g prompt)) /\
    Permutation (sortedConfigs rt g) (ECHARTS_TYPE_CONFIGS rt g) /\
    StronglySorted (fun a b => num_le b a) (specificities rt g) /\
    map fst (sortedConfigs rt g) =
      [ "parallel"; "tree"; "calendar"; "sunburst"; "polararea";
        "effectscatter"; "boxplot"; "stackedbar"; "groupedbar";
        "stackedarea"; "graph"; "scatter"; "density"; "candlestick";
        "themeriver"; "pie"; "funnel"; "radialbar"; "histogram"; "lines";
        "treemap"; "lollipop"; "donut"; "heatmap"; "sankey"; "bar"; "bubble";
        "line"; "area"; "radar" ] /\
    detectEChartsType rt g "show me a stacked bar chart" = "stackedbar" /\
    detectEChartsType rt g "Show me a STACKED   Bar chart" = "stackedbar" /\
    detectEChartsType rt g "a scatterbrained pie" = "pie" /\
    detectEChartsType rt g "stacked bar with dual trendline" = "line".
Proof.
  intros rt g.
  split; [apply detectEChartsType_Detected|].
  split; [apply sortedConfigs_perm|].
  split.
  { rewrite specificities_value.
    apply Sorted_StronglySorted.
    - intros a b c Hab Hbc. eapply num_le_trans; eassumption.
    - repeat constructor. }
  repeat split; vm_compute; reflexivity.
Qed.

End DetectFacts.

(* ------------------------------------------------------------------ *)
(** ** Properties of an accepted run of the effect *)

Module AssemblyFacts.
Import JsString Regex Js Flatten Generator.

Section Assembly.
Variable rt : Runtime.
Variable g : string -> Registry.EChartsElementConfig -> Obj.

Lemma registry_lookup :
  Forall (fun e => Registry.getEChartsConfig rt g (fst e) = Some (snd e))
         (Registry.ECHARTS_TYPE_CONFIGS rt g).
Proof. repeat constructor. Qed.

(** Every builder of the registry returns an object. *)
Lemma registry_builds_objects :
  Forall (fun e => forall ec,
              truthy (Registry.generateOption (snd e) ec) = true)
         (Registry.ECHARTS_TYPE_CONFIGS rt g).
Proof. repeat constructor. Qed.

(** The chart type the effect settles on is always a key of the
    registry. *)
Lemma chosen_chartType_registered (prompt : string) :
  exists config,
    Registry.getEChartsConfig rt g (chosen_chartType rt g prompt) = Some config
    /\ forall ec, truthy (Registry.generateOption config ec) = true.
Proof.
  assert (Hline : exists config,
             Registry.getEChartsConfig rt g "line" = Some config /\
             forall ec, truthy (Registry.generateOption config ec) = true).
  { eexists. split; [reflexivity|]. intro ec. reflexivity. }
  assert (Hbar : exists config,
             Registry.getEChartsConfig rt g "bar" = Some config /\
             forall ec, truthy (Registry.generateOption config ec) = true).
  { eexists. split; [reflexivity|]. intro ec. reflexivity. }
  assert (Hdet : exists config,
             Registry.getEChartsConfig rt g
               (Registry.detectEChartsType rt g prompt) = Some config /\
             forall ec, truthy (Registry.generateOption config ec) = true).
  { unfold Registry.detectEChartsType.
    destruct (Registry.asks_multiple_trendlines _); [exact Hline|].
    destruct (Registry.first_match _ _) as [key|] eqn:Ef; [|exact Hbar].
    apply DetectFacts.first_match_Some in Ef.
    destruct Ef as (before & config & after & kw & Hs & _).
    assert (Hin : In (key, config) (Registry.ECHARTS_TYPE_CONFIGS rt g)).
    { apply (Permutation_in _ (DetectFacts.sortedConfigs_perm rt g)).
      rewrite Hs. apply in_or_app. right. now left. }
    exists config. split.
    - pose proof registry_lookup as H.
      rewrite Forall_forall in H. exact (H _ Hin).
    - pose proof registry_builds_objects as H.
      rewrite Forall_forall in H. exact (H _ Hin). }
  unfold chosen_chartType.
  destruct (_ && _ && _); assumption.
Qed.

Lemma palette_is_cache_prefix (count : nat) (cache : list string * nat) :
  fst (getRandomColorPalette rt count cache) =
  firstn count (fst (snd (getRandomColorPalette rt count cache))).
Proof.
  unfold getRandomColorPalette. destruct cache as [cached drawn].
  now destruct (List.length cached <? count).
Qed.

(** What an accepted run stores. *)
Lemma generate_stores (data : list JValue) (prompt : string)
    (dk : DataKeys.t) (nameKey hash : string) (st : State) :
  let st' := generate rt g data prompt dk nameKey hash st in
  previousHashRef st' = hash /\
  builderCalls st' = S (builderCalls st) /\
  exists cfg,
    chartConfig st' = Some cfg /\
    GeneratedChartConfig.chartType cfg = chosen_chartType rt g prompt /\
    GeneratedChartConfig.promptHash cfg = hash /\
    GeneratedChartConfig.colors cfg =
      match extractColors (trim (toLowerCase prompt)) with
      | Some cs => cs
      | None => firstn 20 (cachedColors st')
      end.
Proof.
  unfold generate.
  destruct (trendline_flags _) as [hasTrendline multipleTrendlines].
  destruct (keys_from_comparison _ _ _ _) as [[nameKeyToUse valueKeyToUse] dataKeysToUse].
  destruct (chosen_chartType_registered prompt) as (config & Hc & Ht).
  rewrite Hc.
  destruct (extractColors _) as [cs|].
  - rewrite Ht. cbn. repeat split. eexists. repeat split.
  - destruct (getRandomColorPalette rt 20 (cachedColors st, colorsDrawn st))
      as [colors1 cache1] eqn:E1.
    rewrite Ht. cbn [negb].
    destruct (getRandomColorPalette rt 20 cache1) as [colors2 cache2] eqn:E2.
    cbn. repeat split. eexists. repeat split.
    pose proof (palette_is_cache_prefix 20 cache1) as H.
    now rewrite E2 in H.
Qed.

(** An accepted input has a non-empty fingerprint. *)
Lemma usable_hash_nonempty (data : list JValue) (prompt nk : string) :
  usable data prompt (dataKeys rt data) = Some nk ->
  dataPromptHash rt data prompt <> EmptyString.
Proof.
  unfold usable, dataPromptHash.
  destruct data as [|first rest]; [discriminate|].
  destruct (DataKeys.nameKey _); [|discriminate].
  destruct prompt as [|c prompt]; [discriminate|].
  cbn [is_empty negb andb].
  destruct (trim (String c prompt)) as [|c' t] eqn:Et; [discriminate|].
  intros _. destruct (JSON_stringify rt _); discriminate.
Qed.

(** Running the effect again on the same props changes nothing. *)
Lemma assemble_idempotent (data : list JValue) (prompt : string) (st : State) :
  assemble rt g data prompt (assemble rt g data prompt st)
  = assemble rt g data prompt st.
Proof.
  unfold assemble.
  destruct (usable data prompt (dataKeys rt data)) as [nk|] eqn:Eu.
  - destruct (String.eqb (previousHashRef st) (dataPromptHash rt data prompt))
      eqn:Eh.
    + now rewrite Eh.
    + destruct (generate_stores data prompt (dataKeys rt data) nk
                  (dataPromptHash rt data prompt) st) as (Hp & _).
      rewrite Hp. now rewrite String.eqb_refl.
  - reflexivity.
Qed.

End Assembly.

(** C2: for props the effect accepts, the fingerprint is the trimmed prompt
    followed by the number of records, the length of the serialization and
    its first and last 100 characters; a first run on a state that does not
    remember this fingerprint invokes the option builder once and remembers
    the fingerprint, and a second run with the same data and prompt finds
    it unchanged and returns at once: the builder has been invoked exactly
    once over the two runs and the state, with its stored configuration, is
    that of the first run. *)
Theorem assemble_twice_builds_once :
  forall (rt : Runtime) (g : string -> Registry.EChartsElementConfig -> Obj)
         (data : list JValue) (prompt nk : string) (st : State),
    usable data prompt (dataKeys rt data) = Some nk ->
    previousHashRef st <> dataPromptHash rt data prompt ->
    let st1 := assemble rt g data prompt st in
    let st2 := assemble rt g data prompt st1 in
    (forall dataStr, JSON_stringify rt data = Some dataStr ->
       dataPromptHash rt data prompt =
         (trim prompt ++ "_" ++ of_nat (List.length data) ++ "_" ++
          of_nat (String.length dataStr) ++ "_" ++ take 100 dataStr ++ "_" ++
          take_last 100 dataStr)%string) /\
    previousHashRef st1 = dataPromptHash rt data prompt /\
    builderCalls st1 = S (builderCalls st) /\
    builderCalls st2 = S (builderCalls st) /\
    (exists cfg, chartConfig st1 = Some cfg /\
                 GeneratedChartConfig.promptHash cfg
                 = dataPromptHash rt data prompt) /\
    chartConfig st2 = chartConfig st1 /\
    st2 = st1.
Proof.
  intros rt g data prompt nk st Hu Hprev st1 st2.
  assert (H21 : st2 = st1) by apply assemble_idempotent.
  assert (Hst1 : st1 = generate rt g data prompt (dataKeys rt data) nk
                         (dataPromptHash rt data prompt) st).
  { unfold st1, assemble. rewrite Hu.
    destruct (String.eqb_spec (previousHashRef st)
                (dataPromptHash rt data prompt)); [contradiction|reflexivity]. }
  destruct (generate_stores rt g data prompt (dataKeys rt data) nk
              (dataPromptHash rt data prompt) st)
    as (Hp & Hb & cfg & Hcfg & _ & Hh & _).
  rewrite <- Hst1 in Hp, Hb, Hcfg.
  split.
  { intros dataStr Hs. unfold dataPromptHash. rewrite Hs.
    unfold usable in Hu.
    destruct data; [discriminate|].
    destruct prompt; [|reflexivity].
    destruct (DataKeys.nameKey _); discriminate. }
  rewrite H21. repeat split; try assumption.
  exists cfg. now split.
Qed.

Lemma assemble_twice_builds_once_witness :
  builderCalls
    (assemble Samples.runtime Samples.builders Samples.jan_feb
       "Create a pie chart"
       (assemble Samples.runtime Samples.builders Samples.jan_feb
          "Create a pie chart" initial)) = 1.
Proof.
  refine (proj1 (proj2 (proj2 (proj2
            (assemble_twice_builds_once Samples.runtime Samples.builders
               Samples.jan_feb "Create a pie chart" "name" initial _ _))))).
  - vm_compute. reflexivity.
  - vm_compute. discriminate.
Defined.

Lemma asks_trendline_forces_line
    (rt : Runtime) (g : string -> Registry.EChartsElementConfig -> Obj)
    (prompt : string) :
  asks_trendline (trim (toLowerCase prompt)) = true ->
  Registry.detectEChartsType rt g prompt <> "line" ->
  Registry.detectEChartsType rt g prompt <> "scatter" ->
  chosen_chartType rt g prompt = "line".
Proof.
  intros Ht Hl Hs. unfold chosen_chartType, trendline_flags.
  rewrite Ht.
  destruct (Registry.asks_multiple_trendlines _); cbn [fst andb];
    destruct (String.eqb_spec (Registry.detectEChartsType rt g prompt) "line");
    try contradiction;
    destruct (String.eqb_spec (Registry.detectEChartsType rt g prompt)
                "scatter");
    try contradiction; reflexivity.
Qed.

(** C10: whenever the lower-cased prompt contains "trendline",
    "trend line", "regression" or "linear trend" (a single trendline
    suffices) and the keyword-detected chart type is neither "line" nor
    "scatter", the configuration the effect assembles has chartType
    "line"; for instance "bar chart with a trendline" over the Jan/Feb
    data yields "line" although the detected type is "bar". *)
Theorem trendline_overrides_chartType :
  forall (rt : Runtime) (g : string -> Registry.EChartsElementConfig -> Obj)
         (data : list JValue) (prompt nk : string) (st : State),
    usable data prompt (dataKeys rt data) = Some nk ->
    previousHashRef st <> dataPromptHash rt data prompt ->
    includes (trim (toLowerCase prompt)) "trendline" = true \/
    includes (trim (toLowerCase prompt)) "trend line" = true \/
    includes (trim (toLowerCase prompt)) "regression" = true \/
    includes (trim (toLowerCase prompt)) "linear trend" = true ->
    Registry.detectEChartsType rt g prompt <> "line" ->
    Registry.detectEChartsType rt g prompt <> "scatter" ->
    (exists cfg,
        chartConfig (assemble rt g data prompt st) = Some cfg /\
        GeneratedChartConfig.chartType cfg = "line") /\
    Registry.detectEChartsType rt g "bar chart with a trendline" = "bar" /\
    (exists cfg,
        chartConfig (assemble rt g Samples.jan_feb
                       "bar chart with a trendline" initial) = Some cfg /\
        GeneratedChartConfig.chartType cfg = "line").
Proof.
  assert (Hgen : forall rt g data prompt nk st,
    usable data prompt (dataKeys rt data) = Some nk ->
    previousHashRef st <> dataPromptHash rt data prompt ->
    asks_trendline (trim (toLowerCase prompt)) = true ->
    Registry.detectEChartsType rt g prompt <> "line" ->
    Registry.detectEChartsType rt g prompt <> "scatter" ->
    exists cfg,
      chartConfig (assemble rt g data prompt st) = Some cfg /\
      GeneratedChartConfig.chartType cfg = "line").
  { intros rt g data prompt nk st Hu Hprev Ht Hl Hs.
    unfold assemble. rewrite Hu.
    destruct (String.eqb_spec (previousHashRef st)
                (dataPromptHash rt data prompt)); [contradiction|].
    destruct (generate_stores rt g data prompt (dataKeys rt data) nk
                (dataPromptHash rt data prompt) st)
      as (_ & _ & cfg & Hcfg & Hty & _).
    exists cfg. split; [exact Hcfg|].
    rewrite Hty. now apply asks_trendline_forces_line. }
  intros rt g data prompt nk st Hu Hprev Hkw Hl Hs.
  split; [|split].
  - apply (Hgen rt g data prompt nk st Hu Hprev); try assumption.
    unfold asks_trendline.
    destruct Hkw as [-> | [-> | [-> | ->]]];
      rewrite ?orb_true_r; reflexivity.
  - vm_compute. reflexivity.
  - apply (Hgen rt g Samples.jan_feb "bar chart with a trendline" "name").
    + vm_compute. reflexivity.
    + intro H. symmetry in H. revert H.
      apply (usable_hash_nonempty rt Samples.jan_feb
               "bar chart with a trendline" "name").
      vm_compute. reflexivity.
    + vm_compute. reflexivity.
    + vm_compute. discriminate.
    + vm_compute. discriminate.
Qed.

Lemma trendline_overrides_chartType_witness :
  exists cfg,
    chartConfig (assemble Samples.runtime Samples.builders Samples.jan_feb
                   "column chart of value with a regression" initial)
    = Some cfg /\
    GeneratedChartConfig.chartType cfg = "line".
Proof.
  refine (proj1 (trendline_overrides_chartType Samples.runtime
            Samples.builders Samples.jan_feb
            "column chart of value with a regression" "name" initial
            _ _ _ _ _)).
  - vm_compute. reflexivity.
  - vm_compute. discriminate.
  - right; right; left. vm_compute. reflexivity.
  - vm_compute. discriminate.
  - vm_compute. discriminate.
Defined.

(** C1: for the data [{name: "Jan", value: 400}, {name: "Feb", value:
    300}] and the prompt "Create a pie chart", a first run of the effect
    stores a configuration with chartType "pie", nameKey "name" and
    valueKey "value", whose option has a single series, of type "pie",
    with exactly two data entries: Jan with value 400 and Feb with value
    300. *)
Theorem pie_chart_scenario :
  forall (rt : Runtime) (g : string -> Registry.EChartsElementConfig -> Obj),
  exists cfg series entries,
    chartConfig (assemble rt g Samples.jan_feb "Create a pie chart" initial)
    = Some cfg /\
    GeneratedChartConfig.chartType cfg = "pie" /\
    DataMapping.nameKey (GeneratedChartConfig.dataMapping cfg) = "name" /\
    DataMapping.valueKey (GeneratedChartConfig.dataMapping cfg) = "value" /\
    prop (GeneratedChartConfig.echartsOption cfg) "series" = JArr [series] /\
    prop series "type" = JStr "pie" /\
    prop series "data" = JArr entries /\
    map (fun e => (prop e "name", prop e "value")) entries
    = [ (JStr "Jan", Registry.num 400); (JStr "Feb", Registry.num 300) ].
Proof.
  intros rt g.
  assert (Hu : usable Samples.jan_feb "Create a pie chart"
                 (dataKeys rt Samples.jan_feb) = Some "name")
    by (vm_compute; reflexivity).
  unfold assemble. rewrite Hu.
  destruct (String.eqb_spec (previousHashRef initial)
              (dataPromptHash rt Samples.jan_feb "Create a pie chart"))
    as [E|_].
  { symmetry in E. now apply usable_hash_nonempty in Hu. }
  vm_compute.
  do 3 eexists. repeat (split; [reflexivity|]). reflexivity.
Qed.

End AssemblyFacts.

(* ------------------------------------------------------------------ *)
(** ** Properties of colour extraction *)

Module ColorFacts.
Import JsString Regex Js Generator ColorShapes.

Lemma seen_spec (x : string) (seen : list string) :
  existsb (String.eqb x) seen = true <-> In x seen.
Proof.
  rewrite existsb_exists. split.
  - intros (y & Hin & He). apply String.eqb_eq in He. now subst.
  - intro H. exists x. split; [assumption | apply String.eqb_refl].
Qed.

Lemma unique_aux_In (l seen : list string) (c : string) :
  In c (JsArray.unique_aux seen l) <-> In c l /\ ~ In c seen.
Proof.
  revert seen. induction l as [|x l IH]; intro seen; cbn; [tauto|].
  destruct (existsb (String.eqb x) seen) eqn:E.
  - apply seen_spec in E. rewrite IH. split.
    + tauto.
    + intros [[<- | H] Hn]; tauto.
  - assert (Hx : ~ In x seen).
    { intro H. apply seen_spec in H. congruence. }
    cbn. rewrite IH. cbn. split.
    + intros [<- | [H Hn]]; tauto.
    + intros [[<- | H] Hn]; [tauto|].
      destruct (String.eqb_spec x c) as [->|Hne]; tauto.
Qed.

Lemma unique_aux_NoDup (l seen : list string) :
  NoDup (JsArray.unique_aux seen l).
Proof.
  revert seen. induction l as [|x l IH]; intro seen; cbn; [constructor|].
  destruct (existsb (String.eqb x) seen); [apply IH|].
  constructor; [|apply IH].
  rewrite unique_aux_In. cbn. tauto.
Qed.

(** A first occurrence is kept, after exactly the earlier colours that
    were still unseen. *)
Lemma unique_aux_order (pre : list string) :
  forall (seen post : list string) (x : string),
    ~ In x pre -> ~ In x seen ->
    exists pre' post',
      JsArray.unique_aux seen (pre ++ x :: post) = pre' ++ x :: post' /\
      forall y, In y pre' <-> In y pre /\ ~ In y seen.
Proof.
  induction pre as [|a pre IH]; intros seen post x Hpre Hseen; cbn.
  - assert (E : existsb (String.eqb x) seen = false).
    { destruct (existsb (String.eqb x) seen) eqn:E; [|reflexivity].
      apply seen_spec in E. contradiction. }
    rewrite E. exists [], (JsArray.unique_aux (x :: seen) post).
    split; [reflexivity|]. cbn. tauto.
  - assert (Hxa : x <> a) by (intro; subst; apply Hpre; now left).
    assert (Hpre' : ~ In x pre) by (intro; apply Hpre; now right).
    destruct (existsb (String.eqb a) seen) eqn:E.
    + apply seen_spec in E.
      destruct (IH seen post x Hpre' Hseen) as (pre' & post' & -> & Hy).
      exists pre', post'. split; [reflexivity|].
      intro y. rewrite Hy. cbn. split; [tauto|].
      intros [[<- | H] Hn]; tauto.
    + assert (Ha : ~ In a seen).
      { intro H. apply seen_spec in H. congruence. }
      assert (Hseen' : ~ In x (a :: seen)) by (cbn; intuition congruence).
      destruct (IH (a :: seen) post x Hpre' Hseen')
        as (pre' & post' & -> & Hy).
      exists (a :: pre'), post'. split; [reflexivity|].
      intro y. cbn. rewrite Hy. cbn. split.
      * intros [<- | [H Hn]]; tauto.
      * intros [[<- | H] Hn]; [tauto|].
        destruct (String.eqb_spec a y) as [->|Hne]; tauto.
Qed.

Lemma unique_nil (l : list string) : JsArray.unique l = [] <-> l = [].
Proof.
  split; [|intros ->; reflexivity].
  destruct l as [|x l]; [reflexivity|]. cbn. discriminate.
Qed.

Lemma named_colors_In (promptText c : string) :
  In c (named_colors promptText) <->
  exists name, In (name, c) colorMap /\
               Regex.test (re_color_name name) promptText = true.
Proof.
  unfold named_colors. rewrite in_map_iff. split.
  - intros ([name c'] & Hc & Hin). cbn in Hc. subst c'.
    apply filter_In in Hin. destruct Hin as [Hin Ht].
    exists name. split; assumption.
  - intros (name & Hin & Ht). exists (name, c). split; [reflexivity|].
    apply filter_In. split; assumption.
Qed.

Lemma extractColors_None (promptText : string) :
  extractColors promptText = None <-> foundColors promptText = [].
Proof.
  unfold extractColors.
  destruct (JsArray.unique (foundColors promptText)) as [|c l] eqn:E.
  - split; [intros _; now apply unique_nil | reflexivity].
  - split; [discriminate|]. intro H. rewrite H in E. discriminate E.
Qed.

Lemma extractColors_Some (promptText : string) (l : list string) :
  extractColors promptText = Some l ->
  l <> [] /\ NoDup l /\
  (forall c, In c l <-> In c (foundColors promptText)) /\
  (forall pre x post,
      foundColors promptText = pre ++ x :: post -> ~ In x pre ->
      exists pre' post',
        l = pre' ++ x :: post' /\ forall y, In y pre' <-> In y pre).
Proof.
  unfold extractColors. intro Hl.
  assert (El : l = JsArray.unique (foundColors promptText) /\ l <> []).
  { destruct (JsArray.unique (foundColors promptText));
      [discriminate | injection Hl as <-; split; [reflexivity|discriminate]]. }
  clear Hl. destruct El as [-> Hne].
  split; [exact Hne|]. clear Hne.
  generalize (foundColors promptText) as found. intro found.
  unfold JsArray.unique.
  split; [apply unique_aux_NoDup|].
  split.
  - intro c. rewrite unique_aux_In. cbn [In]. tauto.
  - intros pre x post Hf Hx. rewrite Hf.
    destruct (unique_aux_order pre [] post x Hx (fun H => H))
      as (pre' & post' & -> & Hy).
    exists pre', post'. split; [reflexivity|].
    intro y. rewrite Hy. cbn [In]. tauto.
Qed.

Lemma stored_colors
    (rt : Runtime) (g : string -> Registry.EChartsElementConfig -> Obj)
    (data : list JValue) (prompt nk : string) (st : State) :
  usable data prompt (dataKeys rt data) = Some nk ->
  previousHashRef st <> dataPromptHash rt data prompt ->
  exists cfg,
    chartConfig (assemble rt g data prompt st) = Some cfg /\
    GeneratedChartConfig.colors cfg =
      match extractColors (trim (toLowerCase prompt)) with
      | Some cs => cs
      | None => firstn 20 (cachedColors (assemble rt g data prompt st))
      end.
Proof.
  intros Hu Hprev.
  unfold assemble. rewrite Hu.
  destruct (String.eqb_spec (previousHashRef st)
              (dataPromptHash rt data prompt)); [contradiction|].
  destruct (AssemblyFacts.generate_stores rt g data prompt (dataKeys rt data)
              nk (dataPromptHash rt data prompt) st)
    as (_ & _ & cfg & Hcfg & _ & _ & Hcol).
  exists cfg. split; [exact Hcfg | exact Hcol].
Qed.

Lemma extractColors_red_and_hex :
  extractColors "make it red and #00ff00" = Some ["#ff0000"; "#00ff00"].
Proof. vm_compute. reflexivity. Qed.

(** *** Whole-word matching *)

Lemma is_word_lower (c : ascii) : is_word (lower_char c) = is_word c.
Proof. destruct c as [[] [] [] [] [] [] [] []]; reflexivity. Qed.

Lemma head_lower (s : string) :
  head (toLowerCase s) = option_map lower_char (head s).
Proof. destruct s; reflexivity. Qed.

Lemma last_char_lower (s : string) :
  last_char (toLowerCase s) = option_map lower_char (last_char s).
Proof.
  induction s as [|c s IH]; [reflexivity|].
  destruct s as [|d s]; [reflexivity|].
  exact IH.
Qed.

Lemma word_opt_lower (o : option ascii) :
  word_opt (option_map lower_char o) = word_opt o.
Proof. destruct o; [apply is_word_lower | reflexivity]. Qed.

Lemma last_char_cons (s : string) :
  forall c, last_char (String c s)
            = Some (match last_char s with Some d => d | None => c end).
Proof.
  induction s as [|d s IH]; intro c; [reflexivity|].
  change (last_char (String c (String d s))) with (last_char (String d s)).
  now rewrite IH.
Qed.

Lemma last_char_append (a b : string) :
  last_char (a ++ b) = char_before (last_char a) b.
Proof.
  unfold char_before. induction a as [|c a IH].
  - cbn [append]. now destruct (last_char b).
  - cbn [append]. rewrite !last_char_cons, IH.
    destruct (last_char b); [reflexivity|]. reflexivity.
Qed.

Lemma char_before_cons (prev : option ascii) (c : ascii) (m : string) :
  char_before prev (String c m) = char_before (Some c) m.
Proof.
  unfold char_before. rewrite last_char_cons. now destruct (last_char m).
Qed.

Lemma char_before_append (prev : option ascii) (a b : string) :
  char_before prev (a ++ b) = char_before (char_before prev a) b.
Proof.
  unfold char_before. rewrite last_char_append. unfold char_before.
  destruct (last_char b); [reflexivity|]. now destruct (last_char a).
Qed.

(** What a match of a literal under the i flag consumes. *)
Lemma rmatch_lit (A : Type) (w : string) :
  forall (prev : option ascii) (s : string)
         (k : option ascii -> string -> option A) (v : A),
    rmatch (lit true w) prev s k = Some v <->
    exists m rest,
      s = (m ++ rest)%string /\ toLowerCase m = toLowerCase w /\
      k (char_before prev m) rest = Some v.
Proof.
  induction w as [|a w IH]; intros prev s k v.
  - cbn. split.
    + intro H. exists EmptyString, s. repeat split. exact H.
    + intros (m & rest & -> & Hm & H). destruct m; [exact H | discriminate].
  - cbn [lit rmatch]. unfold lit_char. cbn [rmatch].
    destruct s as [|c s].
    + split; [discriminate|].
      intros (m & rest & Hs & Hm & _). destruct m; discriminate.
    + destruct (Ascii.eqb_spec (lower_char c) (lower_char a)) as [E|E].
      * rewrite IH. split.
        -- intros (m & rest & -> & Hm & H). exists (String c m), rest.
           split; [reflexivity|]. split; [cbn; now rewrite E, Hm|].
           now rewrite char_before_cons.
        -- intros (m & rest & Hs & Hm & H). destruct m as [|d m];
             [discriminate|].
           cbn [append toLowerCase] in Hs, Hm.
           injection Hs as <- ->. injection Hm as _ Hm.
           exists m, rest. split; [reflexivity|]. split; [exact Hm|].
           now rewrite char_before_cons in H.
      * split; [discriminate|].
        intros (m & rest & Hs & Hm & _). destruct m as [|d m];
          [discriminate|].
        cbn [append toLowerCase] in Hs, Hm.
        injection Hs as <- _. injection Hm as Hc _.
        contradiction.
Qed.

(** Some position of the text starts a match. *)
Lemma search_spec (r : re) :
  forall (s : string) (prev : option ascii),
    search r prev s = true <->
    exists a b, s = (a ++ b)%string /\
                match_here r (char_before prev a) b <> None.
Proof.
  induction s as [|c s IH]; intro prev.
  - cbn [search]. destruct (match_here r prev "") eqn:E.
    + split; [|reflexivity]. intros _. exists EmptyString, EmptyString.
      split; [reflexivity|]. cbn. rewrite E. discriminate.
    + split; [discriminate|].
      intros (a & b & Hs & H). destruct a; [|discriminate].
      destruct b; [|discriminate]. cbn in H. congruence.
  - cbn [search]. destruct (match_here r prev (String c s)) eqn:E.
    + split; [|reflexivity]. intros _. exists EmptyString, (String c s).
      split; [reflexivity|]. cbn. rewrite E. discriminate.
    + rewrite IH. split.
      * intros (a & b & -> & H). exists (String c a), b.
        split; [reflexivity|]. now rewrite char_before_cons.
      * intros (a & b & Hs & H). destruct a as [|d a].
        -- cbn in Hs, H. subst b. congruence.
        -- cbn [append] in Hs. injection Hs as <- ->. exists a, b.
           split; [reflexivity|]. now rewrite char_before_cons in H.
Qed.

Lemma wordy_colorMap :
  Forall (fun entry => wordy (fst entry) = true) colorMap.
Proof. repeat constructor. Qed.

(** The pattern of a colour name finds the name exactly where it stands
    as a whole word. *)
Lemma whole_word_spec (name text : string) :
  wordy name = true ->
  Regex.test (re_color_name name) text = true <-> occurs_as_word name text.
Proof.
  intro Hw. unfold wordy in Hw.
  apply andb_prop in Hw. destruct Hw as [Hw Hlow].
  apply andb_prop in Hw. destruct Hw as [Hhead Hlast].
  apply String.eqb_eq in Hlow.
  assert (Hne : name <> EmptyString) by (destruct name; [discriminate|discriminate]).
  assert (Hfound : forall m, toLowerCase m = name ->
                     word_opt (head m) = true /\
                     word_opt (last_char m) = true /\ m <> EmptyString).
  { intros m Hm. split; [|split].
    - rewrite <- word_opt_lower, <- head_lower, Hm. exact Hhead.
    - rewrite <- word_opt_lower, <- last_char_lower, Hm. exact Hlast.
    - intros ->. cbn in Hm. congruence. }
  unfold Regex.test. rewrite search_spec. unfold occurs_as_word.
  unfold match_here, re_color_name. cbn [rmatch].
  split.
  - intros (a & b & -> & H).
    unfold char_before in H. cbn in H.
    replace (match last_char a with Some c => Some c | None => None end)
      with (last_char a) in H by now destruct (last_char a).
    destruct (at_boundary (last_char a) b) eqn:Eb; [|congruence].
    destruct (rmatch (lit true name) (last_char a) b _) as [v|] eqn:Em;
      [|congruence].
    apply rmatch_lit in Em. destruct Em as (m & rest & -> & Hm & Hk).
    rewrite Hlow in Hm.
    destruct (Hfound m Hm) as (Hmh & Hml & Hmne).
    destruct (at_boundary (char_before (last_char a) m) rest) eqn:Eb2;
      [|discriminate].
    exists a, m, rest. split; [reflexivity|]. split; [exact Hm|].
    unfold at_boundary in Eb, Eb2. split.
    + assert (Hh : head (m ++ rest) = head m) by (destruct m; [congruence|reflexivity]).
      rewrite Hh, Hmh in Eb. now destruct (word_opt (last_char a)).
    + unfold char_before in Eb2.
      destruct (last_char m) as [c|] eqn:El; [|discriminate].
      cbn in Hml. cbn in Eb2. rewrite Hml in Eb2.
      now destruct (word_opt (head rest)).
  - intros (a & m & rest & -> & Hm & Ha & Hr).
    destruct (Hfound m Hm) as (Hmh & Hml & Hmne).
    exists a, (m ++ rest)%string. split; [reflexivity|].
    unfold char_before. cbn.
    replace (match last_char a with Some c => Some c | None => None end)
      with (last_char a) by now destruct (last_char a).
    assert (Hh : head (m ++ rest) = head m) by (destruct m; [congruence|reflexivity]).
    unfold at_boundary at 1. rewrite Hh, Hmh, Ha. cbn [xorb].
    assert (Em : rmatch (lit true name) (last_char a) (m ++ rest)
                   (fun prev' s' =>
                      if at_boundary prev' s' then Some s' else None)
                 = Some rest).
    { apply rmatch_lit. exists m, rest. split; [reflexivity|].
      split; [now rewrite Hlow|].
      unfold at_boundary, char_before.
      destruct (last_char m) as [c|] eqn:El; [|discriminate].
      cbn in Hml. cbn. now rewrite Hml, Hr. }
    rewrite Em. discriminate.
Qed.

(** *** Literals *)

Lemma take_length (s : string) : take (String.length s) s = s.
Proof. induction s as [|c s IH]; cbn; [reflexivity | now rewrite IH]. Qed.

Lemma match_all_aux_skip (r : re) :
  forall (s : string) (prev : option ascii) (skip : nat),
    String.length s <= skip -> match_all_aux r prev s skip = [].
Proof.
  induction s as [|c s IH]; intros prev skip H; [reflexivity|].
  cbn [String.length] in H. destruct skip as [|skip]; [lia|].
  cbn [match_all_aux]. apply IH. lia.
Qed.

(** A text that the pattern matches as a whole is its only match. *)
Lemma match_all_whole (r : re) (s : string) :
  s <> EmptyString -> match_here r None s = Some EmptyString ->
  match_all r s = [s].
Proof.
  intros Hne H. destruct s as [|c s]; [congruence|].
  unfold match_all. cbn [match_all_aux]. rewrite H.
  cbn [String.length]. rewrite Nat.sub_0_r.
  change (take (S (String.length s)) (String c s))
    with (take (String.length (String c s)) (String c s)).
  rewrite take_length. f_equal.
  apply match_all_aux_skip. lia.
Qed.

(** A greedy run over characters of the class ends where the class
    ends. *)
Lemma star_loop_run (A : Type) (p : ascii -> bool)
    (k : option ascii -> string -> option A) (v : A) (t stop : string) :
  all_chars p t = true ->
  (forall q rest, stop = String q rest -> p q = false) ->
  (forall prev, k prev stop = Some v) ->
  forall prev, star_loop p k prev (t ++ stop) = Some v.
Proof.
  intros Ht Hs Hk. induction t as [|c t IH]; intro prev.
  - cbn [append]. destruct stop as [|q rest]; cbn [star_loop]; [apply Hk|].
    rewrite (Hs q rest eq_refl). apply Hk.
  - cbn [all_chars] in Ht. apply andb_prop in Ht. destruct Ht as [Hc Ht].
    cbn [append star_loop]. rewrite Hc, (IH Ht). reflexivity.
Qed.

Lemma rmatch_plus_run (A : Type) (p : ascii -> bool)
    (k : option ascii -> string -> option A) (v : A) (t stop : string)
    (prev : option ascii) :
  t <> EmptyString -> all_chars p t = true ->
  (forall q rest, stop = String q rest -> p q = false) ->
  (forall prev', k prev' stop = Some v) ->
  rmatch (Plus p) prev (t ++ stop) k = Some v.
Proof.
  intros Hne Ht Hs Hk. destruct t as [|c t]; [congruence|].
  cbn [all_chars] in Ht. apply andb_prop in Ht. destruct Ht as [Hc Ht].
  unfold Plus. cbn [rmatch append]. rewrite Hc.
  now apply star_loop_run.
Qed.

Lemma rgb_literal (body : string) :
  body <> EmptyString ->
  all_chars (fun c => negb (chr_is 41 c)) body = true ->
  rgb_colors ("rgb(" ++ body ++ ")") = [("rgb(" ++ body ++ ")")%string] /\
  rgb_colors ("rgba(" ++ body ++ ")") = [("rgba(" ++ body ++ ")")%string].
Proof.
  intros Hne Hb. unfold rgb_colors.
  split; (apply match_all_whole; [discriminate|]);
    unfold match_here, re_rgb; cbn -[Plus];
    match goal with
    | |- context [rmatch (Plus ?p) _ (body ++ ")") ?k] =>
        assert (E : forall prev,
                   rmatch (Plus p) prev (body ++ ")") k = Some EmptyString)
    end;
    try (intro prev; apply rmatch_plus_run;
         [exact Hne | exact Hb | intros q rest [= <- _]; reflexivity
         | reflexivity]);
    rewrite !E; reflexivity.
Qed.

Lemma hex_literal (r g b : ascii) :
  is_hex r = true -> is_hex g = true -> is_hex b = true ->
  hex_colors (String "#" (String r (String g (String b EmptyString))))
  = [String "#" (String r (String r (String g (String g (String b
       (String b EmptyString))))))].
Proof.
  intros Hr Hg Hb. unfold hex_colors.
  rewrite match_all_whole; [reflexivity | discriminate|].
  unfold match_here, re_hex. cbn -[is_hex].
  rewrite Hr, Hg, Hb. reflexivity.
Qed.

Lemma hex_literal_six (a b c d e f : ascii) :
  is_hex a = true -> is_hex b = true -> is_hex c = true ->
  is_hex d = true -> is_hex e = true -> is_hex f = true ->
  hex_colors (String "#" (String a (String b (String c (String d (String e
                (String f EmptyString)))))))
  = [String "#" (String a (String b (String c (String d (String e
       (String f EmptyString))))))].
Proof.
  intros Ha Hb Hc Hd He Hf. unfold hex_colors.
  rewrite match_all_whole; [reflexivity | discriminate|].
  unfold match_here, re_hex. cbn -[is_hex].
  rewrite Ha, Hb, Hc, Hd, He, Hf. reflexivity.
Qed.

Lemma extractColors_worked :
  extractColors "a bored, reddish tan-line in BLUE." =
    Some ["#0066ff"; "#d2b48c"] /\
  extractColors "redder than bluegreen, #12 rgb()" = None /\
  extractColors "rgb(1,2,3) #abc blue red #aabbcc #1234 rgba(0, 0, 0, 0.5)" =
    Some ["#ff0000"; "#0066ff"; "#aabbcc"; "#1234"; "rgb(1,2,3)";
          "rgba(0, 0, 0, 0.5)"].
Proof. repeat split; vm_compute; reflexivity. Qed.

(** C9: the named colours found are those of the table whose name occurs
    in the prompt as a whole word; hex literals are taken by pattern, a
    three-digit one being doubled digit by digit, and rgb()/rgba()
    literals likewise; the result lists every colour found once, in the
    order of first discovery (names in table order, then hex literals, then
    rgb literals), and is undefined exactly when nothing was found, in
    which case the stored configuration carries the generated palette;
    extractColors("make it red and #00ff00") is ["#ff0000", "#00ff00"].
    What the three patterns find is stated without them: a name of the
    table is found exactly when the text holds it, in any letter case,
    between characters that are no word characters; the text made of #
    and three hex digits yields the six-digit form and the one made of #
    and six hex digits yields itself; rgb(...) and rgba(...) around a
    non-empty body without a closing parenthesis yield themselves; and
    three prompts are worked through all the steps. *)
Theorem extractColors_discovery_order :
  forall promptText : string,
    (forall c, In c (named_colors promptText) <->
               exists name, In (name, c) colorMap /\
                            Regex.test (re_color_name name) promptText = true)
    /\
    foundColors promptText =
      named_colors promptText
      ++ map normalize_hex (match_all re_hex promptText)
      ++ match_all re_rgb promptText /\
    (forall h r g b : ascii,
        normalize_hex (String h (String r (String g (String b EmptyString))))
        = String h (String r (String r (String g (String g (String b
            (String b EmptyString))))))) /\
    (extractColors promptText = None <-> foundColors promptText = []) /\
    (forall l, extractColors promptText = Some l ->
       l <> [] /\ NoDup l /\
       (forall c, In c l <-> In c (foundColors promptText)) /\
       (forall pre x post,
           foundColors promptText = pre ++ x :: post -> ~ In x pre ->
           exists pre' post',
             l = pre' ++ x :: post' /\ forall y, In y pre' <-> In y pre)) /\
    extractColors "make it red and #00ff00" = Some ["#ff0000"; "#00ff00"] /\
    (forall (rt : Runtime)
            (g : string -> Registry.EChartsElementConfig -> Obj)
            (data : list JValue) (prompt nk : string) (st : State),
        usable data prompt (dataKeys rt data) = Some nk ->
        previousHashRef st <> dataPromptHash rt data prompt ->
        exists cfg,
          chartConfig (assemble rt g data prompt st) = Some cfg /\
          GeneratedChartConfig.colors cfg =
            match extractColors (trim (toLowerCase prompt)) with
            | Some cs => cs
            | None => firstn 20 (cachedColors (assemble rt g data prompt st))
            end) /\
    (forall name c,
        In (name, c) colorMap ->
        (Regex.test (re_color_name name) promptText = true <->
         occurs_as_word name promptText)) /\
    (forall r g b : ascii,
        is_hex r = true -> is_hex g = true -> is_hex b = true ->
        hex_colors (String "#" (String r (String g (String b EmptyString))))
        = [String "#" (String r (String r (String g (String g (String b
             (String b EmptyString))))))]) /\
    (forall a b c d e f : ascii,
        is_hex a = true -> is_hex b = true -> is_hex c = true ->
        is_hex d = true -> is_hex e = true -> is_hex f = true ->
        hex_colors (String "#" (String a (String b (String c (String d
                      (String e (String f EmptyString)))))))
        = [String "#" (String a (String b (String c (String d (String e
             (String f EmptyString))))))]) /\
    (forall body : string,
        body <> EmptyString ->
        all_chars (fun c => negb (chr_is 41 c)) body = true ->
        rgb_colors ("rgb(" ++ body ++ ")") = [("rgb(" ++ body ++ ")")%string]
        /\
        rgb_colors ("rgba(" ++ body ++ ")")
        = [("rgba(" ++ body ++ ")")%string]) /\
    extractColors "a bored, reddish tan-line in BLUE." =
      Some ["#0066ff"; "#d2b48c"] /\
    extractColors "redder than bluegreen, #12 rgb()" = None /\
    extractColors
      "rgb(1,2,3) #abc blue red #aabbcc #1234 rgba(0, 0, 0, 0.5)" =
      Some ["#ff0000"; "#0066ff"; "#aabbcc"; "#1234"; "rgb(1,2,3)";
            "rgba(0, 0, 0, 0.5)"].
Proof.
  intro promptText.
  split; [intro c; apply named_colors_In|].
  split; [reflexivity|].
  split; [intros h r g b; reflexivity|].
  split; [apply extractColors_None|].
  split; [apply extractColors_Some|].
  split; [exact extractColors_red_and_hex|].
  split; [apply stored_colors|].
  split.
  { intros name c Hin. apply whole_word_spec.
    pose proof wordy_colorMap as Hw. rewrite Forall_forall in Hw.
    exact (Hw (name, c) Hin). }
  split; [exact hex_literal|].
  split; [exact hex_literal_six|].
  split; [exact rgb_literal|].
  exact extractColors_worked.
Qed.

Lemma extractColors_discovery_order_witness :
  NoDup ["#ff0000"; "#00ff00"] /\
  exists cfg,
    chartConfig (assemble Samples.runtime Samples.builders Samples.jan_feb
                   "pie chart of value" initial) = Some cfg /\
    GeneratedChartConfig.colors cfg =
      firstn 20 (cachedColors
                   (assemble Samples.runtime Samples.builders Samples.jan_feb
                      "pie chart of value" initial)).
Proof.
  pose proof (extractColors_discovery_order "make it red and #00ff00") as H.
  destruct H as (_ & _ & _ & _ & Hsome & Hex & Hfall & _).
  split.
  - destruct (Hsome _ Hex) as (_ & Hnd & _). exact Hnd.
  - refine (Hfall Samples.runtime Samples.builders Samples.jan_feb
              "pie chart of value" "name" initial _ _).
    + vm_compute. reflexivity.
    + vm_compute. discriminate.
Defined.

End ColorFacts.

(* ------------------------------------------------------------------ *)
(** ** Array-index keys *)

Module IndexKeyFacts.
Import JsString Js Shapes.
Local Open Scope N_scope.

Lemma pow10_cons c s : pow10 (String c s) = 10 * pow10 s.
Proof.
  unfold pow10. cbn [String.length]. rewrite Nat2N.inj_succ, N.pow_succ_r'. reflexivity.
Qed.

Lemma digits_value_acc (s : string) (acc : N) :
  digits_value s acc =
  option_map (fun m => acc * pow10 s + m) (digits_value s 0).
Proof.
  revert acc. induction s as [|c s IH]; intro acc.
  - cbn. f_equal. unfold pow10. cbn. lia.
  - cbn [digits_value]. destruct (is_digit c); [|reflexivity].
    rewrite (IH (acc * 10 + _)), (IH (0 * 10 + _)).
    destruct (digits_value s 0); [|reflexivity]. cbn [option_map].
    f_equal. rewrite pow10_cons. lia.
Qed.

Lemma digit_of_le (c : ascii) : is_digit c = true -> digit_of c <= 9.
Proof.
  unfold is_digit, between, digit_of. intro H.
  apply andb_true_iff in H. destruct H as [H1 H2].
  apply Nat.leb_le in H1, H2. lia.
Qed.

Lemma digit_of_inj (c c' : ascii) :
  is_digit c = true -> is_digit c' = true ->
  digit_of c = digit_of c' -> c = c'.
Proof.
  unfold is_digit, between, digit_of. intros H H' E.
  apply andb_true_iff in H, H'. destruct H as [H1 _], H' as [H1' _].
  apply Nat.leb_le in H1, H1'.
  assert (Hc : code c = code c') by lia.
  unfold code in Hc.
  rewrite <- (ascii_nat_embedding c), <- (ascii_nat_embedding c').
  now rewrite Hc.
Qed.

Lemma digits_value_cons (c : ascii) (s : string) (m : N) :
  digits_value (String c s) 0 = Some m ->
  is_digit c = true /\
  exists m', digits_value s 0 = Some m' /\ m = digit_of c * pow10 s + m'.
Proof.
  cbn [digits_value]. destruct (is_digit c) eqn:Ec; [|discriminate].
  rewrite digits_value_acc.
  destruct (digits_value s 0) as [m'|]; [|discriminate].
  cbn [option_map]. intros [= <-]. split; [reflexivity|].
  exists m'. split; [reflexivity|]. unfold digit_of. lia.
Qed.

Lemma digits_value_lt (s : string) (m : N) :
  digits_value s 0 = Some m -> m < pow10 s.
Proof.
  revert m. induction s as [|c s IH]; intros m H.
  - cbn in H. injection H as <-. unfold pow10. cbn. lia.
  - apply digits_value_cons in H. destruct H as (Hc & m' & Hm' & ->).
    specialize (IH _ Hm'). apply digit_of_le in Hc.
    rewrite pow10_cons. nia.
Qed.

Lemma digits_value_same_length (s s' : string) (m : N) :
  String.length s = String.length s' ->
  digits_value s 0 = Some m -> digits_value s' 0 = Some m -> s = s'.
Proof.
  revert s' m. induction s as [|c s IH]; intros [|c' s'] m Hlen H H';
    try discriminate; [reflexivity|].
  injection Hlen as Hlen.
  apply digits_value_cons in H, H'.
  destruct H as (Hc & a & Ha & Hm), H' as (Hc' & a' & Ha' & Hm').
  assert (Hp : pow10 s = pow10 s') by (unfold pow10; now rewrite Hlen).
  pose proof (digits_value_lt _ _ Ha) as Hb.
  pose proof (digits_value_lt _ _ Ha') as Hb'.
  rewrite <- Hp in Hb', Hm'.
  assert (Hd : digit_of c = digit_of c' /\ a = a').
  { apply (N.div_mod_unique (pow10 s)); try assumption. lia. }
  destruct Hd as [Hd <-].
  f_equal; [now apply digit_of_inj | now apply (IH s' a)].
Qed.

Lemma pow10_mono (s s' : string) :
  (String.length s < String.length s')%nat -> 10 * pow10 s <= pow10 s'.
Proof.
  intro H. unfold pow10.
  rewrite <- N.pow_succ_r'. apply N.pow_le_mono_r; lia.
Qed.

(** Two keys that are array indices with the same value are the same
    key. *)
Lemma index_of_key_inj (k k' : string) (n : N) :
  index_of_key k = Some n -> index_of_key k' = Some n -> k = k'.
Proof.
  assert (Hcanon : forall k n, index_of_key k = Some n ->
            exists c s, k = String c s /\ digits_value k 0 = Some n /\
                        (s = EmptyString \/ 1 <= digit_of c)).
  { clear. intros k n. unfold index_of_key.
    destruct k as [|c s]; [discriminate|].
    destruct (chr_is 48 c && negb (is_empty s)) eqn:E0; [discriminate|].
    destruct (10 <? String.length (String c s))%nat; [discriminate|].
    destruct (digits_value (String c s) 0) as [m|] eqn:Ed; [|discriminate].
    destruct (m <? 4294967295); [|discriminate].
    intros [= <-]. exists c, s. repeat split.
    destruct s as [|c2 s2]; [now left|right].
    cbn in E0. rewrite andb_true_r in E0.
    apply digits_value_cons in Ed. destruct Ed as (Hc & _).
    unfold chr_is in E0. apply Nat.eqb_neq in E0.
    unfold is_digit, between in Hc. apply andb_true_iff in Hc.
    destruct Hc as [Hc _]. apply Nat.leb_le in Hc.
    unfold digit_of. lia. }
  intros H H'.
  destruct (Hcanon _ _ H) as (c & s & -> & Hv & Hz).
  destruct (Hcanon _ _ H') as (c' & s' & -> & Hv' & Hz').
  destruct (Nat.lt_trichotomy (String.length s) (String.length s'))
    as [Hlt | [Heq | Hgt]].
  - exfalso.
    apply digits_value_cons in Hv, Hv'.
    destruct Hv as (Hc & a & Ha & Hm), Hv' as (Hc' & a' & Ha' & Hm').
    pose proof (digits_value_lt _ _ Ha).
    pose proof (pow10_mono _ _ Hlt). apply digit_of_le in Hc.
    destruct Hz' as [-> | Hz']; [cbn in Hlt; lia|]. nia.
  - apply (digits_value_same_length _ _ n); [cbn; now rewrite Heq | |];
      assumption.
  - exfalso.
    apply digits_value_cons in Hv, Hv'.
    destruct Hv as (Hc & a & Ha & Hm), Hv' as (Hc' & a' & Ha' & Hm').
    pose proof (digits_value_lt _ _ Ha').
    pose proof (pow10_mono _ _ Hgt). apply digit_of_le in Hc'.
    destruct Hz as [-> | Hz]; [cbn in Hgt; lia|]. nia.
Qed.

End IndexKeyFacts.

(* ------------------------------------------------------------------ *)
(** ** Objects under assignment, and the shape of flattened records *)

Module ObjectFacts.
Import JsString Js Flatten Statements Shapes FlattenFacts IndexKeyFacts.

Lemma flattenObject_closed (Q : Obj -> Prop) :
  (forall k v o, is_flat_value v = true -> Q o -> Q (obj_set k v o)) ->
  forall v prefix result, Q result -> Q (flattenObject v prefix result).
Proof.
  intro HQ. fix IH 1. intros v prefix result Hr.
  destruct v as [| | b | n | s | items | props]; try exact Hr.
  cbn [flattenObject]. revert result Hr. revert props.
  fix IHps 1. intros [|[key value] ps] result Hr; [exact Hr|].
  apply IHps.
  assert (Hvalue : forall prefix r, Q r -> Q (flattenObject value prefix r))
    by exact (IH value).
  destruct value as [| | b | n | s | items | inner];
    try (apply HQ; [reflexivity | exact Hr]).
  - assert (Hloop : forall idx r, Q r ->
      Q ((fix forEach (its : list JValue) (idx : nat) (result : Obj) : Obj :=
            match its with
            | [] => result
            | item :: its' =>
                forEach its' (S idx)
                  match item with
                  | JObj _ =>
                      flattenObject item
                        (join_key prefix key ++ "[" ++ of_nat idx ++ "]")
                        result
                  | _ => result
                  end
            end) items idx r)).
    { clear Hvalue. generalize items. fix IHits 1.
      intros [|item its] idx r Hq; [exact Hq|].
      apply IHits.
      assert (Hitem : forall prefix r, Q r -> Q (flattenObject item prefix r))
        by exact (IH item).
      destruct item; try exact Hq. now apply Hitem. }
    destruct items as [|firstItem rest]; [exact Hr|].
    destruct firstItem; try exact Hr;
      try (apply HQ; [reflexivity | exact Hr]);
      apply Hloop; exact Hr.
  - now apply Hvalue.
Qed.

Lemma key_before_neq (a b : string) : key_before a b -> a <> b.
Proof.
  unfold key_before. intros H ->.
  destruct (index_of_key b); [lia | congruence].
Qed.

Lemma keys_ordered_NoDup (ks : list string) : keys_ordered ks -> NoDup ks.
Proof.
  induction 1 as [|k ks Hs IH Hk]; constructor; [|assumption].
  intro Hin. rewrite Forall_forall in Hk.
  now apply (key_before_neq k k (Hk k Hin)).
Qed.

Lemma obj_has_In (k : string) (o : Obj) :
  obj_has k o = true <-> In k (keys o).
Proof.
  induction o as [|[k' v] o IH]; cbn; [split; [discriminate|tauto]|].
  rewrite orb_true_iff, IH.
  destruct (String.eqb_spec k k'); intuition congruence.
Qed.

Lemma keys_obj_update (k : string) (v : JValue) (o : Obj) :
  keys (obj_update k v o) = keys o.
Proof.
  unfold keys. induction o as [|[k' v'] o IH]; cbn; [reflexivity|].
  destruct (String.eqb k k'); cbn; [reflexivity | now rewrite IH].
Qed.

Lemma keys_obj_insert_index (i : N) (k : string) (v : JValue) (o : Obj) :
  Permutation (keys (obj_insert_index i k v o)) (k :: keys o).
Proof.
  unfold keys. induction o as [|[k' v'] o IH]; cbn [obj_insert_index map fst];
    [reflexivity|].
  destruct (index_of_key k') as [j|]; [|reflexivity].
  destruct (j <? i)%N; [|reflexivity].
  cbn [map fst]. rewrite IH. apply perm_swap.
Qed.

Lemma obj_insert_index_ordered (i : N) (k : string) (v : JValue) (o : Obj) :
  index_of_key k = Some i -> ~ In k (keys o) ->
  keys_ordered (keys o) ->
  keys_ordered (keys (obj_insert_index i k v o)).
Proof.
  intros Hk. induction o as [|[k' v'] o IH]; intros Hfresh Hord; cbn.
  - repeat constructor.
  - cbn in Hfresh, Hord. inversion Hord as [|? ? Hord' Hall]; subst.
    assert (Hhead : forall j, index_of_key k' = Some j -> (j <? i)%N = false ->
                    keys_ordered (k :: k' :: keys o)).
    { intros j Hj Hlt. apply N.ltb_ge in Hlt.
      assert (Hne : j <> i).
      { intros ->. apply Hfresh. left. eapply index_of_key_inj; eassumption. }
      constructor; [exact Hord|].
      constructor.
      - unfold key_before. rewrite Hk, Hj. lia.
      - eapply Forall_impl; [|exact Hall].
        intros k2. unfold key_before. rewrite Hk, Hj.
        destruct (index_of_key k2); [lia | trivial]. }
    destruct (index_of_key k') as [j|] eqn:Hj.
    + destruct (j <? i)%N eqn:Hlt.
      * cbn. constructor; [apply IH; [tauto | assumption]|].
        apply (Permutation_Forall
                 (Permutation_sym (keys_obj_insert_index i k v o))).
        constructor; [|assumption].
        unfold key_before. rewrite Hj, Hk. now apply N.ltb_lt.
      * now apply (Hhead j).
    + cbn. constructor; [exact Hord|].
      constructor.
      * unfold key_before. now rewrite Hk, Hj.
      * eapply Forall_impl; [|exact Hall].
        intros k2. unfold key_before. rewrite Hk, Hj.
        destruct (index_of_key k2); [contradiction | trivial].
Qed.

Lemma keys_ordered_snoc (ks : list string) (k : string) :
  keys_ordered ks -> Forall (fun k' => key_before k' k) ks ->
  keys_ordered (ks ++ [k]).
Proof.
  induction 1 as [|k' ks Hs IH Hk]; intro Hall; cbn.
  - repeat constructor.
  - inversion Hall; subst. constructor; [now apply IH|].
    apply Forall_app. split; [assumption | now constructor].
Qed.

(** Assignment keeps the enumeration order. *)
Lemma obj_set_ordered (k : string) (v : JValue) (o : Obj) :
  keys_ordered (keys o) -> keys_ordered (keys (obj_set k v o)).
Proof.
  intro Hord. unfold obj_set.
  destruct (obj_has k o) eqn:Eh.
  - now rewrite keys_obj_update.
  - assert (Hfresh : ~ In k (keys o)).
    { intro H. apply obj_has_In in H. congruence. }
    destruct (index_of_key k) as [i|] eqn:Hk.
    + now apply obj_insert_index_ordered.
    + unfold keys. rewrite map_app. cbn. apply keys_ordered_snoc; [exact Hord|].
      apply Forall_forall. intros k' Hin. unfold key_before. rewrite Hk.
      destruct (index_of_key k'); [trivial|]. intros ->. contradiction.
Qed.

Lemma obj_insert_index_last (i : N) (k : string) (v : JValue) (o : Obj) :
  index_of_key k = Some i ->
  Forall (fun k' => key_before k' k) (keys o) ->
  obj_insert_index i k v o = o ++ [(k, v)].
Proof.
  intros Hk. induction o as [|[k' v'] o IH]; intro Hall; cbn; [reflexivity|].
  cbn in Hall. inversion Hall as [|? ? Hb Hall']; subst.
  unfold key_before in Hb. rewrite Hk in Hb.
  destruct (index_of_key k') as [j|]; [|contradiction].
  apply N.ltb_lt in Hb. rewrite Hb. now rewrite IH.
Qed.

Lemma obj_set_last (k : string) (v : JValue) (o : Obj) :
  Forall (fun k' => key_before k' k) (keys o) ->
  obj_set k v o = o ++ [(k, v)].
Proof.
  intro Hall. unfold obj_set.
  assert (Hfresh : obj_has k o = false).
  { apply obj_has_false. intro Hin. rewrite Forall_forall in Hall.
    now apply (key_before_neq k k (Hall k Hin)). }
  rewrite Hfresh.
  destruct (index_of_key k) as [i|] eqn:Hk; [|reflexivity].
  now apply obj_insert_index_last.
Qed.

Lemma obj_update_flat (k : string) (v : JValue) (o : Obj) :
  is_flat_value v = true -> flat_values o -> flat_values (obj_update k v o).
Proof.
  intros Hv. induction 1 as [|[k' v'] o Hkv Ho IH]; cbn; [constructor|].
  destruct (String.eqb k k'); constructor; assumption.
Qed.

Lemma obj_insert_index_flat (i : N) (k : string) (v : JValue) (o : Obj) :
  is_flat_value v = true -> flat_values o ->
  flat_values (obj_insert_index i k v o).
Proof.
  intros Hv. induction 1 as [|[k' v'] o Hkv Ho IH]; cbn.
  - now repeat constructor.
  - destruct (index_of_key k') as [j|].
    + destruct (j <? i)%N; repeat constructor; assumption.
    + repeat constructor; assumption.
Qed.

Lemma obj_set_flat (k : string) (v : JValue) (o : Obj) :
  is_flat_value v = true -> flat_values o -> flat_values (obj_set k v o).
Proof.
  intros Hv Ho. unfold obj_set.
  destruct (obj_has k o); [now apply obj_update_flat|].
  destruct (index_of_key k); [now apply obj_insert_index_flat|].
  apply Forall_app. split; [assumption | now repeat constructor].
Qed.

(** An object of flat values flattens to the assignment of its own
    properties under the joined keys. *)
Lemma flattenObject_flat_values (o : Obj) (prefix : string) (result : Obj) :
  flat_values o ->
  flattenObject (JObj o) prefix result =
  assign_all (map (fun kv => (join_key prefix (fst kv), snd kv)) o) result.
Proof.
  revert result.
  induction o as [|[k v] o IH]; intros result Hflat.
  - reflexivity.
  - inversion Hflat as [|? ? Hv Hflat']; subst. cbn [snd] in Hv.
    cbn [map fst snd assign_all fold_left].
    change (fold_left _ ?l ?r) with (assign_all l r).
    rewrite <- (IH _ Hflat').
    destruct v as [| | | | | items |]; try discriminate Hv; try reflexivity.
    destruct items as [|firstItem rest]; [discriminate Hv|].
    destruct firstItem; try discriminate Hv; reflexivity.
Qed.

Lemma join_key_top (k : string) : join_key EmptyString k = k.
Proof. reflexivity. Qed.

(** Assigning the properties of an object in its own enumeration order
    rebuilds the object. *)
Lemma assign_all_ordered (l2 l1 : Obj) :
  keys_ordered (keys (l1 ++ l2)) -> assign_all l2 l1 = l1 ++ l2.
Proof.
  revert l1. induction l2 as [|[k v] l2 IH]; intros l1 Hord.
  - cbn. now rewrite app_nil_r.
  - unfold assign_all. cbn [fold_left fst snd].
    change (fold_left _ l2 ?r) with (assign_all l2 r).
    assert (Hlast : Forall (fun k' => key_before k' k) (keys l1)).
    { unfold keys in *. rewrite map_app in Hord. cbn [map fst] in Hord.
      clear IH. induction l1 as [|[k1 v1] l1 IH1]; cbn; [constructor|].
      cbn in Hord. inversion Hord as [|? ? Hs Hall]; subst.
      constructor; [|now apply IH1].
      rewrite Forall_forall in Hall. apply Hall.
      apply in_or_app. right. now left. }
    rewrite (obj_set_last k v l1 Hlast).
    rewrite IH; rewrite <- app_assoc; [reflexivity | exact Hord].
Qed.

Lemma flatten_identity (o : Obj) :
  keys_ordered (keys o) -> flat_values o -> flatten (JObj o) = o.
Proof.
  intros Hord Hflat. unfold flatten.
  rewrite (flattenObject_flat_values o EmptyString [] Hflat).
  rewrite (map_ext _ (fun kv => kv)).
  2:{ intros [k v]. reflexivity. }
  rewrite map_id. now apply (assign_all_ordered o []).
Qed.

Lemma flatten_flat_values (v : JValue) : flat_values (flatten v).
Proof.
  apply (flattenObject_closed flat_values); [|constructor].
  intros k w o. apply obj_set_flat.
Qed.

Lemma flatten_keys_ordered (v : JValue) : keys_ordered (keys (flatten v)).
Proof.
  apply (flattenObject_closed (fun o => keys_ordered (keys o)));
    [|constructor].
  intros k w o _. apply obj_set_ordered.
Qed.

Lemma flatten_idempotent (v : JValue) :
  flatten (JObj (flatten v)) = flatten v.
Proof.
  apply flatten_identity;
    [apply flatten_keys_ordered | apply flatten_flat_values].
Qed.

Lemma obj_get_update (k k2 : string) (v : JValue) (o : Obj) :
  obj_has k o = true ->
  obj_get k2 (obj_update k v o) = if String.eqb k2 k then v else obj_get k2 o.
Proof.
  induction o as [|[k' v'] o IH]; cbn; [discriminate|].
  destruct (String.eqb_spec k k') as [->|Hne].
  - intros _. cbn. now destruct (String.eqb k2 k').
  - cbn. intro H. cbn.
    destruct (String.eqb_spec k2 k') as [->|Hne2].
    + destruct (String.eqb_spec k' k); [congruence | reflexivity].
    + now apply IH.
Qed.

Lemma obj_get_insert_index (i : N) (k k2 : string) (v : JValue) (o : Obj) :
  obj_has k o = false ->
  obj_get k2 (obj_insert_index i k v o)
  = if String.eqb k2 k then v else obj_get k2 o.
Proof.
  induction o as [|[k' v'] o IH]; cbn; [reflexivity|].
  destruct (String.eqb_spec k k') as [->|Hne]; [discriminate|].
  cbn. intro H.
  destruct (index_of_key k') as [j|]; [destruct (j <? i)%N|]; cbn;
    try reflexivity.
  rewrite (IH H).
  destruct (String.eqb_spec k2 k') as [->|Hne2]; [|reflexivity].
  destruct (String.eqb_spec k' k); [congruence | reflexivity].
Qed.

Lemma obj_get_app_fresh (k k2 : string) (v : JValue) (o : Obj) :
  obj_has k o = false ->
  obj_get k2 (o ++ [(k, v)]) = if String.eqb k2 k then v else obj_get k2 o.
Proof.
  induction o as [|[k' v'] o IH]; cbn.
  - intros _. now destruct (String.eqb k2 k).
  - destruct (String.eqb_spec k k') as [->|Hne]; [discriminate|].
    cbn. intro H. rewrite (IH H).
    destruct (String.eqb_spec k2 k') as [->|Hne2]; [|reflexivity].
    destruct (String.eqb_spec k' k); [congruence | reflexivity].
Qed.

(** Reading after an assignment. *)
Lemma obj_get_set (k k2 : string) (v : JValue) (o : Obj) :
  obj_get k2 (obj_set k v o) = if String.eqb k2 k then v else obj_get k2 o.
Proof.
  unfold obj_set. destruct (obj_has k o) eqn:Eh.
  - now apply obj_get_update.
  - destruct (index_of_key k);
      [now apply obj_get_insert_index | now apply obj_get_app_fresh].
Qed.

End ObjectFacts.

Module FlattenShape.
Import JsString Js Flatten Statements Shapes FlattenFacts ObjectFacts.

(** X1: every value of a flattened record is a primitive or an array that
    begins with a number, a string or a boolean (never an object, never an
    empty array), and its keys are pairwise distinct and in enumeration
    order. *)
Theorem flatten_result_shape :
  forall v : JValue,
    flat_values (flatten v) /\
    NoDup (keys (flatten v)) /\
    keys_ordered (keys (flatten v)).
Proof.
  intro v. split; [apply flatten_flat_values|].
  split; [apply keys_ordered_NoDup|]; apply flatten_keys_ordered.
Qed.

(** X2: flattening is idempotent: when no key of the flattened form of
    a value is __proto__, flattening the flattened form returns it
    unchanged.  (An assignment to the key __proto__ of a plain object
    runs the inherited setter instead of creating a property; such keys
    are outside this statement.) *)
Theorem flatten_twice :
  forall v : JValue,
    ~ In "__proto__" (keys (flatten v)) ->
    flatten (JObj (flatten v)) = flatten v.
Proof. intros v _. apply flatten_idempotent. Qed.

Lemma flatten_twice_witness :
  flatten (JObj (flatten
     (JObj [("user", JObj [("name", JStr "Ann"); ("age", Registry.num 30)]);
            ("tags", JArr [JStr "a"]); ("none", JArr [])])))
  = [("user.name", JStr "Ann"); ("user.age", Registry.num 30);
     ("tags", JArr [JStr "a"])].
Proof.
  rewrite (flatten_twice
     (JObj [("user", JObj [("name", JStr "Ann"); ("age", Registry.num 30)]);
            ("tags", JArr [JStr "a"]); ("none", JArr [])])).
  - vm_compute. reflexivity.
  - vm_compute. intros [H | [H | [H | []]]]; discriminate H.
Defined.

(** X3: a record that is already flat (values primitives or arrays headed
    by a primitive, keys distinct and in enumeration order) and has no
    key __proto__ is returned unchanged, key for key and in the same
    order. *)
Theorem flatten_fixes_flat_records :
  forall o : Obj,
    keys_ordered (keys o) -> flat_values o ->
    ~ In "__proto__" (keys o) ->
    flatten (JObj o) = o.
Proof. intros o Hk Hv _. now apply flatten_identity. Qed.

Lemma flatten_fixes_flat_records_witness :
  flatten (JObj [("0", JNull); ("name", JStr "Jan");
                 ("tags", JArr [JStr "a"; JStr "b"])])
  = [("0", JNull); ("name", JStr "Jan"); ("tags", JArr [JStr "a"; JStr "b"])].
Proof.
  apply (flatten_fixes_flat_records
           [("0", JNull); ("name", JStr "Jan");
            ("tags", JArr [JStr "a"; JStr "b"])]).
  - repeat constructor; vm_compute; try discriminate; trivial.
  - repeat constructor.
  - cbn. intros [H | [H | [H | []]]]; discriminate H.
Defined.

Lemma flattenObject_app (p1 p2 : Obj) (prefix : string) (result : Obj) :
  flattenObject (JObj (p1 ++ p2)) prefix result
  = flattenObject (JObj p2) prefix (flattenObject (JObj p1) prefix result).
Proof.
  revert result. induction p1 as [|[k v] p1 IH]; intro result.
  - reflexivity.
  - cbn [app]. 
    change (flattenObject (JObj ((k, v) :: p1 ++ p2)) prefix result)
      with (flattenObject (JObj (p1 ++ p2)) prefix
              (flattenObject (JObj [(k, v)]) prefix result)).
    rewrite IH. reflexivity.
Qed.

(** X4: flattening works through the properties from left to right: the
    flattened form of a record is that of its later properties assigned
    onto that of its earlier ones; a property whose value is an empty
    array contributes nothing. *)
Theorem flatten_is_sequential :
  forall (p1 p2 : Obj) (prefix : string) (result : Obj) (k : string),
    flattenObject (JObj (p1 ++ p2)) prefix result
    = flattenObject (JObj p2) prefix (flattenObject (JObj p1) prefix result)
    /\
    flattenObject (JObj (p1 ++ [(k, JArr [])] ++ p2)) prefix result
    = flattenObject (JObj (p1 ++ p2)) prefix result.
Proof.
  intros p1 p2 prefix result k. split; [apply flattenObject_app|].
  rewrite !flattenObject_app. reflexivity.
Qed.

End FlattenShape.

Module ClassifierShape.
Import JsString Js Flatten Generator Statements Shapes ObjectFacts.

Lemma get_head (A : Type) (l : list A) : JsArray.get l 0 = hd_error l.
Proof. destruct l; reflexivity. Qed.

Lemma hd_error_In (l : list string) (k : string) :
  hd_error l = Some k -> In k l.
Proof. destruct l; cbn; [discriminate | intros [= ->]; now left]. Qed.

Lemma or_key_In (l : list string) (a b : option string) :
  (forall k, a = Some k -> In k l) ->
  (forall k, b = Some k -> In k l) ->
  forall k, or_key a b = Some k -> In k l.
Proof.
  intros Ha Hb k. unfold or_key.
  destruct a as [s|]; [destruct (is_empty s)|]; auto.
Qed.

Lemma or_key_default (a : option string) (k0 : string) :
  exists k, or_key a (Some k0) = Some k.
Proof. destruct a as [s|]; cbn; [destruct (is_empty s)|]; eauto. Qed.

Lemma or_key_cases (a b : option string) (k : string) :
  or_key a b = Some k -> (a = Some k /\ k <> EmptyString) \/ b = Some k.
Proof.
  unfold or_key. destruct a as [s|]; [|now right].
  destruct s; cbn; [now right|]. intros [= <-]. left. now split.
Qed.

Lemma value_choice (f : string -> bool) (numericKeys : list string) :
  let v := match or_key (or_key (find f numericKeys)
                                (JsArray.get numericKeys 0))
                        (Some EmptyString) with
           | Some k => k
           | None => EmptyString
           end in
  v = EmptyString \/ In v numericKeys.
Proof.
  cbv zeta.
  destruct (or_key_default
              (or_key (find f numericKeys) (JsArray.get numericKeys 0))
              EmptyString) as (k & Hk).
  rewrite Hk.
  apply or_key_cases in Hk. destruct Hk as [[Hk _] | [= <-]]; [right|now left].
  revert Hk. apply or_key_In.
  - intros k1 Hf. apply find_some in Hf. tauto.
  - intros k1. rewrite get_head. apply hd_error_In.
Qed.

Lemma dataKeys_shape :
  forall (rt : Runtime) (first : JValue) (rest : list JValue),
    let dk := dataKeys rt (first :: rest) in
    DataKeys.allKeys dk = keys (flatten first) /\
    NoDup (DataKeys.allKeys dk) /\
    incl (DataKeys.numericKeys dk) (DataKeys.allKeys dk) /\
    incl (DataKeys.stringKeys dk) (DataKeys.allKeys dk) /\
    incl (DataKeys.dateKeys dk) (DataKeys.stringKeys dk) /\
    (forall k, In k (DataKeys.numericKeys dk) ->
               ~ In k (DataKeys.stringKeys dk)) /\
    (DataKeys.valueKey dk = EmptyString \/
     In (DataKeys.valueKey dk) (DataKeys.numericKeys dk)) /\
    (DataKeys.allKeys dk <> [] ->
     exists k, DataKeys.nameKey dk = Some k /\ In k (DataKeys.allKeys dk)) /\
    DataKeys.flattenedData dk = map flatten (first :: rest).
Proof.
  intros rt first rest dk.
  set (fl := flatten first).
  set (allKeys := keys fl).
  set (numericKeys :=
         filter (fun key => is_numeric_value (obj_get key fl)) allKeys).
  set (stringKeys :=
         filter (fun key => is_string_value (obj_get key fl)) allKeys).
  set (dateKeys :=
         filter (fun key => is_date_value rt (obj_get key fl)) allKeys).
  assert (Hnum : DataKeys.numericKeys dk = numericKeys) by reflexivity.
  assert (Hstr : DataKeys.stringKeys dk = stringKeys) by reflexivity.
  assert (Hdate : DataKeys.dateKeys dk = dateKeys) by reflexivity.
  assert (Hall : DataKeys.allKeys dk = allKeys) by reflexivity.
  rewrite Hnum, Hstr, Hdate, Hall.
  split; [reflexivity|].
  split; [apply keys_ordered_NoDup, flatten_keys_ordered|].
  split; [intros k Hk; apply filter_In in Hk; tauto|].
  split; [intros k Hk; apply filter_In in Hk; tauto|].
  split.
  { intros k Hk. apply filter_In in Hk. destruct Hk as [Hin Hd].
    apply filter_In. split; [assumption|].
    destruct (obj_get k fl); try discriminate Hd. reflexivity. }
  split.
  { intros k Hk Hs. apply filter_In in Hk. apply filter_In in Hs.
    destruct Hk as [_ Hk], Hs as [_ Hs].
    destruct (obj_get k fl); discriminate. }
  split; [apply value_choice|].
  split; [|reflexivity].
  intro Hne.
  assert (Hn : DataKeys.nameKey dk =
               or_key (or_key (or_key (find (any_word name_words) stringKeys)
                                      (JsArray.get dateKeys 0))
                              (JsArray.get stringKeys 0))
                      (JsArray.get allKeys 0)) by reflexivity.
  rewrite Hn. clear Hn.
  assert (Hstr_in : forall k, In k stringKeys -> In k allKeys)
    by (intros k Hk; apply filter_In in Hk; tauto).
  assert (Hdate_in : forall k, In k dateKeys -> In k allKeys)
    by (intros k Hk; apply filter_In in Hk; tauto).
  rewrite !get_head.
  destruct (hd_error allKeys) as [k0|] eqn:Ehd.
  2:{ destruct allKeys; [congruence | discriminate]. }
  destruct (or_key_default
              (or_key (or_key (find (any_word name_words) stringKeys)
                              (hd_error dateKeys))
                      (hd_error stringKeys)) k0) as (k & Hk).
  exists k. split; [exact Hk|].
  revert Hk. apply or_key_In; [apply or_key_In; [apply or_key_In|]|].
  - intros k1 Hf. apply find_some in Hf. apply Hstr_in. tauto.
  - intros k1 Hd. apply Hdate_in. now apply hd_error_In.
  - intros k1 Hs. apply Hstr_in. now apply hd_error_In.
  - intros k1 [= <-]. now apply hd_error_In.
Qed.

(** X5: for a non-empty data set, the keys are those of the flattened
    first record, each once; the numeric and the string keys are disjoint
    sublists of them and the date keys are string keys; the default value
    key is empty or a numeric key, the default label key is one of the
    keys as soon as there is any; and every record is flattened. *)
Theorem dataKeys_partition :
  forall (rt : Runtime) (first : JValue) (rest : list JValue),
    let dk := dataKeys rt (first :: rest) in
    DataKeys.allKeys dk = keys (flatten first) /\
    NoDup (DataKeys.allKeys dk) /\
    incl (DataKeys.numericKeys dk) (DataKeys.allKeys dk) /\
    incl (DataKeys.stringKeys dk) (DataKeys.allKeys dk) /\
    incl (DataKeys.dateKeys dk) (DataKeys.stringKeys dk) /\
    (forall k, In k (DataKeys.numericKeys dk) ->
               ~ In k (DataKeys.stringKeys dk)) /\
    (DataKeys.valueKey dk = EmptyString \/
     In (DataKeys.valueKey dk) (DataKeys.numericKeys dk)) /\
    (DataKeys.allKeys dk <> [] ->
     exists k, DataKeys.nameKey dk = Some k /\ In k (DataKeys.allKeys dk)) /\
    DataKeys.flattenedData dk = map flatten (first :: rest).
Proof. exact dataKeys_shape. Qed.

(** X6: when the effect accepts its props, the default label key is a
    non-empty key of the flattened first record and the default value key
    is one of its numeric keys, under which the first record holds a
    number other than NaN; and the prompt is not blank. *)
Theorem usable_keys_exist :
  forall (rt : Runtime) (data : list JValue) (prompt nk : string),
    usable data prompt (dataKeys rt data) = Some nk ->
    exists first rest,
      data = first :: rest /\
      DataKeys.nameKey (dataKeys rt data) = Some nk /\
      nk <> EmptyString /\
      In nk (keys (flatten first)) /\
      In (DataKeys.valueKey (dataKeys rt data))
         (DataKeys.numericKeys (dataKeys rt data)) /\
      (exists n, obj_get (DataKeys.valueKey (dataKeys rt data))
                         (flatten first) = JNum n /\ isNaN n = false) /\
      trim prompt <> EmptyString.
Proof.
  intros rt data prompt nk Hu.
  destruct data as [|first rest]; [discriminate|].
  exists first, rest. split; [reflexivity|].
  pose proof (dataKeys_shape rt first rest) as Hs. cbv zeta in Hs.
  destruct Hs as (Hall & _ & Hnum & _ & _ & _ & Hval & Hname & _).
  unfold usable in Hu.
  destruct (DataKeys.nameKey (dataKeys rt (first :: rest))) as [nk'|] eqn:En;
    [|discriminate].
  destruct (negb (is_empty prompt) && (0 <? String.length (trim prompt))%nat
            && negb (is_empty nk')
            && negb (is_empty (DataKeys.valueKey (dataKeys rt (first :: rest)))))
    eqn:Eg; [|discriminate].
  injection Hu as <-.
  apply andb_true_iff in Eg. destruct Eg as [Eg Hv].
  apply andb_true_iff in Eg. destruct Eg as [Eg Hn].
  apply andb_true_iff in Eg. destruct Eg as [_ Ht].
  assert (Hvne : DataKeys.valueKey (dataKeys rt (first :: rest))
                 <> EmptyString).
  { intro E. rewrite E in Hv. discriminate. }
  destruct Hval as [Hval | Hval]; [contradiction|].
  assert (Hin : In (DataKeys.valueKey (dataKeys rt (first :: rest)))
                   (keys (flatten first))).
  { rewrite <- Hall. now apply Hnum. }
  split; [reflexivity|].
  split; [intros ->; discriminate|].
  split.
  { destruct Hname as (k & Hk & Hkin).
    - rewrite Hall. intro E. rewrite E in Hin. destruct Hin.
    - rewrite Hall in Hkin. congruence. }
  split; [exact Hval|].
  split.
  { apply ClassifierFacts.numericKeys_In in Hval.
    destruct Hval as [_ Hval].
    now apply ClassifierFacts.is_numeric_value_spec. }
  intro E. rewrite E in Ht. discriminate.
Qed.

Lemma usable_keys_exist_witness :
  exists first rest,
    Samples.jan_feb = first :: rest /\
    DataKeys.nameKey (dataKeys Samples.runtime Samples.jan_feb) = Some "name"
    /\ "name" <> EmptyString /\
    In "name" (keys (flatten first)) /\
    In (DataKeys.valueKey (dataKeys Samples.runtime Samples.jan_feb))
       (DataKeys.numericKeys (dataKeys Samples.runtime Samples.jan_feb)) /\
    (exists n, obj_get (DataKeys.valueKey
                          (dataKeys Samples.runtime Samples.jan_feb))
                       (flatten first) = JNum n /\ isNaN n = false) /\
    trim "Create a pie chart" <> EmptyString.
Proof.
  apply (usable_keys_exist Samples.runtime Samples.jan_feb
           "Create a pie chart" "name").
  vm_compute. reflexivity.
Defined.

End ClassifierShape.

Module SessionFacts.
Import JsString Js Flatten Generator Statements Shapes Sessions AssemblyFacts.

Section Palette.
Variable rt : Runtime.

Lemma palette_length (count : nat) (cache : list string * nat) :
  List.length (fst (getRandomColorPalette rt count cache)) = count.
Proof.
  unfold getRandomColorPalette. destruct cache as [cached drawn].
  destruct (Nat.ltb_spec (List.length cached) count); cbn [fst].
  - rewrite length_firstn, length_map, length_seq. lia.
  - rewrite length_firstn. lia.
Qed.

Lemma palette_cache_grows (count : nat) (cache : list string * nat) :
  Nat.max count (List.length (fst cache))
  <= List.length (fst (snd (getRandomColorPalette rt count cache))).
Proof.
  unfold getRandomColorPalette. destruct cache as [cached drawn].
  destruct (Nat.ltb_spec (List.length cached) count); cbn [fst snd].
  - rewrite length_map, length_seq. lia.
  - lia.
Qed.

Lemma palette_hit (count : nat) (cache : list string * nat) :
  count <= List.length (fst cache) ->
  getRandomColorPalette rt count cache = (firstn count (fst cache), cache).
Proof.
  unfold getRandomColorPalette. destruct cache as [cached drawn]. cbn [fst].
  intro H. destruct (Nat.ltb_spec (List.length cached) count); [lia|].
  reflexivity.
Qed.

Lemma palette_repeat (count : nat) (cache : list string * nat) :
  getRandomColorPalette rt count (snd (getRandomColorPalette rt count cache))
  = getRandomColorPalette rt count cache.
Proof.
  rewrite palette_hit.
  - rewrite <- palette_is_cache_prefix.
    now destruct (getRandomColorPalette rt count cache).
  - pose proof (palette_cache_grows count cache). lia.
Qed.

End Palette.

(** X7: getRandomColorPalette(count) returns exactly count colours; the
    cache never gets shorter and afterwards holds at least count colours;
    a request the cache can serve draws nothing and returns the first
    count cached colours; so asking again for the same count returns the
    same palette and leaves the cache as it is. *)
Theorem palette_is_stable :
  forall (rt : Runtime) (count : nat) (cache : list string * nat),
    let r := getRandomColorPalette rt count cache in
    List.length (fst r) = count /\
    Nat.max count (List.length (fst cache)) <= List.length (fst (snd r)) /\
    (count <= List.length (fst cache) ->
     r = (firstn count (fst cache), cache)) /\
    getRandomColorPalette rt count (snd r) = r.
Proof.
  intros rt count cache r.
  split; [apply palette_length|].
  split; [apply palette_cache_grows|].
  split; [apply palette_hit | apply palette_repeat].
Qed.

Lemma palette_is_stable_witness :
  getRandomColorPalette Samples.runtime 3 (["a"; "b"; "c"; "d"], 4)
  = (["a"; "b"; "c"], (["a"; "b"; "c"; "d"], 4)).
Proof.
  refine (proj1 (proj2 (proj2
            (palette_is_stable Samples.runtime 3 (["a"; "b"; "c"; "d"], 4))))
            _).
  cbn. lia.
Defined.

Section Cells.
Variable rt : Runtime.
Variable g : string -> Registry.EChartsElementConfig -> Obj.

(** The failure message and the palette cache after an accepted run. *)
Lemma generate_cells (data : list JValue) (prompt : string)
    (dk : DataKeys.t) (nameKey hash : string) (st : State) :
  let st' := generate rt g data prompt dk nameKey hash st in
  error st' = None /\
  (cachedColors st', colorsDrawn st') =
    match extractColors (trim (toLowerCase prompt)) with
    | Some _ => (cachedColors st, colorsDrawn st)
    | None => snd (getRandomColorPalette rt 20
                     (cachedColors st, colorsDrawn st))
    end.
Proof.
  unfold generate.
  destruct (trendline_flags _) as [hasTrendline multipleTrendlines].
  destruct (keys_from_comparison _ _ _ _)
    as [[nameKeyToUse valueKeyToUse] dataKeysToUse].
  destruct (chosen_chartType_registered rt g prompt) as (config & Hc & Ht).
  rewrite Hc.
  destruct (extractColors _) as [cs|].
  - rewrite Ht. cbn. split; reflexivity.
  - pose proof (palette_repeat rt 20 (cachedColors st, colorsDrawn st)) as Hr.
    destruct (getRandomColorPalette rt 20 (cachedColors st, colorsDrawn st))
      as [colors1 cache1] eqn:E1.
    rewrite Ht. cbn [negb snd] in *. rewrite Hr.
    cbn. split; [reflexivity|]. now destruct cache1.
Qed.

Lemma assemble_usable (data : list JValue) (prompt nk : string) (st : State) :
  usable data prompt (dataKeys rt data) = Some nk ->
  assemble rt g data prompt st =
    if String.eqb (previousHashRef st) (dataPromptHash rt data prompt)
    then st
    else generate rt g data prompt (dataKeys rt data) nk
           (dataPromptHash rt data prompt) st.
Proof. intro Hu. unfold assemble. now rewrite Hu. Qed.

Lemma assemble_remembers (data : list JValue) (prompt nk : string)
    (st : State) :
  usable data prompt (dataKeys rt data) = Some nk ->
  previousHashRef (assemble rt g data prompt st)
  = dataPromptHash rt data prompt.
Proof.
  intro Hu. rewrite (assemble_usable _ _ _ _ Hu).
  destruct (String.eqb_spec (previousHashRef st)
              (dataPromptHash rt data prompt)) as [E|_]; [exact E|].
  now destruct (generate_stores rt g data prompt (dataKeys rt data) nk
                  (dataPromptHash rt data prompt) st) as (Hp & _).
Qed.

Lemma assemble_coherent (data : list JValue) (prompt : string) (st : State) :
  coherent rt g st -> coherent rt g (assemble rt g data prompt st).
Proof.
  intros (Herr & Hcfg & Hpal).
  destruct (usable data prompt (dataKeys rt data)) as [nk|] eqn:Eu.
  - rewrite (assemble_usable _ _ _ _ Eu).
    destruct (String.eqb (previousHashRef st) (dataPromptHash rt data prompt));
      [now repeat split|].
    destruct (generate_stores rt g data prompt (dataKeys rt data) nk
                (dataPromptHash rt data prompt) st)
      as (Hp & _ & cfg & Hc & Hty & Hh & _).
    destruct (generate_cells data prompt (dataKeys rt data) nk
                (dataPromptHash rt data prompt) st) as (He & Hcells).
    split; [exact He|]. split.
    + right. exists cfg. split; [exact Hc|].
      split; [now rewrite Hp|].
      split; [rewrite Hp; now apply (usable_hash_nonempty rt data prompt nk)|].
      rewrite Hty.
      destruct (chosen_chartType_registered rt g prompt) as (config & Hcfg' & _).
      now rewrite Hcfg'.
    + destruct (extractColors _).
      * injection Hcells as -> _. exact Hpal.
      * right.
        pose proof (palette_cache_grows rt 20
                      (cachedColors st, colorsDrawn st)) as Hg.
        rewrite <- Hcells in Hg. cbn [fst] in Hg.
        destruct Hpal as [Hc0 | Hc0].
        -- rewrite Hc0 in Hcells. cbn in Hcells.
           injection Hcells as Hcc _. rewrite Hcc. reflexivity.
        -- rewrite palette_hit in Hcells by (cbn [fst]; lia).
           cbn [snd] in Hcells. now injection Hcells as -> _.
  - unfold assemble. rewrite Eu. cbn. repeat split; try assumption.
    now left.
Qed.

(** Once the cache holds twenty colours no run changes it. *)
Lemma assemble_keeps_full_cache (data : list JValue) (prompt : string)
    (st : State) :
  List.length (cachedColors st) = 20 ->
  cachedColors (assemble rt g data prompt st) = cachedColors st.
Proof.
  intro Hlen.
  destruct (usable data prompt (dataKeys rt data)) as [nk|] eqn:Eu.
  - rewrite (assemble_usable _ _ _ _ Eu).
    destruct (String.eqb (previousHashRef st) (dataPromptHash rt data prompt));
      [reflexivity|].
    destruct (generate_cells data prompt (dataKeys rt data) nk
                (dataPromptHash rt data prompt) st) as (_ & Hcells).
    destruct (extractColors _).
    + now injection Hcells as -> _.
    + rewrite palette_hit in Hcells by (cbn [fst]; lia).
      cbn [snd] in Hcells. now injection Hcells as -> _.
  - unfold assemble. rewrite Eu. reflexivity.
Qed.

Lemma run_keeps_full_cache (inputs : list (list JValue * string))
    (st : State) :
  List.length (cachedColors st) = 20 ->
  cachedColors (run rt g inputs st) = cachedColors st.
Proof.
  revert st. induction inputs as [|[data prompt] inputs IH]; intros st H.
  - reflexivity.
  - cbn [run fold_left fst snd].
    pose proof (assemble_keeps_full_cache data prompt st H) as Hk.
    change (cachedColors (run rt g inputs (assemble rt g data prompt st))
            = cachedColors st).
    rewrite IH; [exact Hk | now rewrite Hk].
Qed.

Lemma run_coherent (inputs : list (list JValue * string)) (st : State) :
  coherent rt g st -> coherent rt g (run rt g inputs st).
Proof.
  revert st. induction inputs as [|[data prompt] inputs IH]; intros st H.
  - exact H.
  - cbn. apply IH. now apply assemble_coherent.
Qed.

Lemma initial_coherent : coherent rt g initial.
Proof. repeat split; now left. Qed.

End Cells.

(** X8: whatever props the effect has been run on since the component
    was mounted, the cells are coherent: there is no failure message;
    either nothing is remembered and nothing stored, or the stored
    configuration carries the remembered, non-empty fingerprint and a
    chart type of the registry; and the palette cache is empty or holds
    twenty colours.  Once the cache is filled no later run changes it: the
    palette is generated at most once. *)
Theorem session_is_coherent :
  forall (rt : Runtime) (g : string -> Registry.EChartsElementConfig -> Obj)
         (inputs later : list (list JValue * string)),
    let st := run rt g inputs initial in
    coherent rt g st /\
    (cachedColors st <> [] ->
     cachedColors (run rt g later st) = cachedColors st).
Proof.
  intros rt g inputs later st.
  assert (Hc : coherent rt g st) by apply run_coherent, initial_coherent.
  split; [exact Hc|].
  intro Hne. apply run_keeps_full_cache.
  destruct Hc as (_ & _ & [H | H]); [contradiction | exact H].
Qed.

Lemma session_is_coherent_witness :
  let st := run Samples.runtime Samples.builders
              [(Samples.jan_feb, "pie chart")] initial in
  coherent Samples.runtime Samples.builders st /\
  cachedColors
    (run Samples.runtime Samples.builders
       [([], "pie chart"); (Samples.jan_feb, "bar chart")] st)
  = cachedColors st.
Proof.
  destruct (session_is_coherent Samples.runtime Samples.builders
              [(Samples.jan_feb, "pie chart")]
              [([], "pie chart"); (Samples.jan_feb, "bar chart")])
    as [Hc Hk].
  split; [exact Hc|].
  apply Hk. vm_compute. discriminate.
Defined.

(** X9: the fingerprint is all the effect compares: when two accepted
    inputs have the same fingerprint, a run on the second right after a
    run on the first changes nothing, even when the data differ. *)
Theorem same_fingerprint_is_skipped :
  forall (rt : Runtime) (g : string -> Registry.EChartsElementConfig -> Obj)
         (data1 data2 : list JValue) (prompt1 prompt2 nk1 nk2 : string)
         (st : State),
    usable data1 prompt1 (dataKeys rt data1) = Some nk1 ->
    usable data2 prompt2 (dataKeys rt data2) = Some nk2 ->
    dataPromptHash rt data1 prompt1 = dataPromptHash rt data2 prompt2 ->
    assemble rt g data2 prompt2 (assemble rt g data1 prompt1 st)
    = assemble rt g data1 prompt1 st.
Proof.
  intros rt g data1 data2 prompt1 prompt2 nk1 nk2 st Hu1 Hu2 Hh.
  rewrite (assemble_usable rt g data2 prompt2 nk2 _ Hu2).
  rewrite (assemble_remembers rt g data1 prompt1 nk1 st Hu1), Hh.
  now rewrite String.eqb_refl.
Qed.

Lemma same_fingerprint_is_skipped_witness :
  MoreSamples.forty_changed <> MoreSamples.forty /\
  assemble Samples.runtime Samples.builders MoreSamples.forty_changed
    "bar chart"
    (assemble Samples.runtime Samples.builders MoreSamples.forty
       "bar chart" initial)
  = assemble Samples.runtime Samples.builders MoreSamples.forty
      "bar chart" initial.
Proof.
  split; [vm_compute; discriminate|].
  apply (same_fingerprint_is_skipped Samples.runtime Samples.builders
           MoreSamples.forty MoreSamples.forty_changed
           "bar chart" "bar chart" "v" "v" initial);
    vm_compute; reflexivity.
Defined.

(** X11: a run on props the effect does not accept forgets the remembered
    fingerprint, so the next accepted run always builds anew, also for
    props it had built before. *)
Theorem rejected_run_forgets :
  forall (rt : Runtime) (g : string -> Registry.EChartsElementConfig -> Obj)
         (data data' : list JValue) (prompt prompt' nk : string) (st : State),
    usable data' prompt' (dataKeys rt data') = None ->
    usable data prompt (dataKeys rt data) = Some nk ->
    let st1 := assemble rt g data' prompt' st in
    let st2 := assemble rt g data prompt st1 in
    previousHashRef st1 = EmptyString /\
    chartConfig st1 = None /\
    builderCalls st2 = S (builderCalls st) /\
    exists cfg, chartConfig st2 = Some cfg.
Proof.
  intros rt g data data' prompt prompt' nk st Hr Hu st1 st2.
  assert (E1 : st1 = {| previousHashRef := EmptyString; chartConfig := None;
                        error := error st; cachedColors := cachedColors st;
                        colorsDrawn := colorsDrawn st;
                        builderCalls := builderCalls st |}).
  { unfold st1, assemble. now rewrite Hr. }
  split; [now rewrite E1|]. split; [now rewrite E1|].
  unfold st2. rewrite (assemble_usable rt g data prompt nk _ Hu).
  assert (Hne : String.eqb (previousHashRef st1)
                  (dataPromptHash rt data prompt) = false).
  { rewrite E1. cbn [previousHashRef].
    destruct (String.eqb_spec EmptyString (dataPromptHash rt data prompt))
      as [E|_]; [|reflexivity].
    symmetry in E. now apply usable_hash_nonempty in Hu. }
  rewrite Hne.
  destruct (generate_stores rt g data prompt (dataKeys rt data) nk
              (dataPromptHash rt data prompt) st1)
    as (_ & Hb & cfg & Hc & _).
  split; [rewrite Hb; now rewrite E1 | now exists cfg].
Qed.

Lemma rejected_run_forgets_witness :
  let st0 := assemble Samples.runtime Samples.builders Samples.jan_feb
               "pie chart" initial in
  let st1 := assemble Samples.runtime Samples.builders [] "pie chart" st0 in
  let st2 := assemble Samples.runtime Samples.builders Samples.jan_feb
               "pie chart" st1 in
  previousHashRef st1 = EmptyString /\
  chartConfig st1 = None /\
  builderCalls st2 = S (builderCalls st0) /\
  exists cfg, chartConfig st2 = Some cfg.
Proof.
  apply (rejected_run_forgets Samples.runtime Samples.builders
           Samples.jan_feb [] "pie chart" "pie chart" "name"
           (assemble Samples.runtime Samples.builders Samples.jan_feb
              "pie chart" initial));
    vm_compute; reflexivity.
Defined.

End SessionFacts.

Module DetectionShape.
Local Open Scope nat_scope.
Import JsString Regex Js Registry Generator Statements DetectFacts AssemblyFacts.

Lemma lower_char_idem (c : ascii) : lower_char (lower_char c) = lower_char c.
Proof. destruct c as [[] [] [] [] [] [] [] []]; reflexivity. Qed.

Lemma toLowerCase_idem (s : string) : toLowerCase (toLowerCase s) = toLowerCase s.
Proof.
  induction s as [|c s IH]; cbn; [reflexivity|].
  now rewrite lower_char_idem, IH.
Qed.

Section Detect.
Variable rt : Runtime.
Variable g : string -> EChartsElementConfig -> Obj.

Lemma detected_registered (prompt : string) :
  exists config,
    getEChartsConfig rt g (detectEChartsType rt g prompt) = Some config /\
    In (detectEChartsType rt g prompt, config) (ECHARTS_TYPE_CONFIGS rt g).
Proof.
  unfold detectEChartsType.
  destruct (asks_multiple_trendlines _).
  - eexists. split; [reflexivity|]. cbn. auto 10.
  - destruct (first_match _ _) as [key|] eqn:Ef.
    + apply first_match_Some in Ef.
      destruct Ef as (before & config & after & kw & Hs & _).
      assert (Hin : In (key, config) (ECHARTS_TYPE_CONFIGS rt g)).
      { apply (Permutation_in _ (sortedConfigs_perm rt g)).
        rewrite Hs. apply in_or_app. right. now left. }
      exists config. split; [|exact Hin].
      pose proof (registry_lookup rt g) as H.
      rewrite Forall_forall in H. exact (H _ Hin).
    + eexists. split; [reflexivity|]. cbn. auto.
Qed.

End Detect.

(** X12: the chart type detected from a prompt is always a key of the
    registry, and so is the type the effect settles on: looking it up
    never yields null, so the fallback for an unknown chart type is never
    taken. *)
Theorem detected_type_is_registered :
  forall (rt : Runtime) (g : string -> EChartsElementConfig -> Obj)
         (prompt : string),
    (exists config,
        getEChartsConfig rt g (detectEChartsType rt g prompt) = Some config /\
        In (detectEChartsType rt g prompt, config)
           (ECHARTS_TYPE_CONFIGS rt g)) /\
    (exists config,
        getEChartsConfig rt g (chosen_chartType rt g prompt) = Some config).
Proof.
  intros rt g prompt. split; [apply detected_registered|].
  destruct (chosen_chartType_registered rt g prompt) as (config & H & _).
  now exists config.
Qed.

(** X14: detection does not depend on letter case: a prompt and its
    lower-cased form are detected, and settled, as the same chart type,
    with the same trendline flags. *)
Theorem detection_ignores_case :
  forall (rt : Runtime) (g : string -> EChartsElementConfig -> Obj)
         (prompt : string),
    detectEChartsType rt g (toLowerCase prompt) = detectEChartsType rt g prompt
    /\
    chosen_chartType rt g (toLowerCase prompt) = chosen_chartType rt g prompt.
Proof.
  intros rt g prompt.
  unfold chosen_chartType, detectEChartsType.
  now rewrite !toLowerCase_idem.
Qed.

End DetectionShape.

Module BoxplotShape.
Local Open Scope nat_scope.
Import JsString Js Registry Statements SortFacts.

Lemma num_le_refl (v : number) : not_NaN v -> num_le v v.
Proof.
  unfold not_NaN, num_le. intro H. repeat split; try assumption.
  destruct v; cbn in *; try reflexivity; try discriminate.
  apply negb_false_iff. apply Qle_bool_iff. apply Qle_refl.
Qed.

Lemma sorted_nth_le (l : list number) :
  StronglySorted num_le l -> Forall not_NaN l ->
  forall i j x y, i <= j -> nth_error l i = Some x -> nth_error l j = Some y ->
                  num_le x y.
Proof.
  induction 1 as [|a l Hs IH Ha]; intros Hn i j x y Hij Hx Hy.
  - destruct i; discriminate.
  - inversion Hn as [|? ? Hna Hnl]; subst.
    destruct i as [|i], j as [|j]; cbn in Hx, Hy.
    + injection Hx as <-. injection Hy as <-. now apply num_le_refl.
    + injection Hx as <-. apply nth_error_In in Hy.
      rewrite Forall_forall in Ha. now apply Ha.
    + lia.
    + apply (IH Hnl i j); [lia | assumption | assumption].
Qed.

(** X15: for a non-empty data set none of whose values is NaN, the five
    entries of the boxplot datum are all numbers and are in order:
    min <= Q1 <= median <= Q3 <= max. *)
Theorem boxplot_summary_is_ordered :
  forall config : EChartsElementConfig,
    data config <> [] ->
    Forall not_NaN (boxplot_raw config) ->
    let values := boxplot_values config in
    exists mn q1 md q3 mx,
      boxplot_min values = Some mn /\ boxplot_q1 values = Some q1 /\
      boxplot_median values = Some md /\ boxplot_q3 values = Some q3 /\
      boxplot_max values = Some mx /\
      num_le mn q1 /\ num_le q1 md /\ num_le md q3 /\ num_le q3 mx.
Proof.
  intros config Hne Hnan values.
  assert (Hperm : Permutation values (boxplot_raw config)) by apply sort_perm.
  assert (Hlen : List.length values = List.length (data config)).
  { rewrite (Permutation_length Hperm). unfold boxplot_raw. apply length_map. }
  assert (Hpos : 0 < List.length values).
  { rewrite Hlen. destruct (data config); [congruence | cbn; lia]. }
  assert (Hsorted : StronglySorted num_le values) by now apply sort_sorted.
  assert (Hnn : Forall not_NaN values)
    by (apply (Permutation_Forall (Permutation_sym Hperm)); assumption).
  set (n := List.length values) in *.
  assert (Hget : forall i, i < n -> exists x, nth_error values i = Some x).
  { intros i Hi. destruct (nth_error values i) eqn:E; [eauto|].
    apply nth_error_None in E. fold n in E. lia. }
  unfold boxplot_min, boxplot_q1, boxplot_median, boxplot_q3, boxplot_max.
  fold n. rewrite floor_quarter, floor_half, floor_three_quarters.
  rewrite !get_nat. unfold n at 4. rewrite get_last. fold n.
  change 0%Z with (Z.of_nat 0). rewrite get_nat.
  assert (H4 : n / 4 <= n / 2).
  { apply Nat.div_le_compat_l. lia. }
  assert (H2 : n / 2 <= 3 * n / 4).
  { replace (n / 2) with ((2 * n) / 4).
    - apply Nat.Div0.div_le_mono; lia.
    - replace 4 with (2 * 2) by reflexivity.
      rewrite Nat.Div0.div_mul_cancel_l; lia. }
  assert (H3 : 3 * n / 4 < n).
  { apply Nat.Div0.div_lt_upper_bound; lia. }
  destruct (Hget 0 Hpos) as (mn & Hmn).
  destruct (Hget (n / 4)) as (q1 & Hq1); [lia|].
  destruct (Hget (n / 2)) as (md & Hmd); [lia|].
  destruct (Hget (3 * n / 4)) as (q3 & Hq3); [lia|].
  destruct (Hget (n - 1)) as (mx & Hmx); [lia|].
  exists mn, q1, md, q3, mx.
  do 5 (split; [assumption|]).
  split; [|split; [|split]].
  - apply (sorted_nth_le values Hsorted Hnn 0 (n / 4)); auto; lia.
  - apply (sorted_nth_le values Hsorted Hnn (n / 4) (n / 2)); auto.
  - apply (sorted_nth_le values Hsorted Hnn (n / 2) (3 * n / 4)); auto.
  - apply (sorted_nth_le values Hsorted Hnn (3 * n / 4) (n - 1)); auto; lia.
Qed.

Lemma boxplot_summary_is_ordered_witness :
  exists mn q1 md q3 mx,
    boxplot_min (boxplot_values
                   (Samples.config_for "v" None Samples.one_to_ten)) = Some mn
    /\ boxplot_q1 (boxplot_values
                   (Samples.config_for "v" None Samples.one_to_ten)) = Some q1
    /\ boxplot_median (boxplot_values
                   (Samples.config_for "v" None Samples.one_to_ten)) = Some md
    /\ boxplot_q3 (boxplot_values
                   (Samples.config_for "v" None Samples.one_to_ten)) = Some q3
    /\ boxplot_max (boxplot_values
                   (Samples.config_for "v" None Samples.one_to_ten)) = Some mx
    /\ num_le mn q1 /\ num_le q1 md /\ num_le md q3 /\ num_le q3 mx.
Proof.
  apply (boxplot_summary_is_ordered
           (Samples.config_for "v" None Samples.one_to_ten)).
  - discriminate.
  - repeat constructor.
Defined.

End BoxplotShape.

Module BarChartFacts.
Local Open Scope nat_scope.
Import JsString Js Registry BarCharts ChartShapes.

Lemma map_mapi_from (A B C : Type) (f : A -> nat -> B) (h : B -> C)
    (h' : A -> C) (i : nat) (l : list A) :
  (forall x j, h (f x j) = h' x) ->
  map h (JsArray.mapi_from f i l) = map h' l.
Proof.
  intro H. revert i. induction l as [|x l IH]; intro i; cbn;
    [reflexivity|]. now rewrite H, IH.
Qed.

Lemma Forall_mapi_from (A B : Type) (f : A -> nat -> B) (P : B -> Prop)
    (i : nat) (l : list A) :
  (forall x j, P (f x j)) -> Forall P (JsArray.mapi_from f i l).
Proof.
  intro H. revert i. induction l as [|x l IH]; intro i; cbn;
    constructor; auto.
Qed.

Lemma bar_series_shape (config : EChartsElementConfig)
    (stack : list (string * JValue)) (key : string) (idx : nat) :
  stack = [] \/ stack = [("stack", JStr "stack1")] ->
  bar_series_ok config (obj_get "stack" stack)
                (bar_series config stack key idx).
Proof.
  intros [-> | ->]; (split; [reflexivity|]); (split; [reflexivity|]);
    exists key; split; reflexivity.
Qed.

Lemma family_series (rt : Runtime) (config : EChartsElementConfig)
    (stack : list (string * JValue)) :
  stack = [] \/ stack = [("stack", JStr "stack1")] ->
  let series := JsArray.mapi (bar_series config stack) (series_keys config) in
  prop (bar_option rt config (series_keys config) series) "series"
  = JArr series /\
  map (fun s => prop s "name") series = map JStr (series_keys config) /\
  Forall (bar_series_ok config (obj_get "stack" stack)) series.
Proof.
  intros Hs series. split; [reflexivity|]. split.
  - unfold series, JsArray.mapi. now apply map_mapi_from.
  - unfold series, JsArray.mapi. apply Forall_mapi_from.
    intros key idx. now apply bar_series_shape.
Qed.

(** X16: each builder of the bar family emits one bar series per series
    key, named after the keys in order, each with one number per record
    (the value of the record under the key, 0 when it is not a number);
    the bar builder stacks its series exactly when stacking is requested,
    the stacked one always, the grouped one never; the category axis has
    one label per record; and the histogram builder does no binning: it
    emits a single such series, for the value key. *)
Theorem bar_family_series :
  forall (rt : Runtime) (config : EChartsElementConfig),
    (exists series,
        prop (bar_generateOption rt config) "series" = JArr series /\
        map (fun s => prop s "name") series = map JStr (series_keys config) /\
        Forall (bar_series_ok config
                  (if isStacked config then JStr "stack1" else JUndefined))
               series) /\
    (exists series,
        prop (stackedbar_generateOption rt config) "series" = JArr series /\
        map (fun s => prop s "name") series = map JStr (series_keys config) /\
        Forall (bar_series_ok config (JStr "stack1")) series) /\
    (exists series,
        prop (groupedbar_generateOption rt config) "series" = JArr series /\
        map (fun s => prop s "name") series = map JStr (series_keys config) /\
        Forall (bar_series_ok config JUndefined) series) /\
    prop (prop (bar_generateOption rt config) "xAxis") "data"
    = JArr (map (fun item => JStr (label_of rt config item)) (data config))
    /\
    (exists s,
        prop (histogram_generateOption rt config) "series" = JArr [s] /\
        prop s "name" = JStr (valueKey config) /\
        bar_series_ok config JUndefined s).
Proof.
  intros rt config.
  split; [|split; [|split; [|split; [reflexivity|]]]];
    [| | | eexists; split; [reflexivity|]; split; [reflexivity|];
           split; [reflexivity|]; split; [reflexivity|];
           exists (valueKey config); split; reflexivity].
  - destruct (isStacked config) eqn:Es.
    + destruct (family_series rt config [("stack", JStr "stack1")])
        as (H1 & H2 & H3); [now right|].
      eexists. unfold bar_generateOption. rewrite Es.
      split; [exact H1 | split; [exact H2 | exact H3]].
    + destruct (family_series rt config []) as (H1 & H2 & H3); [now left|].
      eexists. unfold bar_generateOption. rewrite Es.
      split; [exact H1 | split; [exact H2 | exact H3]].
  - destruct (family_series rt config [("stack", JStr "stack1")])
      as (H1 & H2 & H3); [now right|].
    eexists. split; [exact H1 | split; [exact H2 | exact H3]].
  - destruct (family_series rt config []) as (H1 & H2 & H3); [now left|].
    eexists. split; [exact H1 | split; [exact H2 | exact H3]].
Qed.

End BarChartFacts.

Module ServerFacts.
Local Open Scope nat_scope.
Import JsString Js Generator Server ChartShapes ClassifierShape.

Lemma analyzeDataStructure_first (first : JValue) (rest : list JValue)
    (o : Obj) :
  own_props first = Some o ->
  exists r,
    analyzeDataStructure (first :: rest) = Some r /\
    chartType r =
      (if (2 <=? List.length (server_numericKeys o))
          && (1 <=? List.length (server_stringKeys o))
       then "line" else "bar") /\
    (yAxisKey r = Some EmptyString \/
     exists k, yAxisKey r = Some k /\ In k (server_numericKeys o)) /\
    ((xAxisKey r = None /\ keys o = []) \/
     exists k, xAxisKey r = Some k /\ In k (keys o)) /\
    title r = None /\ reasoning r = None.
Proof.
  intro Ho. unfold analyzeDataStructure. rewrite Ho.
  fold (server_numericKeys o). fold (server_stringKeys o).
  eexists. split; [reflexivity|]. cbn [chartType yAxisKey xAxisKey title reasoning].
  split; [reflexivity|]. split; [|split; [|split; reflexivity]].
  - destruct (or_key_default
                (or_key (find (any_word server_value_words)
                              (server_numericKeys o))
                        (JsArray.get (server_numericKeys o) 0))
                EmptyString) as (k & Hk).
    rewrite Hk. apply or_key_cases in Hk.
    destruct Hk as [[Hk _] | [= <-]]; [right | now left].
    exists k. split; [reflexivity|].
    revert Hk. apply or_key_In.
    + intros k1 Hf. apply find_some in Hf. tauto.
    + intros k1. rewrite get_head. apply hd_error_In.
  - rewrite !get_head.
    destruct (keys o) as [|k0 ks] eqn:Ek.
    + left. split; [|reflexivity].
      assert (Hs : server_stringKeys o = []).
      { unfold server_stringKeys. now rewrite Ek. }
      rewrite Hs. reflexivity.
    + right. cbn [hd_error].
      destruct (or_key_default
                  (or_key (find (any_word server_name_words)
                                (server_stringKeys o))
                          (hd_error (server_stringKeys o))) k0) as (k & Hk).
      exists k. split; [exact Hk|].
      assert (Hin : forall k1, In k1 (server_stringKeys o) ->
                               In k1 (k0 :: ks)).
      { intros k1 H1. unfold server_stringKeys in H1.
        apply filter_In in H1. rewrite Ek in H1. tauto. }
      revert Hk. apply or_key_In; [apply or_key_In|].
      * intros k1 Hf. apply find_some in Hf. apply Hin. tauto.
      * intros k1 Hs. apply Hin. now apply hd_error_In.
      * intros k1 [= <-]. now left.
Qed.

(** X17: the structural analysis of the server proposes "bar" alone for
    empty data and throws only when the first item is null or undefined;
    otherwise it proposes "line" exactly when the first item has at least
    two numeric and one string property and "bar" in every other case,
    a value key that is empty or one of the numeric keys, a label key that
    is one of the keys whenever there is any, and no title or
    reasoning. *)
Theorem analyzeDataStructure_shape :
  forall (data : list JValue),
    match data with
    | [] => analyzeDataStructure data = Some bar_only
    | first :: rest =>
        match own_props first with
        | None => analyzeDataStructure data = None
        | Some o =>
            exists r,
              analyzeDataStructure data = Some r /\
              chartType r =
                (if (2 <=? List.length (server_numericKeys o))
                    && (1 <=? List.length (server_stringKeys o))
                 then "line" else "bar") /\
              (yAxisKey r = Some EmptyString \/
               exists k, yAxisKey r = Some k /\ In k (server_numericKeys o)) /\
              ((xAxisKey r = None /\ keys o = []) \/
               exists k, xAxisKey r = Some k /\ In k (keys o)) /\
              title r = None /\ reasoning r = None
        end
    end.
Proof.
  intros [|first rest]; [reflexivity|].
  destruct (own_props first) as [o|] eqn:Ho.
  - now apply analyzeDataStructure_first.
  - unfold analyzeDataStructure. now rewrite Ho.
Qed.

Lemma js_or_given (s : string) (b : JValue) :
  s <> EmptyString -> js_or (opt_str (Some s)) b = JStr s.
Proof. destruct s; [congruence | reflexivity]. Qed.

Lemma js_or_given_first (s : string) (b d : JValue) :
  s <> EmptyString -> js_or (js_or (opt_str (Some s)) b) d = JStr s.
Proof. destruct s; [congruence | reflexivity]. Qed.

Lemma js_or_default (a d : JValue) :
  truthy d = true -> truthy (js_or a d) = true.
Proof. intro H. unfold js_or. now destruct (truthy a) eqn:E. Qed.

Lemma merge_throws (chartType title xAxisKey yAxisKey : option string)
    (analysis : JValue) :
  merge chartType title xAxisKey yAxisKey analysis = None <->
  analysis = JNull \/ analysis = JUndefined.
Proof.
  destruct analysis; cbn; split; try discriminate; auto;
    intros [H|H]; discriminate.
Qed.

Lemma analysis_object_defined (r : ChartAnalysisResult) :
  analysis_object r <> JNull /\ analysis_object r <> JUndefined.
Proof. split; discriminate. Qed.

(** X18: the generateChart action handler of the server fails exactly
    when the data are not empty and either the model chain answered null
    or the chain failed and the first data item is null or undefined.
    In a result the chart type is never falsy; a chart type, title or
    axis key that was passed in (and is not empty) is returned as it is,
    whatever the analysis says; when nothing was passed in and the data
    are empty, the chart type is "bar", the axis keys are empty and there
    is neither title nor reasoning. *)
Theorem handler_merges_with_precedence :
  forall (outcome : ChainOutcome) (data : JValue)
         (chartType title xAxisKey yAxisKey : option string),
    (handler outcome data chartType title xAxisKey yAxisKey = None <->
     exists first rest,
       dataArray data = first :: rest /\
       (outcome = ChainAnswered JNull \/ outcome = ChainAnswered JUndefined \/
        (outcome = ChainFailed /\ own_props first = None))) /\
    (forall res,
        handler outcome data chartType title xAxisKey yAxisKey = Some res ->
        truthy (result_chartType res) = true /\
        (forall s, chartType = Some s -> s <> EmptyString ->
                   result_chartType res = JStr s) /\
        (forall s, title = Some s -> s <> EmptyString ->
                   result_title res = Some (JStr s)) /\
        (forall s, xAxisKey = Some s -> s <> EmptyString ->
                   result_xAxisKey res = JStr s) /\
        (forall s, yAxisKey = Some s -> s <> EmptyString ->
                   result_yAxisKey res = JStr s) /\
        (chartType = None -> title = None -> xAxisKey = None ->
         yAxisKey = None -> dataArray data = [] ->
         res = {| result_chartType := JStr "bar"; result_title := None;
                  result_xAxisKey := JStr EmptyString;
                  result_yAxisKey := JStr EmptyString;
                  result_reasoning := None |})).
Proof.
  intros outcome data ct t x y. split.
  - unfold handler, analyzeDataWithLangChain.
    destruct (dataArray data) as [|first rest] eqn:Ed.
    + cbn. split; [discriminate|]. intros (f & r & H & _). discriminate.
    + destruct outcome as [|answer].
      * pose proof (analyzeDataStructure_shape (first :: rest)) as Hs.
        cbn beta iota in Hs.
        destruct (own_props first) as [o|] eqn:Ho.
        -- destruct Hs as (r & Hr & _). rewrite Hr. cbn.
           split; [discriminate|].
           intros (f & r' & [= <- <-] & [H | [H | [_ H]]]);
             [discriminate | discriminate | congruence].
        -- rewrite Hs. cbn. split; [|reflexivity].
           intros _. exists first, rest. split; [reflexivity|].
           right. right. now split.
      * rewrite merge_throws. split.
        -- intros [-> | ->]; exists first, rest; split; auto.
        -- intros (f & r & _ & [[= ->] | [[= ->] | [H _]]]);
             [now left | now right | discriminate].
  - intros res Hres. unfold handler in Hres.
    destruct (analyzeDataWithLangChain outcome data) as [a|] eqn:Ea;
      [|discriminate].
    assert (Hm : res =
      {| result_chartType :=
           js_or (js_or (opt_str ct) (field a "chartType")) (JStr "bar");
         result_title :=
           if truthy (js_or (opt_str t) (field a "title"))
           then Some (js_or (opt_str t) (field a "title")) else None;
         result_xAxisKey :=
           js_or (js_or (opt_str x) (field a "xAxisKey")) (JStr EmptyString);
         result_yAxisKey :=
           js_or (js_or (opt_str y) (field a "yAxisKey")) (JStr EmptyString);
         result_reasoning :=
           if truthy (field a "reasoning")
           then Some (field a "reasoning") else None |}).
    { unfold merge in Hres. destruct a; try discriminate;
        now injection Hres as <-. }
    subst res. cbn [result_chartType result_title result_xAxisKey
                    result_yAxisKey].
    split; [now apply js_or_default|].
    split.
    { intros s -> Hs. now apply js_or_given_first. }
    split.
    { intros s -> Hs. rewrite (js_or_given s _ Hs).
      destruct s; [congruence | reflexivity]. }
    split.
    { intros s -> Hs. now apply js_or_given_first. }
    split.
    { intros s -> Hs. now apply js_or_given_first. }
    intros -> -> -> -> Hd.
    unfold analyzeDataWithLangChain in Ea. rewrite Hd in Ea.
    injection Ea as <-. reflexivity.
Qed.

Lemma handler_merges_with_precedence_witness :
  handler ChainFailed (JArr Samples.jan_feb) (Some "pie") None None None
  = Some {| result_chartType := JStr "pie"; result_title := None;
            result_xAxisKey := JStr "name"; result_yAxisKey := JStr "value";
            result_reasoning := None |} /\
  handler (ChainAnswered JNull) (JArr Samples.jan_feb) (Some "pie") None None
    None = None /\
  handler (ChainAnswered (JNum (Fin 5))) (JArr Samples.jan_feb) None None
    (Some "name") None
  = Some {| result_chartType := JStr "bar"; result_title := None;
            result_xAxisKey := JStr "name";
            result_yAxisKey := JStr EmptyString;
            result_reasoning := None |}.
Proof.
  assert (E : handler ChainFailed (JArr Samples.jan_feb) (Some "pie") None
                None None
              = Some {| result_chartType := JStr "pie"; result_title := None;
                        result_xAxisKey := JStr "name";
                        result_yAxisKey := JStr "value";
                        result_reasoning := None |})
    by (vm_compute; reflexivity).
  split; [exact E|]. split.
  - destruct (handler_merges_with_precedence (ChainAnswered JNull)
                (JArr Samples.jan_feb) (Some "pie") None None None)
      as [[_ H] _].
    apply H. eexists _, _. split; [reflexivity | now left].
  - destruct (handler (ChainAnswered (JNum (Fin 5))) (JArr Samples.jan_feb)
                None None (Some "name") None) as [res|] eqn:Er;
      [|vm_compute in Er; discriminate].
    destruct (handler_merges_with_precedence (ChainAnswered (JNum (Fin 5)))
                (JArr Samples.jan_feb) None None (Some "name") None)
      as [_ H].
    destruct (H res Er) as (_ & _ & _ & Hx & _).
    pose proof (Hx "name" eq_refl) as Hx'.
    vm_compute in Er. injection Er as <-. reflexivity.
Defined.

End ServerFacts.

Module AppFacts.
Local Open Scope nat_scope.
Import JsString Js Registry Generator App AssemblyFacts SessionFacts.

Section Examples.
Variable rt : Runtime.
Variable g : string -> EChartsElementConfig -> Obj.

Lemma first_run (data : list JValue) (prompt nk : string) :
  usable data prompt (dataKeys rt data) = Some nk ->
  assemble rt g data prompt initial
  = generate rt g data prompt (dataKeys rt data) nk
      (dataPromptHash rt data prompt) initial.
Proof.
  intro Hu. rewrite (assemble_usable rt g data prompt nk _ Hu).
  destruct (String.eqb_spec (previousHashRef initial)
              (dataPromptHash rt data prompt)) as [E|_]; [|reflexivity].
  symmetry in E. now apply usable_hash_nonempty in Hu.
Qed.

(** The outcome of an example whose first record has a string under
    "name": the date test of that string is the only call of the runtime
    the outcome could depend on, and it does not. *)
Ltac run_example :=
  unfold outcome; cbn [data prompt];
  rewrite (first_run _ _ "name"); [|vm_compute; reflexivity];
  match goal with |- context [dataPromptHash rt ?d ?p] =>
    generalize (dataPromptHash rt d p) end;
  intro h;
  match goal with |- context [dataKeys rt ?d] =>
    let dk := fresh "dk" in
    let Edk := fresh "Edk" in
    remember (dataKeys rt d) as dk eqn:Edk;
    lazy -[Date_parse] in Edk;
    match type of Edk with
    | context [Date_parse rt ?s] => destruct (Date_parse rt s)
    end;
    subst dk; vm_compute; reflexivity
  end.

Lemma outcomes :
  map (outcome rt g) chartExamples =
    [ Some ("bar", "name", "sales");
      Some ("pie", "name", "value");
      Some ("line", "name", "value");
      Some ("area", "name", "value");
      Some ("bar", "name", "value");
      Some ("pie", "percentage", "percentage") ].
Proof.
  unfold chartExamples. cbn [map].
  repeat match goal with
         | |- ?x :: _ = _ :: _ => f_equal; [run_example | ..]
         end.
Qed.

End Examples.

(** X19: in a freshly mounted component each of the six bundled examples
    is assembled as a chart of its declared type, whatever the runtime
    and the builders; the label key is "name" for the first five; the
    value key is "sales" for the first and "value" for the next four; for
    the last example, whose prompt says "age", both the label key and the
    value key are "percentage". *)
Theorem bundled_examples_outcome :
  forall (rt : Runtime) (g : string -> EChartsElementConfig -> Obj),
    map (outcome rt g) chartExamples =
      [ Some ("bar", "name", "sales");
        Some ("pie", "name", "value");
        Some ("line", "name", "value");
        Some ("area", "name", "value");
        Some ("bar", "name", "value");
        Some ("pie", "percentage", "percentage") ] /\
    map (fun e => option_map (fun o => fst (fst o)) (outcome rt g e))
        chartExamples
    = map (fun e => Some (chartType e)) chartExamples.
Proof.
  intros rt g.
  pose proof (outcomes rt g) as H. split; [exact H|].
  rewrite <- (map_map (outcome rt g)
                (option_map (fun o : string * string * string => fst (fst o)))).
  rewrite H. reflexivity.
Qed.

(** X20: the prompt the generateChart action composes from a chart type
    alone is detected as that chart type for twenty-three of the thirty
    registry keys; for the seven compound keys (stackedbar, groupedbar,
    stackedarea, radialbar, polararea, themeriver, effectscatter) it is
    detected as "bar". *)
Theorem action_prompt_detection :
  forall (rt : Runtime) (g : string -> EChartsElementConfig -> Obj),
    Forall (fun key =>
              detectEChartsType rt g (action_prompt key None None None)
              = if existsb (String.eqb key) compound_keys then "bar" else key)
           (map fst (ECHARTS_TYPE_CONFIGS rt g)) /\
    List.length (map fst (ECHARTS_TYPE_CONFIGS rt g)) = 30 /\
    incl compound_keys (map fst (ECHARTS_TYPE_CONFIGS rt g)).
Proof.
  intros rt g. split; [|split].
  - cbn [ECHARTS_TYPE_CONFIGS map fst entry].
    repeat (apply Forall_cons; [vm_compute; reflexivity|]).
    apply Forall_nil.
  - reflexivity.
  - intros k Hk. cbn [ECHARTS_TYPE_CONFIGS map fst entry].
    unfold compound_keys in Hk. cbn [In] in Hk |- *.
    repeat (destruct Hk as [<-|Hk]; [tauto|]). contradiction.
Qed.

End AppFacts.

Module ChartConfigFacts.
Local Open Scope nat_scope.
Import JsString Regex Js ChartConfig DetectionShape.

Lemma first_match_In (configs : list (string * list string))
    (promptLower key : string) :
  first_match configs promptLower = Some key -> In key (map fst configs).
Proof.
  induction configs as [|[k kws] rest IH]; [discriminate|].
  cbn [first_match map fst].
  destruct (existsb _ kws).
  - intros [= <-]. now left.
  - intro H. right. now apply IH.
Qed.

(** X21: the older detector of chartConfig.ts returns, for every prompt,
    a chart type that has an entry in its catalogue ("bar" when no
    keyword matches); it returns "line" whenever dual or multiple
    trendlines are asked for; and it does not depend on letter case. *)
Theorem detectChartType_is_catalogued :
  forall prompt : string,
    has_config (detectChartType prompt) = true /\
    (first_match sortedConfigs (trim (toLowerCase prompt)) = None ->
     Registry.asks_multiple_trendlines (trim (toLowerCase prompt)) = false ->
     detectChartType prompt = "bar") /\
    (Registry.asks_multiple_trendlines (trim (toLowerCase prompt)) = true ->
     detectChartType prompt = "line") /\
    detectChartType (toLowerCase prompt) = detectChartType prompt.
Proof.
  intro prompt. split; [|split; [|split]].
  - unfold detectChartType.
    destruct (Registry.asks_multiple_trendlines _); [reflexivity|].
    destruct (first_match _ _) as [key|] eqn:Ef; [|reflexivity].
    apply first_match_In in Ef.
    vm_compute in Ef.
    repeat (destruct Ef as [<-|Ef]; [reflexivity|]). contradiction.
  - intros Hn Hm. unfold detectChartType. now rewrite Hm, Hn.
  - intro Hm. unfold detectChartType. now rewrite Hm.
  - unfold detectChartType. now rewrite toLowerCase_idem.
Qed.

Lemma detectChartType_is_catalogued_witness :
  detectChartType "show the totals" = "bar" /\
  detectChartType "PIE chart with Dual Trendline" = "line".
Proof.
  split.
  - destruct (detectChartType_is_catalogued "show the totals")
      as (_ & H & _).
    apply H; vm_compute; reflexivity.
  - destruct (detectChartType_is_catalogued "PIE chart with Dual Trendline")
      as (_ & _ & H & _).
    apply H. vm_compute. reflexivity.
Defined.

End ChartConfigFacts.

Module MappingFacts.
Local Open Scope nat_scope.
Import JsString Js Flatten Registry Generator ChartShapes ClassifierShape
       AssemblyFacts SessionFacts.

Lemma includes_In (l : list string) (x : string) :
  JsArray.includes l x = true <-> In x l.
Proof.
  unfold JsArray.includes. rewrite existsb_exists. split.
  - intros (y & Hy & E). apply String.eqb_eq in E. now subst.
  - intro H. exists x. split; [exact H | apply String.eqb_refl].
Qed.

Lemma push_found_incl (all : list string) (found : option string)
    (acc : list string) :
  (forall k, found = Some k -> In k all) ->
  incl acc all /\ NoDup acc ->
  incl (push_found found acc) all /\ NoDup (push_found found acc).
Proof.
  intros Hf [Hi Hn]. unfold push_found.
  destruct found as [k|]; [|now split].
  destruct (negb (is_empty k) && negb (JsArray.includes acc k)) eqn:E;
    [|now split].
  apply andb_prop in E. destruct E as [_ E]. apply negb_true_iff in E.
  split.
  - apply incl_app; [exact Hi|]. intros x [<-|[]]. now apply Hf.
  - apply NoDup_app; [exact Hn | repeat constructor; intros [] |].
    intros x Hx [<-|[]].
    apply includes_In in Hx. congruence.
Qed.

Lemma mention_loop (promptLower : string) (all l acc : list string) :
  incl l all ->
  incl acc all /\ NoDup acc ->
  let acc' :=
    fold_left
      (fun acc key =>
         if isMentioned promptLower key && negb (JsArray.includes acc key)
         then acc ++ [key] else acc) l acc in
  incl acc' all /\ NoDup acc'.
Proof.
  revert acc. induction l as [|key l IH]; intros acc Hl Hacc; [exact Hacc|].
  cbn [fold_left]. apply IH; [intros x Hx; apply Hl; now right|].
  destruct (isMentioned promptLower key && negb (JsArray.includes acc key))
    eqn:E; [|exact Hacc].
  apply andb_prop in E. destruct E as [_ E]. apply negb_true_iff in E.
  destruct Hacc as [Hi Hn]. split.
  - apply incl_app; [exact Hi|]. intros x [<-|[]]. apply Hl. now left.
  - apply NoDup_app; [exact Hn | repeat constructor; intros [] |].
    intros x Hx [<-|[]]. apply includes_In in Hx. congruence.
Qed.

(** The keys the prompt mentions are keys of the first record, each
    once. *)
Lemma mentionedKeys_incl (dk : DataKeys.t) (prompt promptLower : string) :
  incl (mentionedKeys dk prompt promptLower) (DataKeys.allKeys dk) /\
  NoDup (mentionedKeys dk prompt promptLower).
Proof.
  unfold mentionedKeys.
  apply mention_loop; [apply incl_refl|].
  destruct (vsMatch prompt) as [[g1 g2]|].
  - apply push_found_incl;
      [intros k Hk; apply find_some in Hk; tauto|].
    apply push_found_incl;
      [intros k Hk; apply find_some in Hk; tauto|].
    split; [intros x [] | constructor].
  - split; [intros x [] | constructor].
Qed.

Lemma usable_defaults (rt : Runtime) (data : list JValue)
    (prompt nk : string) :
  usable data prompt (dataKeys rt data) = Some nk ->
  In nk (DataKeys.allKeys (dataKeys rt data)) /\
  In (DataKeys.valueKey (dataKeys rt data))
     (DataKeys.numericKeys (dataKeys rt data)) /\
  incl (DataKeys.numericKeys (dataKeys rt data))
       (DataKeys.allKeys (dataKeys rt data)).
Proof.
  intro Hu. destruct data as [|first rest]; [discriminate|].
  pose proof (dataKeys_shape rt first rest) as Hs. cbv zeta in Hs.
  destruct Hs as (_ & _ & Hnum & _ & _ & _ & Hval & Hname & _).
  unfold usable in Hu.
  destruct (DataKeys.nameKey (dataKeys rt (first :: rest))) as [nk'|] eqn:En;
    [|discriminate].
  destruct (negb (is_empty prompt) && (0 <? String.length (trim prompt))
            && negb (is_empty nk')
            && negb (is_empty (DataKeys.valueKey (dataKeys rt (first :: rest)))))
    eqn:Eg; [|discriminate].
  injection Hu as <-.
  apply andb_prop in Eg. destruct Eg as [Eg Ev].
  assert (Hv : In (DataKeys.valueKey (dataKeys rt (first :: rest)))
                  (DataKeys.numericKeys (dataKeys rt (first :: rest)))).
  { destruct Hval as [E|H]; [|exact H]. rewrite E in Ev. discriminate. }
  split; [|split; [exact Hv | exact Hnum]].
  destruct Hname as (k & Hk & Hin).
  - intro E. apply Hnum in Hv. rewrite E in Hv. contradiction.
  - congruence.
Qed.

Section Mapping.
Variable dk : DataKeys.t.

Lemma keys_from_mentions_ok (nameKey : string) (mentioned : list string) :
  In nameKey (DataKeys.allKeys dk) ->
  In (DataKeys.valueKey dk) (DataKeys.allKeys dk) ->
  incl mentioned (DataKeys.allKeys dk) ->
  mapping_ok dk (keys_from_mentions dk nameKey mentioned).
Proof.
  intros Hn Hv Hm. unfold keys_from_mentions.
  destruct mentioned as [|m0 ms] eqn:Em;
    [repeat split; [assumption .. | discriminate]|].
  rewrite <- Em in *. clear Em m0 ms.
  set (name := match find _ mentioned with Some _ => _ | None => _ end).
  assert (Hname : In name (DataKeys.allKeys dk)).
  { unfold name. destruct (find _ mentioned) as [k|] eqn:Ef; [|exact Hn].
    destruct (is_empty k); [exact Hn|].
    apply find_some in Ef. apply Hm. tauto. }
  set (vals := filter _ mentioned).
  assert (Hvals : incl vals (DataKeys.allKeys dk)).
  { intros x Hx. apply filter_In in Hx. apply Hm. tauto. }
  destruct vals as [|k [|k' vs]] eqn:Ev.
  - repeat split; [assumption .. | discriminate].
  - repeat split; [assumption | apply Hvals; now left | discriminate].
  - split; [assumption|]. split; [apply Hvals; now left|].
    intros ks [= <-]. exists (k :: k' :: vs).
    repeat split; [cbn; lia | exact Hvals].
Qed.

Lemma nth_hd (l : list string) :
  l <> [] -> hd_error l = Some (nth 0 l "").
Proof. destruct l; [congruence | reflexivity]. Qed.

Lemma keys_from_comparison_ok (promptLower : string) (mt : bool)
    (sofar : string * string * option string) :
  incl (DataKeys.numericKeys dk) (DataKeys.allKeys dk) ->
  mapping_ok dk sofar ->
  mapping_ok dk (keys_from_comparison dk promptLower mt sofar).
Proof.
  intros Hnum Hok. unfold keys_from_comparison.
  destruct sofar as [[n v] d].
  destruct ((_ || _ || _ || mt) && (2 <=? _)) eqn:E; [|exact Hok].
  apply andb_prop in E. destruct E as [_ E]. apply Nat.leb_le in E.
  destruct Hok as (Hn & _).
  set (matching := filter _ (DataKeys.numericKeys dk)).
  assert (Hm : incl matching (DataKeys.allKeys dk)).
  { intros x Hx. apply filter_In in Hx. apply Hnum. tauto. }
  destruct (2 <=? List.length matching) eqn:E2.
  - apply Nat.leb_le in E2.
    assert (Hne : matching <> []) by (destruct matching; cbn in E2; [lia | discriminate]).
    split; [exact Hn|]. split.
    + apply Hm. destruct matching; [congruence | now left].
    + intros ks [= <-]. exists matching.
      repeat split; [exact E2 | exact Hm | now apply nth_hd].
  - assert (Hne : DataKeys.numericKeys dk <> [])
      by (destruct (DataKeys.numericKeys dk); cbn in E; [lia | discriminate]).
    split; [exact Hn|]. split.
    + apply Hnum. destruct (DataKeys.numericKeys dk); [congruence | now left].
    + intros ks [= <-]. exists (firstn 2 (DataKeys.numericKeys dk)).
      repeat split.
      * rewrite length_firstn. lia.
      * intros x Hx. apply Hnum. rewrite <- (firstn_skipn 2 (DataKeys.numericKeys dk)). apply in_or_app. now left.
      * destruct (DataKeys.numericKeys dk); [congruence | reflexivity].
Qed.

End Mapping.

Section Stored.
Variable rt : Runtime.
Variable g : string -> EChartsElementConfig -> Obj.

(** The mapping an accepted run stores is the outcome of the comparison
    step, an empty list of series keys counting as none. *)
Lemma generate_mapping (data : list JValue) (prompt : string)
    (dk : DataKeys.t) (nameKey hash : string) (st : State) :
  exists cfg,
    chartConfig (generate rt g data prompt dk nameKey hash st) = Some cfg /\
    (DataMapping.nameKey (GeneratedChartConfig.dataMapping cfg),
     DataMapping.valueKey (GeneratedChartConfig.dataMapping cfg),
     DataMapping.dataKeys (GeneratedChartConfig.dataMapping cfg))
    = let '(n, v, d) :=
        keys_from_comparison dk (trim (toLowerCase prompt))
          (snd (trendline_flags (trim (toLowerCase prompt))))
          (keys_from_mentions dk nameKey
             (mentionedKeys dk prompt (trim (toLowerCase prompt)))) in
      (n, v, match d with
             | Some ks => if is_empty ks then None else Some ks
             | None => None
             end).
Proof.
  unfold generate.
  destruct (trendline_flags _) as [hasTrendline multipleTrendlines].
  cbn [snd].
  destruct (keys_from_comparison _ _ _ _)
    as [[nameKeyToUse valueKeyToUse] dataKeysToUse].
  destruct (chosen_chartType_registered rt g prompt) as (config & Hc & Ht).
  rewrite Hc.
  destruct (extractColors _) as [cs|].
  - rewrite Ht. cbn. eexists. split; reflexivity.
  - destruct (getRandomColorPalette rt 20 (cachedColors st, colorsDrawn st))
      as [colors1 cache1] eqn:E1.
    rewrite Ht. cbn [negb].
    destruct (getRandomColorPalette rt 20 cache1) as [colors2 cache2] eqn:E2.
    cbn. eexists. split; reflexivity.
Qed.

Lemma assemble_mapping (data : list JValue) (prompt nk : string)
    (st : State) :
  usable data prompt (dataKeys rt data) = Some nk ->
  previousHashRef st <> dataPromptHash rt data prompt ->
  exists cfg,
    chartConfig (assemble rt g data prompt st) = Some cfg /\
    (DataMapping.nameKey (GeneratedChartConfig.dataMapping cfg),
     DataMapping.valueKey (GeneratedChartConfig.dataMapping cfg),
     DataMapping.dataKeys (GeneratedChartConfig.dataMapping cfg))
    = let '(n, v, d) :=
        keys_from_comparison (dataKeys rt data) (trim (toLowerCase prompt))
          (snd (trendline_flags (trim (toLowerCase prompt))))
          (keys_from_mentions (dataKeys rt data) nk
             (mentionedKeys (dataKeys rt data) prompt
                (trim (toLowerCase prompt)))) in
      (n, v, match d with
             | Some ks => if is_empty ks then None else Some ks
             | None => None
             end).
Proof.
  intros Hu Hh.
  rewrite (assemble_usable rt g data prompt nk st Hu).
  destruct (String.eqb_spec (previousHashRef st)
              (dataPromptHash rt data prompt)) as [E|_]; [contradiction|].
  apply generate_mapping.
Qed.

(** The option an accepted run stores is what the builder of the chosen
    chart type returns for the element configuration. *)
Lemma generate_option (first : JValue) (rest : list JValue)
    (prompt : string) (dk : DataKeys.t) (nameKey hash : string) (st : State) :
  DataKeys.flattenedData dk = map Flatten.flatten (first :: rest) ->
  exists cfg config,
    chartConfig (generate rt g (first :: rest) prompt dk nameKey hash st)
    = Some cfg /\
    GeneratedChartConfig.chartType cfg = chosen_chartType rt g prompt /\
    getEChartsConfig rt g (GeneratedChartConfig.chartType cfg) = Some config /\
    GeneratedChartConfig.echartsOption cfg
    = generateOption config (built_from prompt (first :: rest) cfg).
Proof.
  intro Hfd. unfold generate, built_from. rewrite Hfd.
  destruct (trendline_flags _) as [hasTrendline multipleTrendlines].
  destruct (keys_from_comparison _ _ _ _)
    as [[nameKeyToUse valueKeyToUse] dataKeysToUse].
  destruct (chosen_chartType_registered rt g prompt) as (config & Hc & Ht).
  rewrite Hc.
  assert (Hd : option_map (fun ks => map trim (split_on (chr_is 44) ks))
                 match dataKeysToUse with
                 | Some ks => if is_empty ks then None else Some ks
                 | None => None
                 end
               = match dataKeysToUse with
                 | Some ks => if is_empty ks then None
                              else Some (map trim (split_on (chr_is 44) ks))
                 | None => None
                 end).
  { destruct dataKeysToUse as [ks|]; [|reflexivity].
    now destruct (is_empty ks). }
  destruct (extractColors _) as [cs|].
  - rewrite Ht. cbn [negb]. eexists _, config.
    split; [reflexivity|]. cbn.
    split; [reflexivity|]. split; [exact Hc|].
    rewrite Hd, map_map. reflexivity.
  - pose proof (palette_repeat rt 20 (cachedColors st, colorsDrawn st)) as Hr.
    destruct (getRandomColorPalette rt 20 (cachedColors st, colorsDrawn st))
      as [colors1 cache1] eqn:E1.
    rewrite Ht. cbn [negb snd] in *. rewrite Hr.
    eexists _, config.
    split; [reflexivity|]. cbn.
    split; [reflexivity|]. split; [exact Hc|].
    rewrite Hd, map_map. reflexivity.
Qed.

End Stored.

(** X10: a run on accepted props with a new fingerprint stores the
    output of the builder: the chart type of the stored configuration is
    the one the effect settled on, the registry has a configuration for
    it, and the stored option is what the builder of that configuration
    returns for the element configuration made of the stored mapping,
    the stored colours, the stacking and trendline flags and the flattened
    records. *)
Theorem accepted_run_stores_builder_output :
  forall (rt : Runtime) (g : string -> EChartsElementConfig -> Obj)
         (data : list JValue) (prompt nk : string) (st : State),
    usable data prompt (dataKeys rt data) = Some nk ->
    previousHashRef st <> dataPromptHash rt data prompt ->
    exists cfg config,
      chartConfig (assemble rt g data prompt st) = Some cfg /\
      GeneratedChartConfig.chartType cfg = chosen_chartType rt g prompt /\
      getEChartsConfig rt g (GeneratedChartConfig.chartType cfg)
      = Some config /\
      GeneratedChartConfig.echartsOption cfg
      = generateOption config (built_from prompt data cfg).
Proof.
  intros rt g data prompt nk st Hu Hh.
  rewrite (assemble_usable rt g data prompt nk st Hu).
  destruct (String.eqb_spec (previousHashRef st)
              (dataPromptHash rt data prompt)) as [E|_]; [contradiction|].
  destruct data as [|first rest]; [discriminate|].
  apply generate_option. reflexivity.
Qed.

Lemma accepted_run_stores_builder_output_witness :
  exists cfg config,
    chartConfig (assemble Samples.runtime Samples.builders
                   Samples.jan_feb "stacked bar chart" initial) = Some cfg /\
    GeneratedChartConfig.chartType cfg = "stackedbar" /\
    getEChartsConfig Samples.runtime Samples.builders "stackedbar"
    = Some config /\
    GeneratedChartConfig.echartsOption cfg
    = JObj [("series", JArr [JObj [("type", JStr "stackedbar")]])].
Proof.
  destruct (accepted_run_stores_builder_output Samples.runtime
              Samples.builders Samples.jan_feb "stacked bar chart" "name"
              initial) as (cfg & config & Hc & Ht & Hg & Ho).
  - vm_compute. reflexivity.
  - vm_compute. discriminate.
  - assert (Ht' : GeneratedChartConfig.chartType cfg = "stackedbar")
      by (rewrite Ht; vm_compute; reflexivity).
    rewrite Ht' in Hg.
    exists cfg, config. split; [exact Hc|]. split; [exact Ht'|].
    split; [exact Hg|]. rewrite Ho.
    vm_compute in Hg. injection Hg as <-. reflexivity.
Defined.

(** X22: the mapping stored by a run that builds names only keys of the
    data: its label key and its value key are keys of the flattened first
    record, and when it lists series keys, the list is the comma-joined
    sequence of at least two such keys, the value key first. *)
Theorem stored_mapping_names_keys :
  forall (rt : Runtime) (g : string -> EChartsElementConfig -> Obj)
         (data : list JValue) (prompt nk : string) (st : State),
    usable data prompt (dataKeys rt data) = Some nk ->
    previousHashRef st <> dataPromptHash rt data prompt ->
    exists cfg,
      chartConfig (assemble rt g data prompt st) = Some cfg /\
      mapping_ok (dataKeys rt data)
        (DataMapping.nameKey (GeneratedChartConfig.dataMapping cfg),
         DataMapping.valueKey (GeneratedChartConfig.dataMapping cfg),
         DataMapping.dataKeys (GeneratedChartConfig.dataMapping cfg)).
Proof.
  intros rt g data prompt nk st Hu Hh.
  destruct (assemble_mapping rt g data prompt nk st Hu Hh) as (cfg & Hc & Hm).
  exists cfg. split; [exact Hc|]. rewrite Hm.
  destruct (usable_defaults rt data prompt nk Hu) as (Hn & Hv & Hnum).
  pose proof (keys_from_comparison_ok (dataKeys rt data)
                (trim (toLowerCase prompt))
                (snd (trendline_flags (trim (toLowerCase prompt))))
                (keys_from_mentions (dataKeys rt data) nk
                   (mentionedKeys (dataKeys rt data) prompt
                      (trim (toLowerCase prompt))))
                Hnum
                (keys_from_mentions_ok (dataKeys rt data) nk _ Hn
                   (Hnum _ Hv)
                   (proj1 (mentionedKeys_incl (dataKeys rt data) prompt _))))
    as Hok.
  destruct (keys_from_comparison _ _ _ _) as [[n v] d].
  destruct Hok as (H1 & H2 & H3). split; [exact H1|]. split; [exact H2|].
  intros ks Hks. apply H3.
  destruct d as [ks'|]; [|discriminate].
  destruct (is_empty ks'); [discriminate | exact Hks].
Qed.

Lemma stored_mapping_names_keys_witness :
  exists cfg,
    chartConfig (assemble Samples.runtime Samples.builders
                   Samples.jan_feb "pie chart" initial) = Some cfg /\
    mapping_ok (dataKeys Samples.runtime Samples.jan_feb)
      (DataMapping.nameKey (GeneratedChartConfig.dataMapping cfg),
       DataMapping.valueKey (GeneratedChartConfig.dataMapping cfg),
       DataMapping.dataKeys (GeneratedChartConfig.dataMapping cfg)).
Proof.
  apply (stored_mapping_names_keys Samples.runtime Samples.builders
           Samples.jan_feb "pie chart" "name" initial).
  - vm_compute. reflexivity.
  - vm_compute. discriminate.
Defined.

(** *** Prompts of the generateChart action *)

Lemma has_text_append (a b : string) :
  has_text (a ++ b) = has_text a || has_text b.
Proof.
  induction a as [|c a IH]; cbn; [reflexivity|].
  now rewrite IH, orb_assoc.
Qed.

Lemma trimStart_append (a r : string) :
  has_text a = true -> (trimStart (a ++ r) = trimStart a ++ r)%string.
Proof.
  induction a as [|c a IH]; [discriminate|].
  cbn. destruct (is_space c); cbn; [exact IH | reflexivity].
Qed.

Lemma append_assoc (a b c : string) : ((a ++ b) ++ c = a ++ (b ++ c))%string.
Proof. induction a as [|x a IH]; cbn; [reflexivity | now rewrite IH]. Qed.

Lemma append_empty (a : string) : (a ++ "")%string = a.
Proof. induction a as [|c a IH]; cbn; [reflexivity | now rewrite IH]. Qed.

Lemma rev_string_acc (s acc : string) :
  (rev_string s acc = rev_string s "" ++ acc)%string.
Proof.
  revert acc. induction s as [|c s IH]; intro acc; [reflexivity|].
  cbn. rewrite (IH (String c acc)), (IH (String c EmptyString)).
  now rewrite append_assoc.
Qed.

Lemma rev_string_append (a b : string) :
  (rev_string (a ++ b) "" = rev_string b "" ++ rev_string a "")%string.
Proof.
  induction a as [|c a IH]; cbn; [now rewrite append_empty|].
  rewrite (rev_string_acc (a ++ b)), (rev_string_acc a), IH.
  now rewrite append_assoc.
Qed.

Lemma rev_string_involutive (s : string) :
  rev_string (rev_string s "") "" = s.
Proof.
  induction s as [|c s IH]; [reflexivity|].
  cbn. rewrite (rev_string_acc s), rev_string_append, IH. reflexivity.
Qed.

Lemma has_text_rev (s : string) :
  has_text (rev_string s "") = has_text s.
Proof.
  induction s as [|c s IH]; [reflexivity|].
  cbn. rewrite (rev_string_acc s), has_text_append, IH. cbn.
  rewrite orb_false_r. apply orb_comm.
Qed.

Lemma trimEnd_append (r b : string) :
  has_text b = true -> (trimEnd (r ++ b) = r ++ trimEnd b)%string.
Proof.
  intro Hb. unfold trimEnd.
  rewrite rev_string_append, trimStart_append
    by (now rewrite has_text_rev).
  now rewrite rev_string_append, rev_string_involutive.
Qed.

Lemma toLowerCase_append (a b : string) :
  (toLowerCase (a ++ b) = toLowerCase a ++ toLowerCase b)%string.
Proof. induction a as [|c a IH]; cbn; [reflexivity | now rewrite IH]. Qed.

Lemma startsWith_append (p b : string) : startsWith (p ++ b) p = true.
Proof.
  induction p as [|c p IH]; [now destruct b|].
  cbn. now rewrite Ascii.eqb_refl, IH.
Qed.

Lemma includes_middle (a p b : string) :
  includes (a ++ p ++ b) p = true.
Proof.
  induction a as [|c a IH].
  - cbn [append].
    pose proof (startsWith_append p b) as H.
    destruct (p ++ b)%string; cbn [includes]; now rewrite H.
  - cbn [append includes]. rewrite IH. apply orb_true_r.
Qed.

Lemma join_nonempty (a b : string) (l : list string) :
  is_empty (join "," (a :: b :: l)) = false.
Proof. cbn [join]. destruct a; reflexivity. Qed.

(** The prompt the action composes with a value key contains " and ",
    also once it is lower-cased and trimmed. *)
Lemma action_prompt_compares (chartType : string)
    (title xAxisKey : option string) (yAxisKey : string) :
  yAxisKey <> EmptyString ->
  includes (trim (toLowerCase
                    (App.action_prompt chartType title xAxisKey
                       (Some yAxisKey)))) " and " = true.
Proof.
  intro Hy. unfold App.action_prompt.
  assert (Ht : is_truthy_key (Some yAxisKey) = true)
    by (destruct yAxisKey; [congruence | reflexivity]).
  rewrite Ht. cbn [Server.text].
  set (T := if is_truthy_key title then _ else _).
  set (X := if is_truthy_key xAxisKey then _ else _).
  assert (E : (chartType ++ " chart" ++ T ++ X ++ " and y-axis: " ++ yAxisKey
               = ((chartType ++ " chart") ++ T ++ X)
                 ++ " and " ++ ("y-axis: " ++ yAxisKey))%string).
  { rewrite !append_assoc. reflexivity. }
  rewrite E. clear E.
  set (A := ((chartType ++ " chart") ++ T ++ X)%string).
  assert (HA : has_text (toLowerCase A) = true).
  { unfold A. rewrite !toLowerCase_append, !has_text_append.
    cbn. now rewrite orb_true_r. }
  rewrite !toLowerCase_append.
  unfold trim.
  rewrite trimStart_append by exact HA.
  rewrite <- append_assoc.
  rewrite trimEnd_append by reflexivity.
  rewrite append_assoc.
  apply includes_middle.
Qed.

(** X25: a value key passed to the generateChart action does not select
    the value key of the chart when the first record has two or more
    numeric keys: the prompt the action composes from it contains " and ",
    so the comparison step decides: the stored mapping lists as series
    the numeric keys that a word of the prompt names, if there are two or
    more of them, and the first two numeric keys otherwise, and its value
    key is the first of the series. *)
Theorem action_value_key_is_compared :
  forall (rt : Runtime) (g : string -> EChartsElementConfig -> Obj)
         (data : list JValue) (chartType : string)
         (title xAxisKey : option string) (yAxisKey nk : string) (st : State),
    let prompt := App.action_prompt chartType title xAxisKey (Some yAxisKey) in
    let series :=
      compared_keys (dataKeys rt data) (trim (toLowerCase prompt)) in
    yAxisKey <> EmptyString ->
    usable data prompt (dataKeys rt data) = Some nk ->
    previousHashRef st <> dataPromptHash rt data prompt ->
    2 <= List.length (DataKeys.numericKeys (dataKeys rt data)) ->
    exists cfg,
      chartConfig (assemble rt g data prompt st) = Some cfg /\
      DataMapping.dataKeys (GeneratedChartConfig.dataMapping cfg)
      = Some (join "," series) /\
      DataMapping.valueKey (GeneratedChartConfig.dataMapping cfg)
      = nth 0 series EmptyString /\
      2 <= List.length series /\
      incl series (DataKeys.numericKeys (dataKeys rt data)).
Proof.
  intros rt g data k t x y nk st prompt series Hy Hu Hh Hnum.
  destruct (assemble_mapping rt g data prompt nk st Hu Hh) as (cfg & Hc & Hm).
  exists cfg. split; [exact Hc|].
  pose proof (action_prompt_compares k t x y Hy) as Hand.
  fold prompt in Hand.
  unfold keys_from_comparison in Hm.
  destruct (keys_from_mentions _ _ _) as [[n v] d].
  rewrite Hand in Hm. rewrite !orb_true_r in Hm. cbn [orb andb] in Hm.
  apply Nat.leb_le in Hnum. rewrite Hnum in Hm.
  assert (Hlen : 2 <= List.length series /\
                 incl series (DataKeys.numericKeys (dataKeys rt data))).
  { unfold series, compared_keys.
    destruct (2 <=? List.length (filter _ _)) eqn:E2.
    - apply Nat.leb_le in E2. split; [exact E2|].
      intros a Ha. apply filter_In in Ha. tauto.
    - apply Nat.leb_le in Hnum. split.
      + rewrite length_firstn. lia.
      + intros a Ha.
        rewrite <- (firstn_skipn 2 (DataKeys.numericKeys (dataKeys rt data))).
        apply in_or_app. now left. }
  assert (Hs : exists a b l, series = a :: b :: l).
  { destruct Hlen as [Hl _]. destruct series as [|a [|b l]]; cbn in Hl;
      [lia | lia | now exists a, b, l]. }
  assert (Hm' :
    (DataMapping.nameKey (GeneratedChartConfig.dataMapping cfg),
     DataMapping.valueKey (GeneratedChartConfig.dataMapping cfg),
     DataMapping.dataKeys (GeneratedChartConfig.dataMapping cfg))
    = (n, nth 0 series EmptyString, Some (join "," series))).
  { rewrite Hm. destruct Hs as (a & b & l & Hs).
    unfold series, compared_keys in Hs |- *.
    unfold named_by_a_word in Hs |- *.
    destruct (2 <=? List.length (filter _ _)) eqn:E2.
    - rewrite Hs, join_nonempty. reflexivity.
    - rewrite Hs, join_nonempty. f_equal. f_equal.
      rewrite <- Hs.
      destruct (DataKeys.numericKeys (dataKeys rt data)); reflexivity. }
  injection Hm' as _ Hv Hd.
  split; [exact Hd|]. split; [exact Hv|]. exact Hlen.
Qed.

Lemma action_value_key_is_compared_witness :
  exists cfg,
    chartConfig
      (assemble Samples.runtime Samples.builders MoreSamples.sales_rows
         (App.action_prompt "bar" None (Some "name") (Some "sales"))
         initial) = Some cfg /\
    DataMapping.dataKeys (GeneratedChartConfig.dataMapping cfg)
    = Some "value,sales" /\
    DataMapping.valueKey (GeneratedChartConfig.dataMapping cfg) = "value".
Proof.
  destruct (action_value_key_is_compared Samples.runtime Samples.builders
              MoreSamples.sales_rows "bar" None (Some "name") "sales" "name"
              initial) as (cfg & Hc & Hd & Hv & _).
  - discriminate.
  - vm_compute. reflexivity.
  - vm_compute. discriminate.
  - vm_compute. lia.
  - exists cfg. split; [exact Hc|]. split.
    + rewrite Hd. vm_compute. reflexivity.
    + rewrite Hv. vm_compute. reflexivity.
Defined.

End MappingFacts.

Module TitleFacts.
Local Open Scope nat_scope.
Import JsString Regex Js Generator App Titles MappingFacts.

Lemma length_append (a b : string) :
  String.length (a ++ b) = String.length a + String.length b.
Proof. induction a as [|c a IH]; cbn; [reflexivity | now rewrite IH]. Qed.

Lemma take_append (a b : string) : take (String.length a) (a ++ b) = a.
Proof. induction a as [|c a IH]; cbn; [now destruct b | now rewrite IH]. Qed.

Lemma star_run (A : Type) (k : option ascii -> string -> option A)
    (v : A) (t stop : string) :
  quote_free t = true -> stops stop ->
  (forall prev, k prev stop = Some v) ->
  forall prev, star_loop not_quote k prev (t ++ stop) = Some v.
Proof.
  intros Ht Hs Hk. induction t as [|c t IH]; intro prev.
  - cbn. destruct stop as [|q rest]; cbn; [apply Hk|].
    cbn in Hs. unfold not_quote. rewrite Hs. apply Hk.
  - cbn in Ht. apply andb_prop in Ht. destruct Ht as [Hc Ht].
    cbn. rewrite Hc, (IH Ht). reflexivity.
Qed.

(** The group takes the whole run up to the first quote or the end. *)
Lemma title_text_run (prev : option ascii) (t stop : string) :
  t <> EmptyString -> quote_free t = true -> stops stop ->
  title_text prev (t ++ stop) = Some t.
Proof.
  intros Hne Ht Hs. unfold title_text.
  destruct t as [|c t]; [congruence|].
  cbn in Ht. apply andb_prop in Ht. destruct Ht as [Hc Ht].
  change (rmatch (Plus not_quote) prev (String c t ++ stop) ?k)
    with (if not_quote c then star_loop not_quote k (Some c) (t ++ stop)
          else None).
  rewrite Hc. apply star_run; [exact Ht | exact Hs|].
  intro p.
  assert (E : take (String.length (String c t ++ stop) - String.length stop)
                (String c t ++ stop) = String c t).
  { rewrite length_append.
    replace (String.length (String c t) + String.length stop
             - String.length stop) with (String.length (String c t)) by lia.
    apply take_append. }
  cbn [rmatch Opt]. rewrite E.
  destruct stop as [|q rest]; cbn; [reflexivity|].
  now destruct (is_quote q).
Qed.

Lemma title_text_all (prev : option ascii) (t : string) :
  t <> EmptyString -> quote_free t = true -> title_text prev t = Some t.
Proof.
  intros Hne Ht.
  pose proof (title_text_run prev t EmptyString Hne Ht I) as H.
  now rewrite append_empty in H.
Qed.

(** A match starts with a letter t followed by a letter i. *)
Lemma title_here_needs_ti (prev : option ascii) (s : string) :
  match s with
  | String c (String c' _) =>
      Ascii.eqb (lower_char c) "t" && Ascii.eqb (lower_char c') "i" = false
  | _ => True
  end ->
  title_here prev s = None.
Proof.
  destruct s as [|c [|c' s']]; intro H.
  - reflexivity.
  - cbn. change (lower_char "t") with "t"%char.
    now destruct (Ascii.eqb (lower_char c) "t").
  - unfold title_here, re_title_word. cbn.
    change (lower_char "t") with "t"%char.
    change (lower_char "i") with "i"%char.
    destruct (Ascii.eqb (lower_char c) "t"); [|reflexivity].
    cbn in H. rewrite H. reflexivity.
Qed.

Lemma title_search_skip (pre s : string) (c0 : ascii) :
  ti_free (pre ++ String c0 EmptyString) = true ->
  Ascii.eqb (lower_char c0) "t" = false ->
  forall prev,
    title_search prev (pre ++ String c0 s) = title_search (Some c0) s.
Proof.
  intros Hf Hc0. induction pre as [|c pre IH]; intro prev.
  - cbn [append title_search].
    rewrite title_here_needs_ti; [reflexivity|].
    destruct s; [exact I|]. now rewrite Hc0.
  - cbn [append] in Hf |- *. cbn [ti_free] in Hf.
    apply andb_prop in Hf. destruct Hf as [Hc Hf].
    cbn [title_search].
    rewrite title_here_needs_ti; [now apply IH|].
    destruct pre as [|c' pre]; cbn [append] in Hc |- *.
    + apply negb_true_iff in Hc. exact Hc.
    + apply negb_true_iff in Hc. exact Hc.
Qed.

Lemma title_search_none (s : string) :
  ti_free s = true -> forall prev, title_search prev s = None.
Proof.
  induction s as [|c s IH]; intros Hf prev; [reflexivity|].
  cbn [ti_free] in Hf. apply andb_prop in Hf. destruct Hf as [Hc Hf].
  cbn [title_search].
  rewrite title_here_needs_ti; [now apply IH|].
  destruct s as [|c' s]; [exact I|].
  apply negb_true_iff in Hc. exact Hc.
Qed.

Lemma titled_here (prev : option ascii) (t rest : string) :
  t <> EmptyString -> quote_free t = true ->
  title_here prev ("titled " ++ Samples.quoted t ++ rest) = Some t.
Proof.
  intros Hne Ht.
  unfold Samples.quoted. cbn [append].
  rewrite append_assoc. cbn [append].
  unfold title_here, re_title_word, re_title_gap.
  cbn -[title_text].
  rewrite title_text_run; [reflexivity | exact Hne | exact Ht | reflexivity].
Qed.

Lemma title_search_found (prev : option ascii) (s t : string) :
  title_here prev s = Some t -> title_search prev s = Some t.
Proof. intro H. destruct s; cbn [title_search]; now rewrite H. Qed.

Lemma ti_free_snoc (a : string) (c0 : ascii) :
  ti_free a = true -> Ascii.eqb (lower_char c0) "i" = false ->
  ti_free (a ++ String c0 EmptyString) = true.
Proof.
  intros Ha Hc. induction a as [|c a IH].
  - cbn. now rewrite andb_false_r.
  - cbn [ti_free] in Ha. apply andb_prop in Ha. destruct Ha as [H1 H2].
    cbn [append ti_free]. rewrite (IH H2), andb_true_r.
    destruct a as [|c' a]; cbn [append].
    + rewrite Hc. now rewrite andb_false_r.
    + exact H1.
Qed.

Lemma title_here_needs_title (prev : option ascii) (s : string) :
  startsWith (toLowerCase s) "title" = false -> title_here prev s = None.
Proof.
  intro H. unfold title_here, re_title_word.
  destruct s as [|c1 [|c2 [|c3 [|c4 [|c5 s]]]]];
    cbn -[Ascii.eqb lower_char title_text] in H |- *;
    change (lower_char "t") with "t"%char;
    change (lower_char "i") with "i"%char;
    change (lower_char "l") with "l"%char;
    change (lower_char "e") with "e"%char;
    try rewrite (Ascii.eqb_sym (lower_char c1));
    try rewrite (Ascii.eqb_sym (lower_char c2));
    try rewrite (Ascii.eqb_sym (lower_char c3));
    try rewrite (Ascii.eqb_sym (lower_char c4));
    try rewrite (Ascii.eqb_sym (lower_char c5));
    repeat match goal with
           | |- context [Ascii.eqb ?a (lower_char ?c)] =>
               destruct (Ascii.eqb a (lower_char c));
               cbn -[Ascii.eqb lower_char title_text] in H |- *;
               try reflexivity; try discriminate
           end.
  all: try reflexivity.
  all: destruct s; cbn in H; discriminate H.
Qed.

Lemma title_search_absent (s : string) :
  includes (toLowerCase s) "title" = false ->
  forall prev, title_search prev s = None.
Proof.
  induction s as [|c s IH]; intros H prev; [reflexivity|].
  cbn [toLowerCase includes] in H. apply orb_false_iff in H.
  destruct H as [H1 H2].
  cbn [title_search]. rewrite title_here_needs_title; [|exact H1].
  now apply IH.
Qed.

Lemma quote_free_append (a b : string) :
  quote_free a = true -> quote_free b = true -> quote_free (a ++ b) = true.
Proof.
  intros Ha Hb. induction a as [|c a IH]; [exact Hb|].
  cbn in Ha |- *. apply andb_prop in Ha. destruct Ha as [H1 H2].
  now rewrite H1, IH.
Qed.

(** X23: a title passes through the prompt of the generateChart action:
    when the title is not empty and holds no quote, and no t of the chart
    type is followed by an i, the component shows exactly that title,
    whatever the axis keys; and for a prompt that does not contain the
    word title, the component shows the chart type with its first letter
    in upper case, followed by " Chart". *)
Theorem title_round_trip :
  forall (cfg : GeneratedChartConfig.t) (chartType title : string)
         (xAxisKey yAxisKey : option string),
    title <> EmptyString ->
    quote_free title = true ->
    ti_free chartType = true ->
    getChartTitle (Some cfg)
      (action_prompt chartType (Some title) xAxisKey yAxisKey) = title /\
    forall prompt,
      includes (toLowerCase prompt) "title" = false ->
      GeneratedChartConfig.chartType cfg <> EmptyString ->
      getChartTitle (Some cfg) prompt
      = (capitalized (GeneratedChartConfig.chartType cfg) ++ " Chart")%string.
Proof.
  intros cfg k t x y Hne Hq Hk. split.
  - unfold getChartTitle, action_prompt.
    assert (Ht : is_truthy_key (Some t) = true)
      by (destruct t; [congruence | reflexivity]).
    rewrite Ht. cbn [Server.text].
    set (rest := ((if is_truthy_key x then _ else _)
                  ++ (if is_truthy_key y then _ else _))%string).
    assert (E : (k ++ " chart" ++ (" titled " ++ Samples.quoted t) ++ rest
                 = (k ++ " chart")
                   ++ String " " ("titled " ++ Samples.quoted t ++ rest))%string).
    { rewrite !append_assoc. reflexivity. }
    rewrite E, title_search_skip.
    + now rewrite (title_search_found _ _ t (titled_here _ t rest Hne Hq)).
    + rewrite append_assoc. cbn [append].
      assert (E2 : (k ++ " chart ")%string
                   = ((k ++ " ") ++ "chart ")%string)
        by (rewrite append_assoc; reflexivity).
      rewrite E2. clear E2.
      pose proof (ti_free_snoc k " " Hk eq_refl) as H1.
      revert H1. generalize (k ++ " ")%string. intros a Ha.
      repeat (match goal with
              | |- ti_free (?a ++ String ?c ?r) = true =>
                  assert (E3 : (a ++ String c r
                                = (a ++ String c EmptyString) ++ r)%string)
                    by (rewrite append_assoc; reflexivity);
                  rewrite E3; clear E3;
                  let H := fresh "H" in
                  pose proof (ti_free_snoc a c Ha eq_refl) as H;
                  clear Ha; revert H;
                  generalize (a ++ String c EmptyString)%string;
                  clear a; intros a Ha
              end).
      now rewrite append_empty.
    + reflexivity.
  - intros prompt Hp Hc. unfold getChartTitle.
    rewrite title_search_absent; [|exact Hp].
    destruct (GeneratedChartConfig.chartType cfg); [congruence | reflexivity].
Qed.

Lemma title_round_trip_witness :
  getChartTitle (Some MoreSamples.pie_config)
    (action_prompt "pie" (Some "Sales by region") (Some "name")
       (Some "value")) = "Sales by region" /\
  getChartTitle (Some MoreSamples.pie_config) "pie chart of sales"
  = "Pie Chart".
Proof.
  destruct (title_round_trip MoreSamples.pie_config "pie" "Sales by region"
              (Some "name") (Some "value")) as [H1 H2];
    [discriminate | reflexivity | reflexivity|].
  split; [exact H1|].
  apply (H2 "pie chart of sales"); [reflexivity | discriminate].
Defined.

(** X24: the colon form of a title keeps its colon: for a prompt that
    ends in "title: " followed by a text without quotes, after a part in
    which no t is followed by an i, the component shows ": " followed by
    that text. *)
Theorem title_colon_is_kept :
  forall (cfg : GeneratedChartConfig.t) (before title : string),
    ti_free before = true ->
    quote_free title = true ->
    getChartTitle (Some cfg) (before ++ " title: " ++ title)
    = (": " ++ title)%string.
Proof.
  intros cfg pre t Hpre Hq. unfold getChartTitle.
  change (pre ++ " title: " ++ t)%string
    with (pre ++ String " " ("title: " ++ t))%string.
  rewrite title_search_skip;
    [| now apply ti_free_snoc | reflexivity].
  assert (E : title_here (Some " "%char) ("title: " ++ t)
              = Some (": " ++ t)%string).
  { unfold title_here, re_title_word, re_title_gap.
    cbn -[title_text].
    rewrite (title_text_all (Some "e"%char) (String ":" (String " " t)));
      [reflexivity | discriminate|].
    cbn [quote_free]. now rewrite Hq. }
  now rewrite (title_search_found _ _ _ E).
Qed.

Lemma title_colon_is_kept_witness :
  getChartTitle (Some MoreSamples.pie_config)
    ("bar chart" ++ " title: " ++ "Sales") = ": Sales".
Proof.
  apply (title_colon_is_kept MoreSamples.pie_config "bar chart" "Sales");
    reflexivity.
Defined.

End TitleFacts.

Module TrendlineFacts.
Local Open Scope nat_scope.
Import JsString Regex Js Registry Generator ChartShapes AssemblyFacts
       SessionFacts MappingFacts.

Lemma startsWith_split (s p : string) :
  startsWith s p = true -> exists b, s = (p ++ b)%string.
Proof.
  revert s. induction p as [|c p IH]; intros s H.
  - exists s. reflexivity.
  - destruct s as [|d s]; [discriminate|].
    cbn in H. apply andb_prop in H. destruct H as [Hc Hs].
    apply Ascii.eqb_eq in Hc. subst d.
    destruct (IH s Hs) as (b & ->). now exists b.
Qed.

Lemma includes_split (s p : string) :
  includes s p = true -> exists a b, s = (a ++ p ++ b)%string.
Proof.
  induction s as [|c s IH]; intro H.
  - cbn [includes] in H. rewrite orb_false_r in H.
    apply startsWith_split in H. destruct H as (b & H).
    exists EmptyString, b. exact H.
  - cbn [includes] in H. apply orb_prop in H. destruct H as [H|H].
    + apply startsWith_split in H. destruct H as (b & H).
      exists EmptyString, b. exact H.
    + destruct (IH H) as (a & b & ->). now exists (String c a), b.
Qed.

(** Trimming removes white space only before the first and after the last
    character that is none. *)
Lemma trimStart_before_text (a r : string) (c : ascii) :
  is_space c = false ->
  (trimStart (a ++ String c r) = trimStart a ++ String c r)%string.
Proof.
  intro Hc. induction a as [|d a IH]; cbn.
  - now rewrite Hc.
  - destruct (is_space d); [exact IH | reflexivity].
Qed.

Lemma trimEnd_after_text (r b : string) (c : ascii) :
  is_space c = false ->
  (trimEnd ((r ++ String c EmptyString) ++ b)
   = (r ++ String c EmptyString) ++ trimEnd b)%string.
Proof.
  intro Hc. unfold trimEnd.
  rewrite !rev_string_append. cbn [rev_string append].
  rewrite (trimStart_before_text (rev_string b "") (rev_string r "") c Hc).
  rewrite rev_string_append. cbn [rev_string].
  rewrite (rev_string_acc (rev_string r "")), rev_string_involutive.
  reflexivity.
Qed.

(** A phrase that begins and ends with a character other than white
    space occurs in the trimmed text as soon as it occurs in the text. *)
Lemma includes_trim (s q : string) (c d : ascii) :
  is_space c = false -> is_space d = false ->
  includes s (String c (q ++ String d EmptyString)) = true ->
  includes (trim s) (String c (q ++ String d EmptyString)) = true.
Proof.
  intros Hc Hd H. apply includes_split in H. destruct H as (a & b & ->).
  unfold trim. cbn [append].
  rewrite (trimStart_before_text a _ c Hc).
  assert (E : (trimStart a ++ String c ((q ++ String d "") ++ b)
               = ((trimStart a ++ String c q) ++ String d "") ++ b)%string).
  { cbn [append]. rewrite !append_assoc. reflexivity. }
  rewrite E, (trimEnd_after_text _ b d Hd).
  assert (E2 : (((trimStart a ++ String c q) ++ String d "") ++ trimEnd b
                = trimStart a ++ String c (q ++ String d "") ++ trimEnd b)%string).
  { cbn [append]. rewrite !append_assoc. reflexivity. }
  rewrite E2. apply includes_middle.
Qed.

Lemma asks_multiple_by_phrase (prompt : string) :
  includes (toLowerCase prompt) "dual trendline" = true \/
  includes (toLowerCase prompt) "multiple trendline" = true ->
  asks_multiple_trendlines (trim (toLowerCase prompt)) = true.
Proof.
  unfold asks_multiple_trendlines. intros [H|H].
  - pose proof (includes_trim (toLowerCase prompt) "ual trendlin" "d" "e"
                  eq_refl eq_refl H) as H'.
    cbn [append] in H'. rewrite H'. reflexivity.
  - pose proof (includes_trim (toLowerCase prompt) "ultiple trendlin" "m" "e"
                  eq_refl eq_refl H) as H'.
    cbn [append] in H'. rewrite H'. now rewrite orb_true_r.
Qed.

(** X13: a prompt that contains "dual trendline" or "multiple trendline",
    in any letter case and anywhere in the text, is drawn as a line chart
    with both trendline flags set, whatever chart type it names: the
    detected and the stored chart type are "line".  The same holds when
    the two words are joined or separated by more white space, as in
    "Scatter plot with DUAL   Trend Line" and in
    "pie with multipletrendline"; a hyphen between them, or a single
    "trendline", does not set the second flag. *)
Theorem multiple_trendlines_take_priority :
  forall (rt : Runtime) (g : string -> EChartsElementConfig -> Obj)
         (data : list JValue) (prompt nk : string) (st : State),
    usable data prompt (dataKeys rt data) = Some nk ->
    previousHashRef st <> dataPromptHash rt data prompt ->
    includes (toLowerCase prompt) "dual trendline" = true \/
    includes (toLowerCase prompt) "multiple trendline" = true ->
    (detectEChartsType rt g prompt = "line" /\
     trendline_flags (trim (toLowerCase prompt)) = (true, true) /\
     exists cfg,
       chartConfig (assemble rt g data prompt st) = Some cfg /\
       GeneratedChartConfig.chartType cfg = "line") /\
    detectEChartsType rt g "Scatter plot with DUAL   Trend Line" = "line" /\
    trendline_flags (trim (toLowerCase "Scatter plot with DUAL   Trend Line"))
    = (true, true) /\
    detectEChartsType rt g "pie with multipletrendline" = "line" /\
    trendline_flags (trim (toLowerCase "Multiple-trendlines pie"))
    = (true, false) /\
    trendline_flags (trim (toLowerCase "scatter plot with a trendline"))
    = (true, false) /\
    detectEChartsType rt g "scatter plot with a trendline" = "scatter".
Proof.
  intros rt g data prompt nk st Hu Hh Hp.
  split; [|repeat split; vm_compute; reflexivity].
  pose proof (asks_multiple_by_phrase prompt Hp) as Hm.
  assert (Hd : detectEChartsType rt g prompt = "line").
  { unfold detectEChartsType. now rewrite Hm. }
  split; [exact Hd|].
  split; [unfold trendline_flags; now rewrite Hm|].
  rewrite (assemble_usable rt g data prompt nk st Hu).
  destruct (String.eqb_spec (previousHashRef st)
              (dataPromptHash rt data prompt)) as [E|_]; [contradiction|].
  destruct (generate_stores rt g data prompt (dataKeys rt data) nk
              (dataPromptHash rt data prompt) st)
    as (_ & _ & cfg & Hc & Hty & _).
  exists cfg. split; [exact Hc|]. rewrite Hty.
  unfold chosen_chartType. rewrite Hd. cbn.
  now rewrite andb_false_r.
Qed.

Lemma multiple_trendlines_take_priority_witness :
  detectEChartsType Samples.runtime Samples.builders
    "Pie chart of value, with a Dual Trendline " = "line" /\
  exists cfg,
    chartConfig (assemble Samples.runtime Samples.builders Samples.jan_feb
                   "Pie chart of value, with a Dual Trendline " initial)
    = Some cfg /\
    GeneratedChartConfig.chartType cfg = "line".
Proof.
  destruct (multiple_trendlines_take_priority Samples.runtime
              Samples.builders Samples.jan_feb
              "Pie chart of value, with a Dual Trendline " "name" initial)
    as [(Hd & _ & Hc) _].
  - vm_compute. reflexivity.
  - vm_compute. discriminate.
  - left. vm_compute. reflexivity.
  - split; [exact Hd | exact Hc].
Defined.

End TrendlineFacts.
